(** * Training orchestration of hyperpose/Model/openpose/train.py

    A shallow embedding of [_data_aug_fn], [single_train] and
    [parallel_train], and the properties of the orchestration engine that
    the specification states about them.

    Conventions of the embedding.
    - Python and numpy integers are [Z]; every step counter stays far below
      the 32-bit range of the [tf.Variable] that holds it.
    - Floats (learning rates, losses, pixel values) are idealised as exact
      rationals [Q], compared with [==].
    - A Python exception is an [outcome] of the state-and-exception monad
      [M]; the state reached when the exception is raised is kept, so the
      trace of what happened before it can be inspected.
    - Collaborators that live outside this file (model, discriminator,
      optimizer kernels, augmentor, preprocessor, [decode_mask]) are the
      fields of interface records and arguments of the functions. *)

From Stdlib Require Import String ZArith QArith List Bool Lia Permutation Sorted.
Import ListNotations.
Local Open Scope Z_scope.

(* ------------------------------------------------------------------ *)
(** * Python values, exceptions and control flow *)
(* ------------------------------------------------------------------ *)
Module Py.

Inductive exn : Type :=
| ZeroDivisionError
| ValueError
| AttributeError
| IndexError
| RuntimeError
| StopIteration
| InvalidArgumentError
| DataLossError.

Inductive outcome (A : Type) : Type :=
| Ok (a : A)
| Raise (e : exn).
Arguments Ok {A} a.
Arguments Raise {A} e.

(** State-and-exception monad: a raised exception keeps the state. *)
Definition M (S A : Type) : Type := S -> outcome A * S.

Definition ret {S A} (a : A) : M S A := fun s => (Ok a, s).
Definition bind {S A B} (c : M S A) (k : A -> M S B) : M S B :=
  fun s => match c s with
           | (Ok a, s') => k a s'
           | (Raise e, s') => (Raise e, s')
           end.
Definition raise {S A} (e : exn) : M S A := fun s => (Raise e, s).
Definition get {S} : M S S := fun s => (Ok s, s).
Definition modify {S} (f : S -> S) : M S unit := fun s => (Ok tt, f s).
Definition lift {S A} (r : outcome A) : M S A := fun s => (r, s).

(** [c] preserves the property [P] of the state, whether it returns or
    raises. *)
Definition keeps {S A} (P : S -> Prop) (c : M S A) : Prop :=
  forall s, P s -> P (snd (c s)).

(** [try: c except: h] with a bare [except]. *)
Definition try_except {S A} (c : M S A) (h : M S A) : M S A :=
  fun s => match c s with
           | (Ok a, s') => (Ok a, s')
           | (Raise _, s') => h s'
           end.

(** [for x in l: body x]. *)
Fixpoint for_each {S A} (l : list A) (body : A -> M S unit) : M S unit :=
  match l with
  | [] => ret tt
  | x :: l' => bind (body x) (fun _ => for_each l' body)
  end.

(** [range(lo, hi)]. *)
Definition range (lo hi : Z) : list Z :=
  map (fun i => lo + Z.of_nat i) (seq 0 (Z.to_nat (hi - lo))).

(** [a // b] on Python ints. *)
Definition floordiv (a b : Z) : outcome Z :=
  if b =? 0 then Raise ZeroDivisionError else Ok (a / b).

(** [a % b] when [a] is a numpy integer scalar: a zero divisor gives 0
    (with a warning), it does not raise. *)
Definition np_mod (a b : Z) : Z := if b =? 0 then 0 else a mod b.

(** [x in l] and [l.index(x)] on a list of ints. *)
Fixpoint contains (x : Z) (l : list Z) : bool :=
  match l with
  | [] => false
  | y :: l' => (x =? y) || contains x l'
  end.

Fixpoint index (x : Z) (l : list Z) : outcome nat :=
  match l with
  | [] => Raise ValueError
  | y :: l' => if x =? y then Ok 0%nat
               else match index x l' with
                    | Ok i => Ok (S i)
                    | Raise e => Raise e
                    end
  end.

(** [f ** n] for a non-negative integer exponent. *)
Fixpoint pow (f : Q) (n : nat) : Q :=
  match n with
  | O => 1%Q
  | S n' => (f * pow f n')%Q
  end.

End Py.
Import Py.

Declare Scope py_scope.
Delimit Scope py_scope with py.
Notation "x <- c1 ;; c2" := (bind c1 (fun x => c2))
  (at level 61, c1 at next level, right associativity) : py_scope.
Notation "c1 ;;; c2" := (bind c1 (fun _ => c2))
  (at level 61, right associativity) : py_scope.

(* ------------------------------------------------------------------ *)
(** * Learning-rate schedule *)
(* ------------------------------------------------------------------ *)
Module Schedule.

(** train.py line 121 (and 324). *)
Definition lr_decay_steps : list Z :=
  [200000; 300000; 360000; 420000; 480000; 540000; 600000; 700000; 800000; 900000].

(** Lines 209-211: the catch-up loop run once after restoring,
    [for lr_decay_step in lr_decay_steps: if step > lr_decay_step: lr = lr * lr_decay_factor]. *)
Definition catch_up (factor : Q) (steps : list Z) (step : Z) (lr : Q) : Q :=
  fold_left (fun lr lr_decay_step => if step >? lr_decay_step then (lr * factor)%Q else lr)
            steps lr.

(** Lines 257-259: the per-iteration update,
    [if step in lr_decay_steps: lr = lr_init * lr_decay_factor ** (lr_decay_steps.index(step) + 1)]. *)
Definition decay (lr_init factor : Q) (steps : list Z) (step : Z) (lr : Q) : outcome Q :=
  if contains step steps then
    match index step steps with
    | Ok i => Ok (lr_init * pow factor (i + 1))%Q
    | Raise e => Raise e
    end
  else Ok lr.

(** The (step, lr) pair as the training loop advances it: [step += 1]
    (line 247) followed by the update above.  A [Raise] would be the
    [ValueError] of [index], which the [in] guard excludes. *)
Definition advance (lr_init factor : Q) (steps : list Z) (s : Z * Q) : outcome (Z * Q) :=
  let step := fst s + 1 in
  match decay lr_init factor steps step (snd s) with
  | Ok lr => Ok (step, lr)
  | Raise e => Raise e
  end.

Fixpoint advance_n (lr_init factor : Q) (steps : list Z) (n : nat) (s : Z * Q)
  : outcome (Z * Q) :=
  match n with
  | O => Ok s
  | S n' => match advance_n lr_init factor steps n' s with
            | Ok s' => advance lr_init factor steps s'
            | Raise e => Raise e
            end
  end.

(** What lines 206-211 leave in [(step, lr)] given the values read back
    from the [save_step] and [save_lr] variables. *)
Definition resume (factor : Q) (steps : list Z) (saved_step : Z) (saved_lr : Q) : Z * Q :=
  (saved_step, catch_up factor steps saved_step saved_lr).

(** Number of thresholds at or below a step. *)
Definition thresholds_le (steps : list Z) (s : Z) : nat :=
  length (filter (fun t => t <=? s) steps).

(** Number of thresholds strictly below a step. *)
Definition thresholds_lt (steps : list Z) (s : Z) : nat :=
  length (filter (fun t => t <? s) steps).

(** The closed form the specification gives for the schedule. *)
Definition lr_spec (lr_init factor : Q) (steps : list Z) (s : Z) : Q :=
  (lr_init * pow factor (thresholds_le steps s))%Q.

End Schedule.

(* ------------------------------------------------------------------ *)
(** * Batch pipeline: shuffle, shard, repeat, batch *)
(* ------------------------------------------------------------------ *)
Module Pipeline.

(** A dataset is the list of its sample indices.  [shuffle] is random and
    unseeded (lines 153 and 361), so the order it produces on pass [e] is
    an input of the model: any permutation of the dataset. *)
Definition shuffle_order : Type := nat -> list nat.

Definition well_shuffled (samples : list nat) (order : shuffle_order) : Prop :=
  forall e, Permutation (order e) samples.

(** [Dataset.shard(num_shards, index)] keeps the elements whose position
    in its input is congruent to [index] modulo [num_shards]. *)
Fixpoint shard_from (pos num_shards index : nat) (l : list nat) : list nat :=
  match l with
  | [] => []
  | x :: l' =>
      if (pos mod num_shards =? index)%nat
      then x :: shard_from (S pos) num_shards index l'
      else shard_from (S pos) num_shards index l'
  end.

Definition shard (num_shards index : nat) (l : list nat) : list nat :=
  shard_from 0 num_shards index l.

Fixpoint all_some {A} (l : list (option A)) : option (list A) :=
  match l with
  | [] => Some []
  | None :: _ => None
  | Some x :: l' => match all_some l' with
                    | Some r => Some (x :: r)
                    | None => None
                    end
  end.

(** [repeat()] over passes of [n] elements each: element [k] of the
    repeated stream.  Repeating an empty pass yields an empty stream. *)
Definition stream_elem (n : nat) (pass : nat -> list nat) (k : nat) : option nat :=
  if (n =? 0)%nat then None else nth_error (pass (k / n)%nat) (k mod n)%nat.

(** [batch(batch_size)] over the repeated stream: the samples of batch [i]. *)
Definition take_batch (n batch_size : nat) (pass : nat -> list nat) (i : nat)
  : option (list nat) :=
  all_some (map (stream_elem n pass) (seq (i * batch_size) batch_size)).

(** Lines 153-155, single mode: [shuffle(4096).repeat()...batch(batch_size)]. *)
Definition single_batch (samples : list nat) (order : shuffle_order)
           (batch_size : nat) (i : nat) : option (list nat) :=
  take_batch (length samples) batch_size order i.

(** Lines 361-365, multi-worker mode:
    [shuffle(4096).shard(cluster_size, rank).repeat()...batch(batch_size)].
    The shard is cut out of this worker's own shuffled order. *)
Definition worker_pass (cluster_size rank : nat) (order : shuffle_order) (e : nat)
  : list nat :=
  shard cluster_size rank (order e).

Definition worker_batch (cluster_size rank : nat) (order : shuffle_order)
           (batch_size : nat) (i : nat) : option (list nat) :=
  take_batch (length (worker_pass cluster_size rank order 0)) batch_size
             (worker_pass cluster_size rank order) i.

(** Number of complete passes over a dataset of [n] samples that are
    behind a consumer that has taken [batches] batches. *)
Definition passes_completed (n batch_size batches : nat) : nat :=
  ((batches * batch_size) / n)%nat.

End Pipeline.

(* ------------------------------------------------------------------ *)
(** * Collaborators and traces shared by both training modes *)
(* ------------------------------------------------------------------ *)

(** One element of the batched dataset: the four components that [_map_fn]
    returns (line 80), batched. *)
Record batch (tensor : Type) : Type := Batch {
  image : tensor;
  mask : tensor;
  target_x : tensor;
  labeled : list Q
}.
Arguments Batch {tensor}.
Arguments image {tensor}.
Arguments mask {tensor}.
Arguments target_x {tensor}.
Arguments labeled {tensor}.

(** The model, discriminator and optimizer kernels, none of which is
    defined in train.py.  A loss handed to an optimizer is given as a
    function of the parameters it is differentiated against. *)
Class Collaborators : Type := {
  tensor : Type;
  weights : Type;       (* train_model.trainable_weights *)
  dis_weights : Type;   (* adapt_dis.trainable_weights *)
  slots : Type;         (* internal variables of a keras optimizer *)
  prediction : Type;
  make_batch : list nat -> batch tensor;
  labels_tensor : list Q -> tensor;                    (* the [labeled] floats of a batch as a tensor *)
  forward : weights -> tensor -> prediction;
  cal_loss : prediction -> tensor -> tensor -> Q;      (* single mode: predict_x, target_x, mask *)
  backbone_feature : prediction -> tensor;
  dis_cal_loss : dis_weights -> tensor -> list Q -> Q; (* adapt_dis.cal_loss(x, label) *)
  pd_loss : prediction -> tensor -> tensor -> Q;       (* multi-worker mode: first component of cal_loss *)
  regulize_loss : weights -> Q -> Q;
  apply_gradients : slots -> Q -> (weights -> Q) -> weights -> slots * weights;
  apply_gradients_dis : slots -> Q -> (dis_weights -> Q) -> dis_weights -> slots * dis_weights;
  fresh_slots : slots;
  new_discriminator : dis_weights
}.

Inductive optimizer : Type := Opt | OptD.
Inductive param_group : Type := ModelParams | DiscriminatorParams | OptimizerVars.
Inductive artifact : Type := CheckpointFile | NewestModel | NewestDiscriminator.

(** What a run does that can be observed from outside.  [Apply o g n r l]:
    optimizer [o] applies to the parameters [g] the gradients of a loss
    whose value is [l], reading the learning rate [r], while the step
    counter is [n].  [CkptSave n r]: [ckpt_manager.save()] with the values
    [n] and [r] in the saved step and rate variables. *)
Inductive event : Type :=
| Log (msg : string)
| LogStart (total_epoch total_step cur_epoch step : Z)
| LogEpoch (epoch_idx total_epoch : Z)
| LogTrain (step : Z) (lr : Q)
| Metric (name : string) (value : Q)
| Apply (o : optimizer) (g : param_group) (at_step : Z) (lr_used : Q) (loss : Q)
| Broadcast (g : param_group)
| Visualize (step : Z)
| CkptSave (saved_step : Z) (saved_lr : Q)
| SaveWeights (a : artifact).


(** Updates applied through the discriminator's optimizer [opt_d]. *)
Definition by_opt_d (e : event) : bool :=
  match e with
  | Apply OptD _ _ _ _ => true
  | _ => false
  end.

Definition is_update (e : event) : bool :=
  match e with Apply _ _ _ _ _ => true | _ => false end.

Definition is_broadcast (e : event) : bool :=
  match e with Broadcast _ => true | _ => false end.

(** [tf.GradientTape(persistent=...)]: a non-persistent tape is released by
    its first [gradient] call, and a released tape raises [RuntimeError]. *)
Record tape : Type := GradientTape { persistent : bool; released : bool }.

Definition gradient (t : tape) : outcome tape :=
  if released t then Raise RuntimeError
  else Ok (GradientTape (persistent t) (negb (persistent t))).

(* ------------------------------------------------------------------ *)
(** * single_train (lines 89-290) *)
(* ------------------------------------------------------------------ *)
Module Single.
Section WithCollaborators.
Context {K : Collaborators}.
Local Open Scope py_scope.

(** The options of [config] that [single_train] reads. *)
Record config : Type := Config {
  n_step : Z;
  batch_size : Z;
  lr_init : Q;
  lr_decay_factor : Q;
  weight_decay_factor : Q;
  log_interval : Z;
  vis_interval : Z;
  save_interval : Z;
  domainadapt_flag : bool
}.

(** What a checkpoint holds (lines 168 and 176). *)
Record snapshot : Type := Snapshot {
  snap_step : Z;
  snap_lr : Q;
  snap_opt : slots;
  snap_opt_d : slots
}.

(** Everything outside the process that a run depends on.  Each load is
    given by what the library call does: it raises, or it returns.
    [ckpt.restore(None)], the call made when the directory holds no
    checkpoint, returns without touching anything: [Ok None]. *)
Record world : Type := World {
  samples : list nat;
  order : Pipeline.shuffle_order;
  latest_checkpoint : outcome (option snapshot);
  pretrained_backbone : outcome (weights -> weights);
  newest_model : outcome weights;
  newest_discriminator : outcome dis_weights
}.

(** Local variables, [tf.Variable] cells and objects of one run.
    [save_lr] is the variable given to both Adam optimizers as their
    [learning_rate] (lines 162 and 175): an optimizer reads it whenever it
    applies gradients.  [trace] lists events, most recent first. *)
Record state : Type := State {
  step : Z;
  lr : Q;
  save_step : Z;
  save_lr : Q;
  model_w : weights;
  dis_w : dis_weights;
  opt : slots;
  opt_d : slots;
  pulled : nat;
  trace : list event
}.

Definition set_step (v : Z) (s : state) : state :=
  State v (lr s) (save_step s) (save_lr s) (model_w s) (dis_w s) (opt s) (opt_d s) (pulled s) (trace s).
Definition set_lr (v : Q) (s : state) : state :=
  State (step s) v (save_step s) (save_lr s) (model_w s) (dis_w s) (opt s) (opt_d s) (pulled s) (trace s).
Definition set_save_step (v : Z) (s : state) : state :=
  State (step s) (lr s) v (save_lr s) (model_w s) (dis_w s) (opt s) (opt_d s) (pulled s) (trace s).
Definition set_save_lr (v : Q) (s : state) : state :=
  State (step s) (lr s) (save_step s) v (model_w s) (dis_w s) (opt s) (opt_d s) (pulled s) (trace s).
Definition set_model_w (v : weights) (s : state) : state :=
  State (step s) (lr s) (save_step s) (save_lr s) v (dis_w s) (opt s) (opt_d s) (pulled s) (trace s).
Definition set_dis_w (v : dis_weights) (s : state) : state :=
  State (step s) (lr s) (save_step s) (save_lr s) (model_w s) v (opt s) (opt_d s) (pulled s) (trace s).
Definition set_opt (v : slots) (s : state) : state :=
  State (step s) (lr s) (save_step s) (save_lr s) (model_w s) (dis_w s) v (opt_d s) (pulled s) (trace s).
Definition set_opt_d (v : slots) (s : state) : state :=
  State (step s) (lr s) (save_step s) (save_lr s) (model_w s) (dis_w s) (opt s) v (pulled s) (trace s).
Definition set_pulled (v : nat) (s : state) : state :=
  State (step s) (lr s) (save_step s) (save_lr s) (model_w s) (dis_w s) (opt s) (opt_d s) v (trace s).
Definition emit (e : event) : M state unit :=
  modify (fun s =>
    State (step s) (lr s) (save_step s) (save_lr s) (model_w s) (dis_w s) (opt s) (opt_d s)
          (pulled s) (e :: trace s)).

Definition when (b : bool) (c : M state unit) : M state unit :=
  if b then c else ret tt.

(** Lines 160-162 and 174-175: the variables and objects as created,
    before anything is restored. *)
Definition initial (cfg : config) (train_model : weights) : state :=
  {| step := 1; lr := lr_init cfg;
     save_step := 1; save_lr := lr_init cfg;
     model_w := train_model; dis_w := new_discriminator;
     opt := fresh_slots; opt_d := fresh_slots;
     pulled := 0; trace := [] |}.

Section Run.
Variable cfg : config.
Variable env : world.

(** [ckpt.restore(ckpt_manager.latest_checkpoint)]. *)
Definition restore : M state unit :=
  r <- lift (latest_checkpoint env) ;;
  match r with
  | None => ret tt
  | Some c =>
      modify (set_save_step (snap_step c)) ;;;
      modify (set_save_lr (snap_lr c)) ;;;
      modify (set_opt (snap_opt c)) ;;;
      when (domainadapt_flag cfg) (modify (set_opt_d (snap_opt_d c)))
  end.

(** Lines 178-202: the four guarded loads. *)
Definition load_ckpt : M state unit :=
  try_except
    (emit (Log "loading ckpt...") ;;; restore)
    (emit (Log "ckpt_path doesn't exist, step and optimizer are initialized")).

Definition load_backbone : M state unit :=
  try_except
    (emit (Log "loading pretrained backbone...") ;;;
     f <- lift (pretrained_backbone env) ;;
     s <- get ;; modify (set_model_w (f (model_w s))))
    (emit (Log "pretrained backbone doesn't exist, model backbone are initialized")).

Definition load_weights : M state unit :=
  try_except
    (emit (Log "loading saved training model weights...") ;;;
     w <- lift (newest_model env) ;; modify (set_model_w w))
    (emit (Log "model_path doesn't exist, model parameters are initialized")).

Definition load_discriminator : M state unit :=
  try_except
    (emit (Log "loading saved domain adaptation discriminator weight...") ;;;
     d <- lift (newest_discriminator env) ;; modify (set_dis_w d))
    (emit (Log "discriminator path doesn't exist, discriminator parameters are initialized")).

Definition load_all : M state unit :=
  load_ckpt ;;;
  load_backbone ;;;
  load_weights ;;;
  when (domainadapt_flag cfg) load_discriminator.

(** Lines 149-211: everything before the training loop.  Returns
    [(epoch_size, total_epoch)]. *)
Definition startup : M state (Z * Z) :=
  epoch_size <- lift (floordiv (Z.of_nat (length (samples env))) (batch_size cfg)) ;;
  (if batch_size cfg <=? 0 then raise InvalidArgumentError else ret tt) ;;;
  total_epoch <- lift (floordiv (n_step cfg) epoch_size) ;;
  when (domainadapt_flag cfg) (emit (Log "domain adaptaion enabled!")) ;;;
  load_all ;;;
  modify (fun s => set_step (save_step s) s) ;;;
  modify (fun s => set_lr (save_lr s) s) ;;;
  modify (fun s =>
    set_lr (Schedule.catch_up (lr_decay_factor cfg) Schedule.lr_decay_steps (step s) (lr s)) s) ;;;
  ret (epoch_size, total_epoch).

(** [next(train_dataset_iter)] (line 249), with the targets assembled
    (lines 250-254). *)
Definition next_batch : M state (batch tensor) :=
  s <- get ;;
  match Pipeline.single_batch (samples env) (order env)
                              (Z.to_nat (batch_size cfg)) (pulled s) with
  | None => raise StopIteration
  | Some ids => modify (set_pulled (S (pulled s))) ;;; ret (make_batch ids)
  end.

(** Lines 214-236. *)
Definition optimize_step (b : batch tensor) : M state prediction :=
  s <- get ;;
  let tape0 := GradientTape false false in
  let predict_x := forward (model_w s) (image b) in
  let task_loss := fun w => cal_loss (forward w (image b)) (target_x b) (mask b) in
  total_loss <-
    (if domainadapt_flag cfg then
       let g_adapt_loss := fun w =>
         dis_cal_loss (dis_w s) (backbone_feature (forward w (image b)))
                      (map (fun l => 1 - l)%Q (labeled b)) in
       emit (Metric "model/adapt_loss" (g_adapt_loss (model_w s))) ;;;
       ret (fun w => task_loss w + g_adapt_loss w)%Q
     else ret task_loss) ;;
  tape1 <- lift (gradient tape0) ;;
  (let '(o, w) := apply_gradients (opt s) (save_lr s) total_loss (model_w s) in
   emit (Apply Opt ModelParams (step s) (save_lr s) (total_loss (model_w s))) ;;;
   modify (set_opt o) ;;; modify (set_model_w w)) ;;;
  when (domainadapt_flag cfg)
    (s <- get ;;
     let d_adapt_loss := fun d =>
       dis_cal_loss d (backbone_feature predict_x) (labeled b) in
     emit (Metric "dis/adapt_loss" (d_adapt_loss (dis_w s))) ;;;
     tape2 <- lift (gradient tape1) ;;
     let '(o, d) := apply_gradients_dis (opt s) (save_lr s) d_adapt_loss (dis_w s) in
     emit (Apply Opt DiscriminatorParams (step s) (save_lr s) (d_adapt_loss (dis_w s))) ;;;
     modify (set_opt o) ;;; modify (set_dis_w d)) ;;;
  ret predict_x.

(** [(step != 0) and (step % interval) == 0], [step] a numpy integer. *)
Definition due (step interval : Z) : bool :=
  negb (step =? 0) && (np_mod step interval =? 0).

(** Lines 276-290. *)
Definition save : M state unit :=
  emit (Log "saving model ckpt and result...") ;;;
  modify (fun s => set_save_step (step s) s) ;;;
  modify (fun s => set_save_lr (lr s) s) ;;;
  s <- get ;;
  emit (CkptSave (save_step s) (save_lr s)) ;;;
  emit (SaveWeights NewestModel) ;;;
  when (domainadapt_flag cfg) (emit (SaveWeights NewestDiscriminator)).

(** Lines 247-290: one iteration of the inner loop. *)
Definition iteration (epoch_idx : Z) : M state unit :=
  modify (fun s => set_step (step s + 1) s) ;;;
  b <- next_batch ;;
  s <- get ;;
  new_lr <- lift (Schedule.decay (lr_init cfg) (lr_decay_factor cfg)
                                 Schedule.lr_decay_steps (step s) (lr s)) ;;
  modify (set_lr new_lr) ;;;
  predict_x <- optimize_step b ;;
  s <- get ;;
  when (due (step s) (log_interval cfg)) (emit (LogTrain (step s) (lr s))) ;;;
  when (due (step s) (vis_interval cfg))
    (emit (Log "Visualizing prediction maps and target maps") ;;;
     emit (Visualize (step s))) ;;;
  when (due (step s) (save_interval cfg)) save.

(** Lines 240-247: the two nested loops. *)
Definition training (epoch_size total_epoch : Z) : M state unit :=
  s <- get ;;
  let cur_epoch := step s / epoch_size + 1 in
  emit (LogStart total_epoch (n_step cfg) cur_epoch (step s)) ;;;
  for_each (range cur_epoch total_epoch) (fun epoch_idx =>
    emit (LogEpoch epoch_idx total_epoch) ;;;
    for_each (range 0 epoch_size) (fun _ => iteration epoch_idx)).

Definition single_train : M state unit :=
  p <- startup ;;
  training (fst p) (snd p).

End Run.

(** A whole run, from the objects as created. *)
Definition run (cfg : config) (env : world) (train_model : weights) : outcome unit * state :=
  single_train cfg env (initial cfg train_model).

(** Projections of a trace, oldest event first. *)
Definition history (s : state) : list event := rev (trace s).

Definition checkpoint_saves (s : state) : list Z :=
  flat_map (fun e => match e with CkptSave n _ => [n] | _ => [] end) (history s).

Definition updates (s : state) : list event := filter is_update (history s).

(** No event of the trace satisfies [p]. *)
Definition never (p : event -> bool) (s : state) : Prop :=
  Forall (fun e => p e = false) (trace s).

(** ** Bookkeeping of a run

    The counters, the two learning-rate cells and the updates, progress
    lines and saves of the trace, with the loss values left out.  [tick]
    is what one iteration does to them when domain adaptation is off; that
    it agrees with [iteration] is proved below. *)
Record book : Type := Book {
  b_step : Z;
  b_lr : Q;
  b_save_step : Z;
  b_save_lr : Q;
  b_pulled : nat;
  b_events : list event
}.

Definition bookkeeping (e : event) : list event :=
  match e with
  | Apply o g n l _ => [Apply o g n l 0]
  | LogTrain _ _ | CkptSave _ _ | SaveWeights _ => [e]
  | _ => []
  end.

Definition book_of (s : state) : book :=
  Book (step s) (lr s) (save_step s) (save_lr s) (pulled s)
       (flat_map bookkeeping (trace s)).

Definition tick (cfg : config) (b : book) : book :=
  let step := b_step b + 1 in
  let lr := match Schedule.decay (lr_init cfg) (lr_decay_factor cfg)
                                 Schedule.lr_decay_steps step (b_lr b) with
            | Ok l => l
            | Raise _ => b_lr b
            end in
  let evs := Apply Opt ModelParams step (b_save_lr b) 0 :: b_events b in
  let evs := if due step (log_interval cfg) then LogTrain step lr :: evs else evs in
  if due step (save_interval cfg)
  then Book step lr step lr (S (b_pulled b))
            (SaveWeights NewestModel :: CkptSave step lr :: evs)
  else Book step lr (b_save_step b) (b_save_lr b) (S (b_pulled b)) evs.

Definition ticks (cfg : config) (n : nat) (b : book) : book :=
  Nat.iter n (tick cfg) b.

(** The bookkeeping that [startup] leaves, given what [restore] read back. *)
Definition start_book (cfg : config) (latest : outcome (option snapshot)) : book :=
  let '(s, l) := match latest with
                 | Ok (Some c) => (snap_step c, snap_lr c)
                 | _ => (1, lr_init cfg)
                 end in
  Book s (Schedule.catch_up (lr_decay_factor cfg) Schedule.lr_decay_steps s l) s l 0 [].

(** [s'] differs from [s] at most in the weights of the model and of the
    discriminator and in log lines added to the trace. *)
Definition only_loaded (s s' : state) : Prop :=
  step s' = step s /\ lr s' = lr s /\ save_step s' = save_step s
  /\ save_lr s' = save_lr s /\ opt s' = opt s /\ opt_d s' = opt_d s
  /\ pulled s' = pulled s
  /\ exists msgs, trace s' = map Log msgs ++ trace s.

(** No checkpoint is read back: there is none, or reading it raises. *)
Definition fresh_start (env : world) : Prop :=
  match latest_checkpoint env with
  | Ok (Some _) => False
  | _ => True
  end.

Definition book_saves (b : book) : list Z :=
  flat_map (fun e => match e with CkptSave n _ => [n] | _ => [] end) (rev (b_events b)).


(** The step at which [startup] leaves the run, given what [restore]
    read back (lines 206 and 207). *)
Definition start_step (env : world) : Z :=
  match latest_checkpoint env with
  | Ok (Some c) => snap_step c
  | _ => 1
  end.

(** The number of iterations that the two loops of lines 244-247 make from
    step [start]: [range(cur_epoch, total_epoch)] times [range(0, epoch_size)]. *)
Definition iterations (n_step epoch_size start : Z) : nat :=
  (Z.to_nat (n_step / epoch_size - (start / epoch_size + 1)) * Z.to_nat epoch_size)%nat.

(** The saved-step and saved-rate variables hold what the most recent
    checkpoint stored, or [s0] and [l0] when none was saved. *)
Definition saved_is_last (s0 : Z) (l0 : Q) (b : book) : Prop :=
  b_save_step b = last (book_saves b) s0
  /\ b_save_step b <= b_step b
  /\ (book_saves b = [] -> b_save_lr b = l0)
  /\ (book_saves b <> [] -> In (CkptSave (b_save_step b) (b_save_lr b)) (b_events b)).

(** The current rate and every rate stored in a checkpoint are the
    schedule's, and every checkpoint is stored at a step that is due. *)
Definition on_schedule (cfg : config) (b : book) : Prop :=
  (b_lr b == Schedule.lr_spec (lr_init cfg) (lr_decay_factor cfg)
                              Schedule.lr_decay_steps (b_step b))%Q
  /\ forall n r, In (CkptSave n r) (b_events b) ->
       (r == Schedule.lr_spec (lr_init cfg) (lr_decay_factor cfg) Schedule.lr_decay_steps n)%Q
       /\ due n (save_interval cfg) = true.

End WithCollaborators.
End Single.

(* ------------------------------------------------------------------ *)
(** * parallel_train (lines 292-467) *)
(* ------------------------------------------------------------------ *)
Module Parallel.
Section WithCollaborators.
Context {K : Collaborators}.
Local Open Scope py_scope.

(** The options of [config] that [parallel_train] reads. *)
Record config : Type := Config {
  total_step : Z;
  batch_size : Z;
  lr_init : Q;
  lr_decay_factor : Q;
  weight_decay_factor : Q;
  log_interval : Z;
  save_interval : Z
}.

Record snapshot : Type := Snapshot {
  snap_step : Z;
  snap_lr : Q;
  snap_opt : slots
}.

(** [cluster_size] is [current_cluster_size()], at least one worker;
    [rank] is [current_rank()]. *)
Record world : Type := World {
  samples : list nat;
  order : Pipeline.shuffle_order;
  cluster_size : positive;
  rank : nat;
  latest_checkpoint : outcome (option snapshot);
  pretrained_backbone : outcome (weights -> weights);
  newest_model : outcome weights
}.

(** What the names [step] and [lr] of the function body are bound to:
    the [tf.Variable] of lines 369-370, or a plain Python number. *)
Inductive step_binding : Type := StepVariable | StepInt (z : Z).
Inductive lr_binding : Type := LrVariable | LrFloat (q : Q).

Record state : Type := State {
  step_var : Z;              (* the variable created at line 369 *)
  lr_var : Q;                (* the variable created at line 370, opt's learning_rate *)
  step_name : step_binding;
  lr_name : lr_binding;
  lr_decay_steps : list Z;
  budget : Z;                (* the local total_step *)
  model_w : weights;
  opt : slots;
  taken : nat;
  trace : list event
}.

Definition set_step_var (v : Z) (s : state) : state :=
  State v (lr_var s) (step_name s) (lr_name s) (lr_decay_steps s) (budget s) (model_w s) (opt s) (taken s) (trace s).
Definition set_lr_var (v : Q) (s : state) : state :=
  State (step_var s) v (step_name s) (lr_name s) (lr_decay_steps s) (budget s) (model_w s) (opt s) (taken s) (trace s).
Definition set_step_name (v : step_binding) (s : state) : state :=
  State (step_var s) (lr_var s) v (lr_name s) (lr_decay_steps s) (budget s) (model_w s) (opt s) (taken s) (trace s).
Definition set_lr_name (v : lr_binding) (s : state) : state :=
  State (step_var s) (lr_var s) (step_name s) v (lr_decay_steps s) (budget s) (model_w s) (opt s) (taken s) (trace s).
Definition set_lr_decay_steps (v : list Z) (s : state) : state :=
  State (step_var s) (lr_var s) (step_name s) (lr_name s) v (budget s) (model_w s) (opt s) (taken s) (trace s).
Definition set_budget (v : Z) (s : state) : state :=
  State (step_var s) (lr_var s) (step_name s) (lr_name s) (lr_decay_steps s) v (model_w s) (opt s) (taken s) (trace s).
Definition set_model_w (v : weights) (s : state) : state :=
  State (step_var s) (lr_var s) (step_name s) (lr_name s) (lr_decay_steps s) (budget s) v (opt s) (taken s) (trace s).
Definition set_opt (v : slots) (s : state) : state :=
  State (step_var s) (lr_var s) (step_name s) (lr_name s) (lr_decay_steps s) (budget s) (model_w s) v (taken s) (trace s).
Definition set_taken (v : nat) (s : state) : state :=
  State (step_var s) (lr_var s) (step_name s) (lr_name s) (lr_decay_steps s) (budget s) (model_w s) (opt s) v (trace s).
Definition emit (e : event) : M state unit :=
  modify (fun s =>
    State (step_var s) (lr_var s) (step_name s) (lr_name s) (lr_decay_steps s) (budget s)
          (model_w s) (opt s) (taken s) (e :: trace s)).

Definition when (b : bool) (c : M state unit) : M state unit :=
  if b then c else ret tt.

(** Lines 319-324 and 369-375: the locals and variables as created. *)
Definition initial (cfg : config) (train_model : weights) : state :=
  {| step_var := 1; lr_var := lr_init cfg;
     step_name := StepVariable; lr_name := LrVariable;
     lr_decay_steps := Schedule.lr_decay_steps;
     budget := total_step cfg;
     model_w := train_model; opt := fresh_slots;
     taken := 0; trace := [] |}.

(** The integer a use of the name [step] compares with. *)
Definition step_value (s : state) : Z :=
  match step_name s with
  | StepVariable => step_var s
  | StepInt z => z
  end.

(** The 4-tuple of tensors that [_map_fn] returns (line 80), batched
    (line 365). *)
Definition element (b : batch tensor) : list tensor :=
  [image b; mask b; target_x b; labels_tensor (labeled b)].

(** [a, b, c = t]. *)
Definition unpack3 (t : list tensor) : outcome (tensor * tensor * tensor) :=
  match t with
  | [a; b; c] => Ok (a, b, c)
  | _ => Raise ValueError
  end.

Fixpoint update_nth (i : nat) (v : Z) (l : list Z) : list Z :=
  match l, i with
  | [], _ => []
  | _ :: l', O => v :: l'
  | x :: l', S i' => x :: update_nth i' v l'
  end.

Section Run.
Variable cfg : config.
Variable env : world.

(** [current_cluster_size()]. *)
Definition workers : Z := Z.pos (cluster_size env).

Definition restore : M state unit :=
  r <- lift (latest_checkpoint env) ;;
  match r with
  | None => ret tt
  | Some c =>
      modify (set_step_var (snap_step c)) ;;;
      modify (set_lr_var (snap_lr c)) ;;;
      modify (set_opt (snap_opt c))
  end.

(** Lines 378-394. *)
Definition load_all : M state unit :=
  try_except
    (emit (Log "loading ckpt...") ;;; restore)
    (emit (Log "ckpt_path doesn't exist, step and optimizer are initialized")) ;;;
  try_except
    (emit (Log "loading pretrained backbone...") ;;;
     f <- lift (pretrained_backbone env) ;;
     s <- get ;; modify (set_model_w (f (model_w s))))
    (emit (Log "pretrained backbone doesn't exist, model backbone are initialized")) ;;;
  try_except
    (w <- lift (newest_model env) ;; modify (set_model_w w))
    (emit (Log "model_path doesn't exist, model parameters are initialized")).

(** Lines 409-410, one pass of
    [for step_idx, step in enumerate(lr_decay_steps)]: the loop variable
    is called [step], so each pass binds that name to a list element;
    then the element is replaced in place. *)
Definition rescale_body (step_idx : nat) : M state unit :=
  s <- get ;;
  let step := nth step_idx (lr_decay_steps s) 0 in
  modify (set_step_name (StepInt step)) ;;;
  modify (fun s =>
    set_lr_decay_steps (update_nth step_idx (step / workers + 1) (lr_decay_steps s)) s).

(** Lines 408-410: [total_step] and every threshold are divided by the
    number of workers. *)
Definition rescale : M state unit :=
  modify (fun s => set_budget (budget s / workers + 1) s) ;;;
  s <- get ;;
  for_each (seq 0 (length (lr_decay_steps s))) rescale_body.

(** Lines 349-410: everything before the training loop. *)
Definition startup : M state unit :=
  (if batch_size cfg <=? 0 then raise InvalidArgumentError else ret tt) ;;;
  load_all ;;;
  rescale.

(** Lines 413-431.  [step] is looked up in the scope of
    [parallel_train] when the function runs. *)
Definition one_step (image gt_label mask : tensor) (is_first_batch : bool)
  : M state (Q * Q) :=
  s <- get ;;
  match step_name s with
  | StepVariable => modify (set_step_var (step_var s + 1))
  | StepInt _ => raise AttributeError      (* step.assign_add(1) *)
  end ;;;
  s <- get ;;
  let tape0 := GradientTape false false in
  let pd := fun w => pd_loss (forward w image) gt_label mask in
  let re_loss := fun w => regulize_loss w (weight_decay_factor cfg) in
  let total_loss := fun w => (pd w + re_loss w)%Q in
  tape1 <- lift (gradient tape0) ;;
  (let '(o, w) := apply_gradients (opt s) (lr_var s) total_loss (model_w s) in
   emit (Apply Opt ModelParams (step_var s) (lr_var s) (total_loss (model_w s))) ;;;
   modify (set_opt o) ;;; modify (set_model_w w)) ;;;
  when is_first_batch
    (emit (Broadcast ModelParams) ;;; emit (Broadcast OptimizerVars)) ;;;
  ret (total_loss (model_w s), re_loss (model_w s)).

(** [step.numpy()] and [lr.numpy()]: only a variable has the method. *)
Definition step_numpy : M state Z :=
  s <- get ;;
  match step_name s with
  | StepVariable => ret (step_var s)
  | StepInt _ => raise AttributeError
  end.

Definition lr_numpy : M state Q :=
  s <- get ;;
  match lr_name s with
  | LrVariable => ret (lr_var s)
  | LrFloat _ => raise AttributeError
  end.

(** [step % save_interval] on a Python int raises on a zero divisor. *)
Definition py_mod (a b : Z) : outcome Z :=
  if b =? 0 then Raise ZeroDivisionError else Ok (a mod b).

(** Lines 439-467: one pass of the loop body on the tuple [t] that the
    dataset yields.  Returns [true] when the loop breaks. *)
Definition iteration (t : list tensor) : M state bool :=
  p <- lift (unpack3 t) ;;       (* for image, gt_label, mask in train_dataset *)
  let '(image, gt_label, mask) := p in
  s <- get ;;
  when (contains (step_value s) (lr_decay_steps s))
    (i <- lift (index (step_value s) (lr_decay_steps s)) ;;
     modify (set_lr_name (LrFloat (lr_init cfg * pow (lr_decay_factor cfg) (i + 1))%Q))) ;;;
  s <- get ;;
  losses <- one_step image gt_label mask (step_value s =? 0) ;;
  n <- step_numpy ;;
  when (negb (n =? 0) && (np_mod n (log_interval cfg) =? 0))
    (l <- lr_numpy ;; emit (LogTrain n l)) ;;;
  s <- get ;;
  r <- (if step_value s =? 0 then ret 1 else lift (py_mod (step_value s) (save_interval cfg))) ;;
  when (negb (step_value s =? 0) && (r =? 0) && (rank env =? 0)%nat)
    (emit (Log "saving model ckpt and result...") ;;;
     emit (Visualize (step_value s)) ;;;
     emit (CkptSave (step_var s) (lr_var s)) ;;;
     emit (SaveWeights NewestModel)) ;;;
  s <- get ;;
  ret (step_value s =? budget s).

Inductive loop_exit : Type := Exhausted | Finished | OutOfFuel.

(** [for ... in train_dataset] over the worker's pipeline.  The stream
    is unbounded, so the loop is given fuel. *)
Fixpoint train_loop (fuel : nat) : M state loop_exit :=
  match fuel with
  | O => ret OutOfFuel
  | S fuel' =>
      s <- get ;;
      match Pipeline.worker_batch (Pos.to_nat (cluster_size env)) (rank env) (order env)
                                  (Z.to_nat (batch_size cfg)) (taken s) with
      | None => ret Exhausted
      | Some ids =>
          modify (set_taken (S (taken s))) ;;;
          stop <- iteration (element (make_batch ids)) ;;
          if stop then ret Finished else train_loop fuel'
      end
  end.

Definition parallel_train (fuel : nat) : M state loop_exit :=
  startup ;;; train_loop fuel.

End Run.

Definition run (cfg : config) (env : world) (train_model : weights) (fuel : nat)
  : outcome loop_exit * state :=
  parallel_train cfg env fuel (initial cfg train_model).

Definition history (s : state) : list event := rev (trace s).

Definition never (p : event -> bool) (s : state) : Prop :=
  Forall (fun e => p e = false) (trace s).

End WithCollaborators.
End Parallel.

(* ------------------------------------------------------------------ *)
(** * _data_aug_fn (lines 29-60) *)
(* ------------------------------------------------------------------ *)
Module DataAug.

(** A numpy array is its shape and its indexing function; only entries
    inside the shape are meaningful. *)
Record ndarray3 : Type := Array3 {
  dim0 : nat; dim1 : nat; dim2 : nat;
  at3 : nat -> nat -> nat -> Q
}.

Record ndarray2 : Type := Array2 {
  rows : nat; cols : nat;
  at2 : nat -> nat -> Q
}.

(** [np.ones_like(a)]. *)
Definition ones_like (a : ndarray3) : ndarray3 :=
  Array3 (dim0 a) (dim1 a) (dim2 a) (fun _ _ _ => 1%Q).

(** [a[:, :, 0]]. *)
Definition channel0 (a : ndarray3) : outcome ndarray2 :=
  if (dim2 a =? 0)%nat then Raise IndexError
  else Ok (Array2 (dim0 a) (dim1 a) (fun i j => at3 a i j 0%nat)).

(** [a.astype(np.uint8)]: truncation, modulo 256. *)
Definition astype_uint8 (a : ndarray2) : ndarray2 :=
  Array2 (rows a) (cols a)
         (fun i j => inject_Z (Z.modulo (Z.quot (Qnum (at2 a i j)) (Z.pos (Qden (at2 a i j)))) 256)).

(** [m[:, :, np.newaxis]]. *)
Definition newaxis (m : ndarray2) : ndarray3 :=
  Array3 (rows m) (cols m) 1 (fun i j _ => at2 m i j).

(** Broadcasting of one dimension, and the index read in an operand. *)
Definition broadcast_dim (a b : nat) : outcome nat :=
  if (a =? b)%nat then Ok a
  else if (a =? 1)%nat then Ok b
  else if (b =? 1)%nat then Ok a
  else Raise ValueError.

Definition operand_index (d i : nat) : nat := if (d =? 1)%nat then 0%nat else i.

(** [a * b] on three-dimensional arrays. *)
Definition multiply (a b : ndarray3) : outcome ndarray3 :=
  match broadcast_dim (dim0 a) (dim0 b),
        broadcast_dim (dim1 a) (dim1 b),
        broadcast_dim (dim2 a) (dim2 b) with
  | Ok d0, Ok d1, Ok d2 =>
      Ok (Array3 d0 d1 d2 (fun i j k =>
            at3 a (operand_index (dim0 a) i) (operand_index (dim1 a) j) (operand_index (dim2 a) k)
            * at3 b (operand_index (dim0 b) i) (operand_index (dim1 b) j) (operand_index (dim2 b) k))%Q)
  | _, _, _ => Raise ValueError
  end.

(** [np.transpose(a, [2, 0, 1])]. *)
Definition transpose_201 (a : ndarray3) : ndarray3 :=
  Array3 (dim2 a) (dim0 a) (dim1 a) (fun c i j => at3 a i j c).

(** Types and functions that train.py imports. *)
Class Externals : Type := {
  annos : Type;
  meta_mask : Type;
  target : Type;
  pickled : Type;
  (** [decode_mask] of [..common]; [Ok None] stands for any returned
      value whose type is not [np.ndarray]. *)
  decode_mask : meta_mask -> outcome (option ndarray2);
  dumps : target -> pickled
}.

(** The file system and the JPEG decoder that [_map_fn] reads through, and
    the way [tf.py_function] reports an exception of the function it
    wraps. *)
Class ImageFiles : Type := {
  path : Type;
  contents : Type;
  read_file : path -> outcome contents;         (* tf.io.read_file *)
  decode_jpeg : contents -> outcome ndarray3;   (* tf.image.decode_jpeg(_, channels=3) *)
  py_function_error : exn -> exn
}.

Section WithExternals.
Context {E : Externals}.

(** The unpickled [ground_truth] dictionary. *)
Record ground_truth : Type := GroundTruth {
  kpt : annos;
  gt_labeled : Q;
  gt_mask : meta_mask
}.

Definition augmentor_t : Type :=
  ndarray3 -> annos -> ndarray2 -> outcome (ndarray3 * annos * ndarray2).
Definition preprocessor_t : Type :=
  annos -> ndarray3 -> outcome target.

(** Line 41: [np.ones_like(image)[:,:,0].astype(np.uint8)]. *)
Definition default_mask (image : ndarray3) : outcome ndarray2 :=
  match channel0 (ones_like image) with
  | Ok m => Ok (astype_uint8 m)
  | Raise e => Raise e
  end.

(** Lines 38-41. *)
Definition valid_mask (image : ndarray3) (meta : meta_mask) : outcome ndarray2 :=
  match decode_mask meta with
  | Raise e => Raise e
  | Ok (Some m) => Ok m
  | Ok None => default_mask image
  end.

Definition _data_aug_fn (image : ndarray3) (gt : ground_truth)
           (augmentor : augmentor_t) (preprocessor : preprocessor_t)
           (data_format : string)
  : outcome (ndarray3 * ndarray3 * pickled * Q) :=
  match valid_mask image (gt_mask gt) with
  | Raise e => Raise e
  | Ok mask0 =>
    match augmentor image (kpt gt) mask0 with
    | Raise e => Raise e
    | Ok (image1, annos1, mask1) =>
      let mask2 := newaxis mask1 in
      match multiply image1 mask2 with
      | Raise e => Raise e
      | Ok image2 =>
        match preprocessor annos1 mask2 with
        | Raise e => Raise e
        | Ok target_x =>
            if String.eqb data_format "channels_first"
            then Ok (transpose_201 image2, transpose_201 mask2, dumps target_x, gt_labeled gt)
            else Ok (image2, mask2, dumps target_x, gt_labeled gt)
        end
      end
    end
  end.

(** Entry-wise agreement of two arrays of the same shape. *)
Definition same3 (a b : ndarray3) : Prop :=
  dim0 a = dim0 b /\ dim1 a = dim1 b /\ dim2 a = dim2 b /\
  forall i j k, (i < dim0 a)%nat -> (j < dim1 a)%nat -> (k < dim2 a)%nat ->
                at3 a i j k == at3 b i j k.

Definition all_ones (m : ndarray2) : Prop :=
  forall i j, (i < rows m)%nat -> (j < cols m)%nat -> at2 m i j == 1.

(** ** _map_fn (lines 63-80) and get_paramed_map_fn (lines 83-86) *)

Context {F : ImageFiles}.

(** [tf.image.convert_image_dtype(image, dtype=tf.float32)] on the
    [uint8] image that [decode_jpeg] returns: every value is divided by
    255. *)
Definition convert_image_dtype (a : ndarray3) : ndarray3 :=
  Array3 (dim0 a) (dim1 a) (dim2 a) (fun i j k => at3 a i j k / 255)%Q.

(** [tf.image.adjust_brightness]: the delta is added to every value. *)
Definition adjust_brightness (a : ndarray3) (delta : Q) : ndarray3 :=
  Array3 (dim0 a) (dim1 a) (dim2 a) (fun i j k => at3 a i j k + delta)%Q.

Definition sum_upto (f : nat -> Q) (n : nat) : Q :=
  fold_right Qplus 0%Q (map f (seq 0 n)).

(** The mean of the values at index [k] of the last axis. *)
Definition channel_mean (a : ndarray3) (k : nat) : Q :=
  (sum_upto (fun i => sum_upto (fun j => at3 a i j k) (dim1 a)) (dim0 a)
   / inject_Z (Z.of_nat (dim0 a * dim1 a)))%Q.

(** [tf.image.adjust_contrast]: [(x - mean) * factor + mean], the mean
    taken over the first two axes for each index of the last. *)
Definition adjust_contrast (a : ndarray3) (factor : Q) : ndarray3 :=
  Array3 (dim0 a) (dim1 a) (dim2 a)
         (fun i j k => (at3 a i j k - channel_mean a k) * factor + channel_mean a k)%Q.

Definition maximum (x y : Q) : Q := if Qle_bool x y then y else x.
Definition minimum (x y : Q) : Q := if Qle_bool x y then x else y.

(** [tf.clip_by_value(t, lo, hi)] is [minimum(maximum(t, lo), hi)]. *)
Definition clip_by_value (a : ndarray3) (lo hi : Q) : ndarray3 :=
  Array3 (dim0 a) (dim1 a) (dim2 a) (fun i j k => minimum (maximum (at3 a i j k) lo) hi).

(** What the two random operations of lines 75 and 76 draw: a delta in
    [[-max_delta, max_delta)] and a factor in [[lower, upper]]. *)
Record jitter : Type := Jitter {
  brightness_delta : Q;
  contrast_factor : Q
}.

Definition drawn_in_range (rnd : jitter) : Prop :=
  (- (35 # 255) <= brightness_delta rnd)%Q /\ (brightness_delta rnd < 35 # 255)%Q
  /\ (1 # 2 <= contrast_factor rnd)%Q /\ (contrast_factor rnd <= 3 # 2)%Q.

Definition sample_t : Type := ndarray3 * ndarray3 * pickled * Q.

(** [tf.py_function(f, [image, annos], ...)]: the value of the Python
    function, or the error that TensorFlow reports for its exception. *)
Definition py_function (f : ndarray3 -> ground_truth -> outcome sample_t)
           (image : ndarray3) (gt : ground_truth) : outcome sample_t :=
  match f image gt with
  | Ok r => Ok r
  | Raise e => Raise (py_function_error e)
  end.

Definition _map_fn (img_list : path) (gt : ground_truth)
           (data_aug_fn : ndarray3 -> ground_truth -> outcome sample_t)
           (rnd : jitter) : outcome sample_t :=
  match read_file img_list with
  | Raise e => Raise e
  | Ok contents =>
    match decode_jpeg contents with
    | Raise e => Raise e
    | Ok image0 =>
      let image1 := convert_image_dtype image0 in
      match py_function data_aug_fn image1 gt with
      | Raise e => Raise e
      | Ok (image2, mask, target_x, labeled) =>
          let image3 := adjust_brightness image2 (brightness_delta rnd) in
          let image4 := adjust_contrast image3 (contrast_factor rnd) in
          let image5 := clip_by_value image4 0 1 in
          Ok (image5, mask, target_x, labeled)
      end
    end
  end.

Definition get_paramed_map_fn (augmentor : augmentor_t) (preprocessor : preprocessor_t)
           (data_format : string)
  : path -> ground_truth -> jitter -> outcome sample_t :=
  let paramed_data_aug_fn :=
    fun image gt => _data_aug_fn image gt augmentor preprocessor data_format in
  fun img_list gt => _map_fn img_list gt paramed_data_aug_fn.

(** Every value inside the shape lies between [lo] and [hi]. *)
Definition within (lo hi : Q) (a : ndarray3) : Prop :=
  forall i j k, (i < dim0 a)%nat -> (j < dim1 a)%nat -> (k < dim2 a)%nat ->
                (lo <= at3 a i j k)%Q /\ (at3 a i j k <= hi)%Q.

Definition shape3 (a : ndarray3) : nat * nat * nat := (dim0 a, dim1 a, dim2 a).

End WithExternals.
End DataAug.

(** A trivial instance of the collaborators, for closed examples. *)
Definition toy : Collaborators :=
  {| tensor := unit; weights := unit; dis_weights := unit; slots := unit; prediction := unit;
     make_batch := fun _ => Batch tt tt tt [];
     labels_tensor := fun _ => tt;
     forward := fun _ _ => tt;
     cal_loss := fun _ _ _ => 2%Q;
     backbone_feature := fun _ => tt;
     dis_cal_loss := fun _ _ _ => 1%Q;
     pd_loss := fun _ _ _ => 1%Q;
     regulize_loss := fun _ _ => 1%Q;
     apply_gradients := fun o _ _ w => (o, w);
     apply_gradients_dis := fun o _ _ d => (o, d);
     fresh_slots := tt;
     new_discriminator := tt |}.

(* ------------------------------------------------------------------ *)
(** * Scenarios *)
(* ------------------------------------------------------------------ *)
Module Scenario.

(** [total_step=100, save_interval=50, batch_size=4], domain adaptation
    off; used on a dataset of 20 samples. *)
Definition budget_100 : Single.config :=
  {| Single.n_step := 100; Single.batch_size := 4;
     Single.lr_init := 1 # 25000; Single.lr_decay_factor := 1 # 3;
     Single.weight_decay_factor := 1 # 5000;
     Single.log_interval := 10; Single.vis_interval := 50; Single.save_interval := 50;
     Single.domainadapt_flag := false |}.

(** A budget that crosses the first decay threshold, step 200000. *)
Definition first_threshold : Single.config :=
  {| Single.n_step := 250000; Single.batch_size := 4;
     Single.lr_init := 1; Single.lr_decay_factor := 1 # 2;
     Single.weight_decay_factor := 1 # 5000;
     Single.log_interval := 1000; Single.vis_interval := 5000; Single.save_interval := 5000;
     Single.domainadapt_flag := false |}.

(** A world for the toy collaborators: [n] samples, never reshuffled,
    and the given outcome of reading the latest checkpoint. *)
Definition toy_world (n : nat) (latest : outcome (option (@Single.snapshot toy)))
  : @Single.world toy :=
  {| Single.samples := seq 0 n;
     Single.order := fun _ => seq 0 n;
     Single.latest_checkpoint := latest;
     Single.pretrained_backbone := Raise ValueError;
     Single.newest_model := Raise ValueError;
     Single.newest_discriminator := Raise ValueError |}.

(** A multi-worker configuration, and a worker of a cluster over the
    toy collaborators whose shuffle leaves the samples in order. *)
Definition parallel_budget : Parallel.config :=
  {| Parallel.total_step := 1000000; Parallel.batch_size := 8;
     Parallel.lr_init := 1 # 25000; Parallel.lr_decay_factor := 1 # 3;
     Parallel.weight_decay_factor := 1 # 5000;
     Parallel.log_interval := 1; Parallel.save_interval := 5000 |}.

Definition toy_worker (samples : list nat) (cluster_size : positive) (rank : nat)
  : @Parallel.world toy :=
  {| Parallel.samples := samples;
     Parallel.order := fun _ => samples;
     Parallel.cluster_size := cluster_size;
     Parallel.rank := rank;
     Parallel.latest_checkpoint := Ok None;
     Parallel.pretrained_backbone := Raise ValueError;
     Parallel.newest_model := Raise ValueError |}.

(** Externals for closed examples of [_data_aug_fn]: the mask metadata
    is the decoded mask or nothing, the augmentor changes nothing and
    the preprocessor returns the annotations. *)
Definition toy_externals : DataAug.Externals :=
  {| DataAug.annos := list Z;
     DataAug.meta_mask := option DataAug.ndarray2;
     DataAug.target := list Z;
     DataAug.pickled := list Z;
     DataAug.decode_mask := fun m => Ok m;
     DataAug.dumps := fun t => t |}.

Definition identity_augmentor : @DataAug.augmentor_t toy_externals :=
  fun image annos mask => Ok (image, annos, mask).

Definition echo_preprocessor : @DataAug.preprocessor_t toy_externals :=
  fun annos _ => Ok annos.

(** A 2 x 2 image with 3 channels. *)
Definition small_image : DataAug.ndarray3 :=
  DataAug.Array3 2 2 3 (fun i j k => inject_Z (Z.of_nat (i + 2 * j + 4 * k)) / 16)%Q.

Definition unmasked : @DataAug.ground_truth toy_externals :=
  @DataAug.GroundTruth toy_externals ([1; 2] : list Z) 1 None.

(** Externals whose decoder tells three kinds of mask metadata apart:
    none ([None]), unreadable ([Some None], on which it raises) and a
    mask ([Some (Some m)]). *)
Definition strict_externals : DataAug.Externals :=
  {| DataAug.annos := list Z;
     DataAug.meta_mask := option (option DataAug.ndarray2);
     DataAug.target := list Z;
     DataAug.pickled := list Z;
     DataAug.decode_mask := fun m => match m with
                                     | None => Ok None
                                     | Some None => Raise ValueError
                                     | Some (Some a) => Ok (Some a)
                                     end;
     DataAug.dumps := fun t => t |}.

(** A 3 x 3 mask, which does not fit [small_image]. *)
Definition misshapen_mask : DataAug.ndarray2 :=
  DataAug.Array2 3 3 (fun _ _ => 1%Q).

(** Every path is readable; only the file at path 0 holds a JPEG, a
    2 x 2 RGB image. *)
Definition small_jpeg : DataAug.ndarray3 :=
  DataAug.Array3 2 2 3 (fun i j k => inject_Z (Z.of_nat (20 * (i + 2 * j + 4 * k)))).

Definition toy_files : DataAug.ImageFiles :=
  {| DataAug.path := nat;
     DataAug.contents := option DataAug.ndarray3;
     DataAug.read_file := fun p => match p with
                                   | 0%nat => Ok (Some small_jpeg)
                                   | _ => Ok None
                                   end;
     DataAug.decode_jpeg := fun c => match c with
                                     | Some a => Ok a
                                     | None => Raise InvalidArgumentError
                                     end;
     DataAug.py_function_error := fun _ => InvalidArgumentError |}.

End Scenario.


(* ------------------------------------------------------------------ *)
(** * Facts about the learning-rate schedule *)
(* ------------------------------------------------------------------ *)
Section ScheduleFacts.
Import Schedule.

Lemma pow_nonneg f n : (0 <= f)%Q -> (0 <= pow f n)%Q.
Proof.
  intros Hf. induction n as [|n IH]; simpl.
  - discriminate.
  - apply Qmult_le_0_compat; assumption.
Qed.

Lemma pow_succ_le f n : (0 <= f)%Q -> (f <= 1)%Q -> (pow f (S n) <= pow f n)%Q.
Proof.
  intros H0 H1. simpl.
  rewrite <- (Qmult_1_l (pow f n)) at 2.
  apply Qmult_le_compat_r; [assumption | apply pow_nonneg; assumption].
Qed.

Lemma pow_antitone f n m :
  (0 <= f)%Q -> (f <= 1)%Q -> (n <= m)%nat -> (pow f m <= pow f n)%Q.
Proof.
  intros H0 H1 Hnm. induction Hnm as [|m Hnm IH].
  - apply Qle_refl.
  - eapply Qle_trans; [apply pow_succ_le; assumption | exact IH].
Qed.

Lemma contains_In x l : contains x l = true <-> In x l.
Proof.
  induction l as [|y l IH]; simpl.
  - split; [discriminate | tauto].
  - rewrite orb_true_iff, IH, Z.eqb_eq. split; intros [H|H]; auto.
Qed.

Lemma thresholds_le_mono l s s' : s <= s' -> (thresholds_le l s <= thresholds_le l s')%nat.
Proof.
  intros H. unfold thresholds_le.
  induction l as [|t l IH]; simpl; [lia|].
  destruct (t <=? s) eqn:E1, (t <=? s') eqn:E2; simpl; lia.
Qed.

Lemma thresholds_le_skip l s :
  contains (s + 1) l = false -> thresholds_le l (s + 1) = thresholds_le l s.
Proof.
  unfold thresholds_le.
  induction l as [|t l IH]; simpl; intros H; [reflexivity|].
  apply orb_false_iff in H. destruct H as [Ht Hl].
  apply Z.eqb_neq in Ht.
  destruct (t <=? s + 1) eqn:E1, (t <=? s) eqn:E2; simpl; rewrite ?IH by assumption; lia.
Qed.

Lemma thresholds_le_above l s :
  Forall (fun t => s < t) l -> thresholds_le l s = 0%nat.
Proof.
  unfold thresholds_le. induction 1 as [|t l Ht _ IH]; simpl; [reflexivity|].
  destruct (t <=? s) eqn:E; [lia | exact IH].
Qed.

(** In a strictly increasing list, the position of a threshold is the
    number of thresholds below it. *)
Lemma index_sorted l x :
  StronglySorted Z.lt l -> In x l ->
  exists i, index x l = Ok i /\ thresholds_le l x = S i.
Proof.
  induction 1 as [|y l Hs IH Hy]; intros Hin; [destruct Hin|].
  simpl. destruct (x =? y) eqn:E.
  - apply Z.eqb_eq in E. subst y. exists 0%nat. split; [reflexivity|].
    unfold thresholds_le. simpl. rewrite Z.leb_refl. simpl. f_equal.
    apply thresholds_le_above. exact Hy.
  - apply Z.eqb_neq in E. destruct Hin as [Hin|Hin]; [congruence|].
    destruct (IH Hin) as [i [Hi Hc]]. exists (S i). rewrite Hi. split; [reflexivity|].
    unfold thresholds_le in *. simpl.
    rewrite Forall_forall in Hy. specialize (Hy x Hin).
    destruct (y <=? x) eqn:E2; [simpl; lia | lia].
Qed.

Lemma decay_spec lr_init factor l s lr :
  StronglySorted Z.lt l ->
  (lr == lr_spec lr_init factor l s)%Q ->
  exists lr', decay lr_init factor l (s + 1) lr = Ok lr' /\
              (lr' == lr_spec lr_init factor l (s + 1))%Q.
Proof.
  intros Hs Hlr. unfold decay.
  destruct (contains (s + 1) l) eqn:E.
  - apply contains_In in E. destruct (index_sorted l (s + 1) Hs E) as [i [Hi Hc]].
    rewrite Hi. eexists. split; [reflexivity|].
    unfold lr_spec. rewrite Hc. replace (i + 1)%nat with (S i) by lia. reflexivity.
  - exists lr. split; [reflexivity|].
    unfold lr_spec in *. rewrite thresholds_le_skip by assumption. exact Hlr.
Qed.

Lemma advance_n_spec lr_init factor l n s0 lr0 :
  StronglySorted Z.lt l ->
  (lr0 == lr_spec lr_init factor l s0)%Q ->
  exists lr, advance_n lr_init factor l n (s0, lr0) = Ok (s0 + Z.of_nat n, lr) /\
             (lr == lr_spec lr_init factor l (s0 + Z.of_nat n))%Q.
Proof.
  intros Hs H0. induction n as [|n [lr [Hrun Hlr]]].
  - exists lr0. simpl. rewrite Z.add_0_r. split; [reflexivity | assumption].
  - simpl advance_n. rewrite Hrun. unfold advance. simpl fst. simpl snd.
    destruct (decay_spec lr_init factor l _ lr Hs Hlr) as [lr' [Hd Hlr']].
    rewrite Hd. exists lr'.
    replace (s0 + Z.of_nat (S n)) with (s0 + Z.of_nat n + 1) by lia.
    split; [reflexivity | assumption].
Qed.

Lemma lr_decay_steps_sorted : StronglySorted Z.lt lr_decay_steps.
Proof.
  unfold lr_decay_steps.
  repeat (apply SSorted_cons; [| repeat (apply Forall_cons; [reflexivity|]); apply Forall_nil]).
  apply SSorted_nil.
Qed.

Lemma lr_spec_fresh lr_init factor :
  (lr_init == lr_spec lr_init factor lr_decay_steps 1)%Q.
Proof. unfold lr_spec. simpl. rewrite Qmult_1_r. reflexivity. Qed.

Lemma lr_spec_antitone lr_init factor l s s' :
  (0 <= lr_init)%Q -> (0 <= factor)%Q -> (factor <= 1)%Q -> s <= s' ->
  (lr_spec lr_init factor l s' <= lr_spec lr_init factor l s)%Q.
Proof.
  intros Hi H0 H1 Hss. unfold lr_spec.
  rewrite !(Qmult_comm lr_init).
  apply Qmult_le_compat_r; [|assumption].
  apply pow_antitone; try assumption. apply thresholds_le_mono. exact Hss.
Qed.
End ScheduleFacts.

Lemma decay_total lr_init factor l s lr :
  exists lr', Schedule.decay lr_init factor l s lr = Ok lr'.
Proof.
  unfold Schedule.decay. destruct (contains s l) eqn:E; [|eauto].
  assert (H : exists i, index s l = Ok i).
  { induction l as [|y l IH]; simpl in *; [discriminate|].
    destruct (s =? y); [eauto|]. simpl in E. destruct (IH E) as [i Hi]. rewrite Hi. eauto. }
  destruct H as [i Hi]. rewrite Hi. eauto.
Qed.

Ltac st_simpl :=
  cbn [Single.set_step Single.set_lr Single.set_pulled Single.set_opt Single.set_opt_d
       Single.set_model_w Single.set_dis_w Single.set_save_step Single.set_save_lr
       Single.step Single.lr Single.save_step Single.save_lr Single.model_w Single.dis_w
       Single.opt Single.opt_d Single.pulled Single.trace
       Single.b_step Single.b_lr Single.b_save_step Single.b_save_lr Single.b_pulled
       Single.b_events Single.bookkeeping flat_map app
       gradient released persistent negb fst snd].

Section SingleFacts.
Context {K : Collaborators}.
Import Single.

Lemma iteration_tick cfg env e s ids :
  domainadapt_flag cfg = false ->
  Pipeline.single_batch (samples env) (order env) (Z.to_nat (batch_size cfg)) (pulled s)
    = Some ids ->
  exists s', iteration cfg env e s = (Ok tt, s') /\ book_of s' = tick cfg (book_of s).
Proof.
  intros Hflag Hb.
  destruct (decay_total (lr_init cfg) (lr_decay_factor cfg) Schedule.lr_decay_steps
                        (step s + 1) (lr s)) as [lr' Hd].
  unfold iteration, next_batch, optimize_step, save, when, emit, bind, get, modify, lift, ret.
  st_simpl. rewrite Hb. st_simpl. rewrite Hd, Hflag. st_simpl.
  destruct (apply_gradients _ _ _ _) as [o w] eqn:Ha. st_simpl.
  unfold tick, book_of. st_simpl. rewrite Hd.
  destruct (due (step s + 1) (log_interval cfg)), (due (step s + 1) (vis_interval cfg)),
           (due (step s + 1) (save_interval cfg));
    st_simpl; eexists; (split; [reflexivity|]); reflexivity.
Qed.
End SingleFacts.

(* ------------------------------------------------------------------ *)
(** * Facts about the batch pipeline *)
(* ------------------------------------------------------------------ *)
Section PipelineFacts.
Import Pipeline.

Lemma all_some_map {A B} (f : A -> option B) (l : list A) :
  (forall x, In x l -> f x <> None) -> exists r, all_some (map f l) = Some r.
Proof.
  induction l as [|x l IH]; intros H; simpl; [eauto|].
  destruct (f x) eqn:E; [|exfalso; apply (H x); simpl; auto].
  destruct IH as [r Hr]; [intros y Hy; apply H; simpl; auto|].
  rewrite Hr. eauto.
Qed.

Lemma take_batch_some n batch_size pass i :
  n <> 0%nat -> (forall e, length (pass e) = n) ->
  exists ids, take_batch n batch_size pass i = Some ids.
Proof.
  intros Hn Hlen. unfold take_batch. apply all_some_map.
  intros k _. unfold stream_elem.
  destruct (Nat.eqb_spec n 0); [contradiction|].
  apply nth_error_Some. rewrite Hlen. apply Nat.mod_upper_bound. assumption.
Qed.

Lemma single_batch_some samples order batch_size i :
  well_shuffled samples order -> samples <> [] ->
  exists ids, single_batch samples order batch_size i = Some ids.
Proof.
  intros Hw Hne. unfold single_batch. apply take_batch_some.
  - destruct samples; [contradiction | discriminate].
  - intros e. apply Permutation_length, Hw.
Qed.

Lemma take_batch_empty batch_size pass i :
  batch_size <> 0%nat -> take_batch 0 batch_size pass i = None.
Proof.
  intros Hb. unfold take_batch. destruct batch_size; [contradiction|]. reflexivity.
Qed.

Lemma shard_from_length pos num_shards index l l' :
  length l = length l' ->
  length (shard_from pos num_shards index l) = length (shard_from pos num_shards index l').
Proof.
  revert pos l'. induction l as [|x l IH]; intros pos [|y l'] H; simpl in *; try discriminate.
  - reflexivity.
  - injection H as H. destruct (_ =? _)%nat; simpl; rewrite (IH (S pos) l') by assumption;
      reflexivity.
Qed.

Lemma worker_batch_some samples cluster_size rank order batch_size i :
  well_shuffled samples order -> shard cluster_size rank samples <> [] ->
  exists ids, worker_batch cluster_size rank order batch_size i = Some ids.
Proof.
  intros Hw Hne. unfold worker_batch.
  assert (Hlen : forall e, length (worker_pass cluster_size rank order e)
                           = length (shard cluster_size rank samples)).
  { intros e. unfold worker_pass, shard. apply shard_from_length, Permutation_length, Hw. }
  apply take_batch_some.
  - rewrite Hlen. destruct (shard cluster_size rank samples); [contradiction | discriminate].
  - intros e. rewrite !Hlen. reflexivity.
Qed.

Lemma range_length lo hi : length (range lo hi) = Z.to_nat (hi - lo).
Proof. unfold range. rewrite length_map, length_seq. reflexivity. Qed.
End PipelineFacts.

(* ------------------------------------------------------------------ *)
(** * The loops of single_train against their bookkeeping *)
(* ------------------------------------------------------------------ *)
Lemma bind_ok {S A B} (c : M S A) (k : A -> M S B) (s s' : S) (a : A) :
  c s = (Ok a, s') -> bind c k s = k a s'.
Proof. intros H. unfold bind. rewrite H. reflexivity. Qed.

Lemma bind_raise {S A B} (c : M S A) (k : A -> M S B) (s s' : S) (e : exn) :
  c s = (Raise e, s') -> bind c k s = (Raise e, s').
Proof. intros H. unfold bind. rewrite H. reflexivity. Qed.

Section SingleLoops.
Context {K : Collaborators}.
Import Single.

Variable cfg : config.
Variable env : world.
Hypothesis flag_off : domainadapt_flag cfg = false.
Hypothesis shuffled : Pipeline.well_shuffled (samples env) (order env).
Hypothesis nonempty : samples env <> [].

Lemma inner_loop_ticks e (l : list Z) s :
  exists s', for_each l (fun _ => iteration cfg env e) s = (Ok tt, s')
             /\ book_of s' = ticks cfg (length l) (book_of s).
Proof.
  revert s. induction l as [|x l IH]; intros s.
  - exists s. split; reflexivity.
  - destruct (single_batch_some (samples env) (order env) (Z.to_nat (batch_size cfg))
                                (pulled s) shuffled nonempty) as [ids Hb].
    destruct (iteration_tick cfg env e s ids flag_off Hb) as [s1 [H1 B1]].
    destruct (IH s1) as [s2 [H2 B2]].
    exists s2. split.
    + cbn [for_each]. rewrite (bind_ok _ _ s s1 tt); assumption.
    + rewrite B2, B1. unfold ticks. simpl length. rewrite Nat.iter_succ_r. reflexivity.
Qed.

Lemma ticks_add n m b : ticks cfg (n + m) b = ticks cfg m (ticks cfg n b).
Proof.
  unfold ticks. rewrite Nat.add_comm. apply Nat.iter_add.
Qed.

Lemma outer_loop_ticks (epochs inner : list Z) total_epoch s :
  exists s',
    for_each epochs (fun epoch_idx =>
      bind (emit (LogEpoch epoch_idx total_epoch))
           (fun _ => for_each inner (fun _ => iteration cfg env epoch_idx))) s = (Ok tt, s')
    /\ book_of s' = ticks cfg (length epochs * length inner) (book_of s).
Proof.
  revert s. induction epochs as [|e epochs IH]; intros s.
  - exists s. split; reflexivity.
  - set (s0 := snd (emit (LogEpoch e total_epoch) s)).
    destruct (inner_loop_ticks e inner s0) as [s1 [H1 B1]].
    destruct (IH s1) as [s2 [H2 B2]].
    exists s2. split.
    + cbn [for_each]. rewrite (bind_ok _ _ s s1 tt); [exact H2|].
      rewrite (bind_ok _ _ s s0 tt); [exact H1 | reflexivity].
    + rewrite B2, B1. simpl length. rewrite <- ticks_add. reflexivity.
Qed.

Lemma training_ticks epoch_size total_epoch s :
  exists s',
    training cfg env epoch_size total_epoch s = (Ok tt, s')
    /\ book_of s' =
       ticks cfg (Z.to_nat (total_epoch - (step s / epoch_size + 1)) * Z.to_nat epoch_size)
             (book_of s).
Proof.
  unfold training.
  set (s0 := snd (emit (LogStart total_epoch (n_step cfg) (step s / epoch_size + 1) (step s)) s)).
  destruct (outer_loop_ticks (range (step s / epoch_size + 1) total_epoch)
                             (range 0 epoch_size) total_epoch s0) as [s1 [H1 B1]].
  exists s1. split.
  - rewrite (bind_ok _ _ s s s); [|reflexivity].
    rewrite (bind_ok _ _ s s0 tt); [exact H1 | reflexivity].
  - rewrite B1, !range_length. rewrite Z.sub_0_r. reflexivity.
Qed.
End SingleLoops.

Section GuardedLoads.
Context {K : Collaborators}.
Import Single.

Lemma only_loaded_refl s : only_loaded s s.
Proof. unfold only_loaded. repeat split. exists []. reflexivity. Qed.

Lemma only_loaded_trans s1 s2 s3 :
  only_loaded s1 s2 -> only_loaded s2 s3 -> only_loaded s1 s3.
Proof.
  unfold only_loaded.
  intros (A1 & A2 & A3 & A4 & A5 & A6 & A7 & m1 & A8) (B1 & B2 & B3 & B4 & B5 & B6 & B7 & m2 & B8).
  repeat split; try congruence.
  exists (m2 ++ m1)%list. rewrite B8, A8, map_app, app_assoc. reflexivity.
Qed.

Lemma only_loaded_book s s' : only_loaded s s' -> book_of s' = book_of s.
Proof.
  intros (A1 & A2 & A3 & A4 & A5 & A6 & A7 & m & A8). unfold book_of.
  rewrite A1, A2, A3, A4, A7, A8. f_equal. clear A8.
  induction m as [|x m IH]; [reflexivity | exact IH].
Qed.

Lemma load_backbone_ok env s :
  exists s', load_backbone env s = (Ok tt, s') /\ only_loaded s s'.
Proof.
  unfold load_backbone, try_except, emit, bind, get, modify, lift. st_simpl.
  destruct (pretrained_backbone env) as [f|e]; st_simpl;
    eexists; (split; [reflexivity|]); unfold only_loaded; st_simpl; repeat split.
  - exists ["loading pretrained backbone..."%string]. reflexivity.
  - eexists [_; _]. reflexivity.
Qed.

Lemma load_weights_ok env s :
  exists s', load_weights env s = (Ok tt, s') /\ only_loaded s s'.
Proof.
  unfold load_weights, try_except, emit, bind, get, modify, lift. st_simpl.
  destruct (newest_model env) as [f|e]; st_simpl;
    eexists; (split; [reflexivity|]); unfold only_loaded; st_simpl; repeat split.
  - eexists [_]. reflexivity.
  - eexists [_; _]. reflexivity.
Qed.

Lemma load_discriminator_ok env s :
  exists s', load_discriminator env s = (Ok tt, s') /\ only_loaded s s'.
Proof.
  unfold load_discriminator, try_except, emit, bind, get, modify, lift. st_simpl.
  destruct (newest_discriminator env) as [f|e]; st_simpl;
    eexists; (split; [reflexivity|]); unfold only_loaded; st_simpl; repeat split.
  - eexists [_]. reflexivity.
  - eexists [_; _]. reflexivity.
Qed.

(** What the first guarded block leaves, by what [restore] does. *)
Lemma load_ckpt_none cfg env s :
  latest_checkpoint env = Ok None ->
  load_ckpt cfg env s = (Ok tt, snd (emit (Log "loading ckpt...") s)).
Proof.
  intros E. unfold load_ckpt, restore, try_except, emit, bind, modify, lift. st_simpl.
  rewrite E. reflexivity.
Qed.

Lemma load_ckpt_raise cfg env s e :
  latest_checkpoint env = Raise e ->
  load_ckpt cfg env s
  = (Ok tt, snd (emit (Log "ckpt_path doesn't exist, step and optimizer are initialized")
                      (snd (emit (Log "loading ckpt...") s)))).
Proof.
  intros E. unfold load_ckpt, restore, try_except, emit, bind, modify, lift. st_simpl.
  rewrite E. reflexivity.
Qed.

Lemma load_ckpt_some cfg env s c :
  latest_checkpoint env = Ok (Some c) ->
  exists s', load_ckpt cfg env s = (Ok tt, s')
    /\ step s' = step s /\ lr s' = lr s /\ pulled s' = pulled s
    /\ save_step s' = snap_step c /\ save_lr s' = snap_lr c
    /\ trace s' = Log "loading ckpt..." :: trace s.
Proof.
  intros E. unfold load_ckpt, restore, try_except, when, emit, bind, modify, lift, ret.
  st_simpl. rewrite E. destruct (domainadapt_flag cfg); st_simpl;
    eexists; (split; [reflexivity|]); st_simpl; repeat split.
Qed.

Lemma load_rest_ok cfg env s :
  exists s',
    bind (load_backbone env)
         (fun _ => bind (load_weights env)
                        (fun _ => when (domainadapt_flag cfg) (load_discriminator env))) s
    = (Ok tt, s')
    /\ only_loaded s s'.
Proof.
  destruct (load_backbone_ok env s) as [s1 [H1 L1]].
  destruct (load_weights_ok env s1) as [s2 [H2 L2]].
  rewrite (bind_ok _ _ _ _ _ H1), (bind_ok _ _ _ _ _ H2).
  unfold when. destruct (domainadapt_flag cfg).
  - destruct (load_discriminator_ok env s2) as [s3 [H3 L3]].
    exists s3. split; [exact H3|]. eauto using only_loaded_trans.
  - exists s2. split; [reflexivity|]. eauto using only_loaded_trans.
Qed.
End GuardedLoads.

Section Startup.
Context {K : Collaborators}.
Import Single.

Lemma startup_ok cfg env train_model :
  0 < batch_size cfg ->
  Z.of_nat (length (samples env)) / batch_size cfg <> 0 ->
  exists s0 s1 s2 s',
    s0 = snd (when (domainadapt_flag cfg) (emit (Log "domain adaptaion enabled!"))
                   (initial cfg train_model))
    /\ load_ckpt cfg env s0 = (Ok tt, s1)
    /\ only_loaded s1 s2
    /\ startup cfg env (initial cfg train_model)
       = (Ok (Z.of_nat (length (samples env)) / batch_size cfg,
              n_step cfg / (Z.of_nat (length (samples env)) / batch_size cfg)), s')
    /\ step s' = save_step s2
    /\ lr s' = Schedule.catch_up (lr_decay_factor cfg) Schedule.lr_decay_steps
                                 (save_step s2) (save_lr s2)
    /\ save_step s' = save_step s2 /\ save_lr s' = save_lr s2
    /\ opt s' = opt s2 /\ opt_d s' = opt_d s2
    /\ pulled s' = pulled s2 /\ trace s' = trace s2.
Proof.
  intros Hb He.
  set (s0 := snd (when (domainadapt_flag cfg) (emit (Log "domain adaptaion enabled!"))
                       (initial cfg train_model))).
  assert (H1 : exists s1, load_ckpt cfg env s0 = (Ok tt, s1)).
  { destruct (latest_checkpoint env) as [[c|]|e] eqn:E.
    - destruct (load_ckpt_some cfg env s0 c E) as [s1 [H _]]. eauto.
    - rewrite (load_ckpt_none cfg env s0 E). eauto.
    - rewrite (load_ckpt_raise cfg env s0 e E). eauto. }
  destruct H1 as [s1 H1].
  destruct (load_rest_ok cfg env s1) as [s2 [H2 L2]].
  exists s0, s1, s2. eexists.
  split; [reflexivity|]. split; [exact H1|]. split; [exact L2|].
  split.
  - unfold startup.
    rewrite (bind_ok _ _ _ (initial cfg train_model)
                     (Z.of_nat (length (samples env)) / batch_size cfg)).
    2:{ unfold lift, floordiv. destruct (Z.eqb_spec (batch_size cfg) 0); [lia | reflexivity]. }
    rewrite (bind_ok _ _ _ (initial cfg train_model) tt).
    2:{ destruct (Z.leb_spec (batch_size cfg) 0); [lia | reflexivity]. }
    rewrite (bind_ok _ _ _ (initial cfg train_model)
                     (n_step cfg / (Z.of_nat (length (samples env)) / batch_size cfg))).
    2:{ unfold lift, floordiv.
        destruct (Z.eqb_spec (Z.of_nat (length (samples env)) / batch_size cfg) 0);
          [contradiction | reflexivity]. }
    rewrite (bind_ok _ _ _ s0 tt).
    2:{ unfold s0, when. destruct (domainadapt_flag cfg); reflexivity. }
    rewrite (bind_ok _ _ _ s2 tt).
    2:{ unfold load_all. rewrite (bind_ok _ _ _ _ _ H1). exact H2. }
    unfold bind, modify, ret. reflexivity.
  - st_simpl. repeat split.
Qed.
End Startup.

Section SingleRun.
Context {K : Collaborators}.
Import Single.

Lemma flat_map_logs msgs (t : list event) :
  flat_map bookkeeping (map Log msgs ++ t) = flat_map bookkeeping t.
Proof. induction msgs as [|m msgs IH]; [reflexivity | exact IH]. Qed.

Lemma startup_book cfg env train_model :
  0 < batch_size cfg ->
  Z.of_nat (length (samples env)) / batch_size cfg <> 0 ->
  exists s',
    startup cfg env (initial cfg train_model)
    = (Ok (Z.of_nat (length (samples env)) / batch_size cfg,
           n_step cfg / (Z.of_nat (length (samples env)) / batch_size cfg)), s')
    /\ book_of s' = start_book cfg (latest_checkpoint env).
Proof.
  intros Hb He.
  destruct (startup_ok cfg env train_model Hb He)
    as (s0 & s1 & s2 & s' & E0 & H1 & L2 & Hrun & F1 & F2 & F3 & F4 & _ & _ & F7 & F8).
  exists s'. split; [exact Hrun|].
  destruct L2 as (_ & _ & G3 & G4 & _ & _ & G7 & msgs & G8).
  unfold book_of. rewrite F1, F2, F3, F4, F7, F8, G3, G4, G7, G8, flat_map_logs.
  assert (T0 : flat_map bookkeeping (trace s0) = []
               /\ pulled s0 = 0%nat /\ save_step s0 = 1 /\ save_lr s0 = lr_init cfg).
  { subst s0. unfold when. destruct (domainadapt_flag cfg); repeat split. }
  destruct T0 as (T1 & T2 & T3 & T4).
  unfold start_book.
  destruct (latest_checkpoint env) as [[c|]|e] eqn:E.
  - destruct (load_ckpt_some cfg env s0 c E) as (s1' & H1' & _ & _ & P3 & P4 & P5 & P6).
    rewrite H1 in H1'. injection H1' as <-.
    rewrite P3, P4, P5, P6, T2. cbn [flat_map bookkeeping app]. rewrite T1. reflexivity.
  - rewrite (load_ckpt_none cfg env s0 E) in H1. injection H1 as <-.
    st_simpl. unfold emit, modify. st_simpl. rewrite T1, T2, T3, T4. reflexivity.
  - rewrite (load_ckpt_raise cfg env s0 e E) in H1. injection H1 as <-.
    unfold emit, modify. st_simpl. rewrite T1, T2, T3, T4. reflexivity.
Qed.

Lemma run_book cfg env train_model :
  domainadapt_flag cfg = false ->
  Pipeline.well_shuffled (samples env) (order env) ->
  0 < batch_size cfg <= Z.of_nat (length (samples env)) ->
  let epoch_size := Z.of_nat (length (samples env)) / batch_size cfg in
  let total_epoch := n_step cfg / epoch_size in
  let b0 := start_book cfg (latest_checkpoint env) in
  exists s',
    run cfg env train_model = (Ok tt, s')
    /\ book_of s' =
       ticks cfg (Z.to_nat (total_epoch - (b_step b0 / epoch_size + 1)) * Z.to_nat epoch_size) b0.
Proof.
  intros Hflag Hw Hb epoch_size total_epoch b0.
  assert (He : epoch_size <> 0).
  { unfold epoch_size. intros E. apply Z.div_small_iff in E; lia. }
  assert (Hne : samples env <> []).
  { intros E. rewrite E in Hb. simpl in Hb. lia. }
  destruct (startup_book cfg env train_model (proj1 Hb) He) as [s0 [H0 B0]].
  destruct (training_ticks cfg env Hflag Hw Hne epoch_size total_epoch s0) as [s1 [H1 B1]].
  exists s1. split.
  - unfold run, single_train. rewrite (bind_ok _ _ _ _ _ H0). exact H1.
  - rewrite B1, B0. fold b0. replace (step s0) with (b_step b0); [reflexivity|].
    unfold b0. rewrite <- B0. reflexivity.
Qed.

Lemma ticks_S cfg n b : ticks cfg (S n) b = tick cfg (ticks cfg n b).
Proof. reflexivity. Qed.

Lemma tick_step cfg b : b_step (tick cfg b) = b_step b + 1.
Proof. unfold tick. destruct (due _ _); reflexivity. Qed.

Lemma tick_pulled cfg b : b_pulled (tick cfg b) = S (b_pulled b).
Proof. unfold tick. destruct (due _ _); reflexivity. Qed.

Lemma tick_lr cfg b :
  Schedule.decay (lr_init cfg) (lr_decay_factor cfg) Schedule.lr_decay_steps
                 (b_step b + 1) (b_lr b)
  = Ok (b_lr (tick cfg b)).
Proof.
  destruct (decay_total (lr_init cfg) (lr_decay_factor cfg) Schedule.lr_decay_steps
                        (b_step b + 1) (b_lr b)) as [l Hl].
  unfold tick. rewrite Hl. destruct (due _ _); reflexivity.
Qed.

Lemma ticks_schedule cfg n b :
  Schedule.advance_n (lr_init cfg) (lr_decay_factor cfg) Schedule.lr_decay_steps n
                     (b_step b, b_lr b)
  = Ok (b_step (ticks cfg n b), b_lr (ticks cfg n b)).
Proof.
  induction n as [|n IH]; [reflexivity|].
  cbn [Schedule.advance_n]. rewrite IH, ticks_S.
  unfold Schedule.advance. cbn [fst snd]. rewrite tick_lr, tick_step. reflexivity.
Qed.

Lemma ticks_step cfg n b : b_step (ticks cfg n b) = b_step b + Z.of_nat n.
Proof.
  induction n as [|n IH]; [simpl; lia|].
  rewrite ticks_S, tick_step, IH. lia.
Qed.

Lemma ticks_pulled cfg n b : b_pulled (ticks cfg n b) = (b_pulled b + n)%nat.
Proof.
  induction n as [|n IH]; [simpl; lia|].
  rewrite ticks_S, tick_pulled, IH. lia.
Qed.

Lemma book_saves_of s : checkpoint_saves s = book_saves (book_of s).
Proof.
  unfold checkpoint_saves, book_saves, history, book_of. cbn [b_events].
  induction (trace s) as [|e t IH]; [reflexivity|].
  cbn [flat_map rev]. rewrite rev_app_distr, !flat_map_app, IH. f_equal.
  destruct e; reflexivity.
Qed.

Lemma book_update_of s o g n l :
  In (Apply o g n l 0) (b_events (book_of s)) ->
  exists loss, In (Apply o g n l loss) (trace s).
Proof.
  unfold book_of. cbn [b_events].
  induction (trace s) as [|e t IH]; [intros []|].
  cbn [flat_map]. intros H. apply in_app_or in H. destruct H as [H|H].
  - destruct e; simpl in H; try tauto; destruct H as [H|[]]; try discriminate.
    injection H as -> -> -> ->. eexists. left. reflexivity.
  - destruct (IH H) as [loss Hl]. exists loss. right. exact Hl.
Qed.

Lemma book_line_of s n l :
  In (LogTrain n l) (b_events (book_of s)) -> In (LogTrain n l) (trace s).
Proof.
  unfold book_of. cbn [b_events].
  induction (trace s) as [|e t IH]; [intros []|].
  cbn [flat_map]. intros H. apply in_app_or in H. destruct H as [H|H].
  - destruct e; simpl in H; try tauto; destruct H as [H|[]]; try discriminate.
    left. exact H.
  - right. exact (IH H).
Qed.
End SingleRun.

(* ------------------------------------------------------------------ *)
(** * The learning-rate schedule of a run *)
(* ------------------------------------------------------------------ *)

(** On a fresh start the per-iteration update computes the closed form:
    after any number [n] of iterations the step is [1 + n] and the rate
    that lines 247 and 257-259 have computed is
    [lr_init * lr_decay_factor ^ (number of thresholds <= step)]; with
    [lr_init >= 0] and [0 <= lr_decay_factor <= 1] it never increases. *)
Lemma fresh_schedule (lr_init factor : Q) (n : nat) :
  exists lr,
    Schedule.advance_n lr_init factor Schedule.lr_decay_steps n (1, lr_init)
    = Ok (1 + Z.of_nat n, lr)
    /\ (lr == Schedule.lr_spec lr_init factor Schedule.lr_decay_steps (1 + Z.of_nat n))%Q
    /\ ((0 <= lr_init)%Q -> (0 <= factor)%Q -> (factor <= 1)%Q ->
        forall m lr', (n <= m)%nat ->
          Schedule.advance_n lr_init factor Schedule.lr_decay_steps m (1, lr_init)
          = Ok (1 + Z.of_nat m, lr') ->
          (lr' <= lr)%Q).
Proof.
  destruct (advance_n_spec lr_init factor Schedule.lr_decay_steps n 1 lr_init
              lr_decay_steps_sorted (lr_spec_fresh lr_init factor)) as [lr [Hrun Hlr]].
  exists lr. split; [exact Hrun|]. split; [exact Hlr|].
  intros Hi H0 H1 m lr' Hnm Hm.
  destruct (advance_n_spec lr_init factor Schedule.lr_decay_steps m 1 lr_init
              lr_decay_steps_sorted (lr_spec_fresh lr_init factor)) as [lr2 [Hrun2 Hlr2]].
  rewrite Hrun2 in Hm. injection Hm as <-.
  rewrite Hlr, Hlr2. apply lr_spec_antitone; try assumption. lia.
Qed.

(** A run that starts without a restored checkpoint, with domain
    adaptation off, ends normally, and its step and rate are those of the
    schedule after as many iterations as the two loops make. *)
Lemma fresh_run_schedule {K : Collaborators} (cfg : Single.config) (env : Single.world)
      (train_model : weights) :
  Single.domainadapt_flag cfg = false ->
  Pipeline.well_shuffled (Single.samples env) (Single.order env) ->
  0 < Single.batch_size cfg <= Z.of_nat (length (Single.samples env)) ->
  Single.fresh_start env ->
  let epoch_size := Z.of_nat (length (Single.samples env)) / Single.batch_size cfg in
  let n := (Z.to_nat (Single.n_step cfg / epoch_size - (1 / epoch_size + 1))
            * Z.to_nat epoch_size)%nat in
  exists s',
    Single.run cfg env train_model = (Ok tt, s')
    /\ Single.book_of s'
       = Single.ticks cfg n (Single.Book 1 (Single.lr_init cfg) 1 (Single.lr_init cfg) 0 [])
    /\ Schedule.advance_n (Single.lr_init cfg) (Single.lr_decay_factor cfg)
                          Schedule.lr_decay_steps n (1, Single.lr_init cfg)
       = Ok (Single.step s', Single.lr s').
Proof.
  intros Hflag Hw Hb Hfresh epoch_size n.
  destruct (run_book cfg env train_model Hflag Hw Hb) as [s' [Hrun Hbook]].
  assert (Hstart : Single.start_book cfg (Single.latest_checkpoint env)
                   = Single.Book 1 (Single.lr_init cfg) 1 (Single.lr_init cfg) 0 []).
  { unfold Single.fresh_start in Hfresh. unfold Single.start_book.
    destruct (Single.latest_checkpoint env) as [[c|]|e]; [contradiction| |]; reflexivity. }
  rewrite Hstart in Hbook. cbn [Single.b_step] in Hbook. fold epoch_size in Hbook.
  fold n in Hbook.
  exists s'. split; [exact Hrun|]. split; [exact Hbook|].
  change (1, Single.lr_init cfg)
    with (Single.b_step (Single.Book 1 (Single.lr_init cfg) 1 (Single.lr_init cfg) 0 []),
          Single.b_lr (Single.Book 1 (Single.lr_init cfg) 1 (Single.lr_init cfg) 0 [])).
  rewrite ticks_schedule, <- Hbook. reflexivity.
Qed.

(* ------------------------------------------------------------------ *)
(** * Checkpoint cadence of the scenario run *)
(* ------------------------------------------------------------------ *)

(** C3, at its own input: with [total_step=100, save_interval=50,
    batch_size=4] on 20 samples, a fresh single-mode run ends normally after
    95 iterations at step 96; it saves one checkpoint, at step 50, and none
    at step 100.  The 95 batches are 19 passes over the dataset. *)
Theorem C3_one_save {K : Collaborators} (env : Single.world) (train_model : weights) :
  length (Single.samples env) = 20%nat ->
  Pipeline.well_shuffled (Single.samples env) (Single.order env) ->
  Single.fresh_start env ->
  let r := Single.run Scenario.budget_100 env train_model in
  fst r = Ok tt
  /\ Single.checkpoint_saves (snd r) = [50]
  /\ Single.step (snd r) = 96
  /\ Single.pulled (snd r) = 95%nat
  /\ Pipeline.passes_completed 20 4 (Single.pulled (snd r)) = 19%nat.
Proof.
  intros Hlen Hw Hfresh r.
  destruct (fresh_run_schedule Scenario.budget_100 env train_model eq_refl Hw) as [s' [Hrun [Hbook _]]].
  { rewrite Hlen. cbn. lia. }
  { exact Hfresh. }
  rewrite Hlen in Hbook.
  subst r. rewrite Hrun. cbn [fst snd].
  assert (Hs : Single.checkpoint_saves s' = [50]).
  { rewrite book_saves_of, Hbook. vm_compute. reflexivity. }
  assert (Hstep : Single.step s' = 96).
  { change (Single.step s') with (Single.b_step (Single.book_of s')).
    rewrite Hbook. vm_compute. reflexivity. }
  assert (Hp : Single.pulled s' = 95%nat).
  { change (Single.pulled s') with (Single.b_pulled (Single.book_of s')).
    rewrite Hbook. vm_compute. reflexivity. }
  rewrite Hp. repeat split; try assumption. 
Qed.

Lemma C3_one_save_witness :
  let env := Scenario.toy_world 20 (Ok None) in
  length (Single.samples env) = 20%nat
  /\ Pipeline.well_shuffled (Single.samples env) (Single.order env)
  /\ Single.fresh_start env
  /\ Single.checkpoint_saves (snd (@Single.run toy Scenario.budget_100 env tt)) = [50].
Proof.
  intros env.
  assert (Hw : Pipeline.well_shuffled (Single.samples env) (Single.order env))
    by (intros e; apply Permutation_refl).
  split; [reflexivity|]. split; [exact Hw|]. split; [exact I|].
  exact (proj1 (proj2 (@C3_one_save toy env tt eq_refl Hw I))).
Defined.

(* ------------------------------------------------------------------ *)
(** * The learning rate that the optimizer reads *)
(* ------------------------------------------------------------------ *)

Lemma contains_below s : s < 200000 -> contains s Schedule.lr_decay_steps = false.
Proof.
  intros H. unfold Schedule.lr_decay_steps. cbn [contains].
  repeat match goal with
         | |- context [?a =? ?b] => destruct (Z.eqb_spec a b) as [E|_]; [lia|]
         end.
  reflexivity.
Qed.

Section BeforeFirstThreshold.
Context {K : Collaborators}.
Variable cfg : Single.config.

Let b0 : Single.book :=
  Single.Book 1 (Single.lr_init cfg) 1 (Single.lr_init cfg) 0 [].

Lemma tick_save_lr b :
  Single.b_save_lr (Single.tick cfg b)
  = if Single.due (Single.b_step b + 1) (Single.save_interval cfg)
    then Single.b_lr (Single.tick cfg b) else Single.b_save_lr b.
Proof. unfold Single.tick. destruct (Single.due _ _); reflexivity. Qed.

Lemma tick_update b :
  In (Apply Opt ModelParams (Single.b_step b + 1) (Single.b_save_lr b) 0)
     (Single.b_events (Single.tick cfg b)).
Proof.
  unfold Single.tick.
  destruct (Single.due _ (Single.log_interval cfg)), (Single.due _ (Single.save_interval cfg));
    simpl; auto.
Qed.

Lemma tick_progress_line b :
  Single.due (Single.b_step b + 1) (Single.log_interval cfg) = true ->
  In (LogTrain (Single.b_step b + 1) (Single.b_lr (Single.tick cfg b)))
     (Single.b_events (Single.tick cfg b)).
Proof.
  intros H. unfold Single.tick. rewrite H.
  destruct (Single.due _ (Single.save_interval cfg)); simpl; auto.
Qed.

(** Up to step 199999 nothing changes either rate. *)
Lemma ticks_rates_unchanged n :
  Z.of_nat n < 199999 ->
  Single.b_lr (Single.ticks cfg n b0) = Single.lr_init cfg
  /\ Single.b_save_lr (Single.ticks cfg n b0) = Single.lr_init cfg.
Proof.
  induction n as [|n IH]; intros Hn; [split; reflexivity|].
  destruct IH as [Hlr Hsave]; [lia|].
  pose proof (ticks_step cfg n b0) as Hstep. cbn [Single.b_step b0] in Hstep.
  pose proof (tick_lr cfg (Single.ticks cfg n b0)) as Hd.
  unfold Schedule.decay in Hd. rewrite contains_below in Hd by lia.
  injection Hd as Hd.
  rewrite ticks_S, tick_save_lr, <- Hd.
  destruct (Single.due _ _); auto.
Qed.

(** The iteration that reaches step 200000 computes the decayed rate and
    hands the optimizer the undecayed one. *)
Lemma tick_at_first_threshold n :
  Z.of_nat n = 199998 ->
  Single.due 200000 (Single.log_interval cfg) = true ->
  let b := Single.ticks cfg (S n) b0 in
  Single.b_step b = 200000
  /\ In (LogTrain 200000 (Single.lr_init cfg * pow (Single.lr_decay_factor cfg) 1)%Q)
        (Single.b_events b)
  /\ In (Apply Opt ModelParams 200000 (Single.lr_init cfg) 0) (Single.b_events b).
Proof.
  intros Hn Hlog b.
  destruct (ticks_rates_unchanged n) as [Hlr Hsave]; [lia|].
  pose proof (ticks_step cfg n b0) as Hstep.
  rewrite Hn in Hstep. cbn [Single.b_step b0] in Hstep.
  change (1 + 199998) with 199999 in Hstep.
  pose proof (tick_lr cfg (Single.ticks cfg n b0)) as Hd.
  pose proof (tick_update (Single.ticks cfg n b0)) as Hu.
  pose proof (tick_progress_line (Single.ticks cfg n b0)) as Hp.
  rewrite Hstep in Hd, Hu, Hp. rewrite Hsave in Hu.
  change (199999 + 1) with 200000 in Hd, Hu, Hp.
  specialize (Hp Hlog).
  subst b. rewrite ticks_S. split; [rewrite tick_step, Hstep; reflexivity|].
  split; [|exact Hu].
  change (Schedule.decay (Single.lr_init cfg) (Single.lr_decay_factor cfg)
                         Schedule.lr_decay_steps 200000
                         (Single.b_lr (Single.ticks cfg n b0)))
    with (@Ok Q (Single.lr_init cfg * pow (Single.lr_decay_factor cfg) 1)%Q) in Hd.
  injection Hd as Hd. rewrite <- Hd in Hp. exact Hp.
Qed.

Lemma ticks_events_grow n b e :
  In e (Single.b_events b) -> In e (Single.b_events (Single.ticks cfg n b)).
Proof.
  intros H. induction n as [|n IH]; [exact H|].
  rewrite ticks_S. unfold Single.tick.
  destruct (Single.due _ (Single.log_interval cfg)), (Single.due _ (Single.save_interval cfg));
    simpl; auto.
Qed.
End BeforeFirstThreshold.

(** C2, at a failing input: 20 samples, batches of 4, [n_step = 250000],
    [lr_init = 1], [lr_decay_factor = 1/2], a fresh start.  The run ends
    normally at step 249996.  The schedule's rate for step 200000 is 1/2,
    and 1/2 is the rate that the run's progress line of step 200000
    reports; the update of step 200000 was applied with the rate 1, the
    value that the variable [save_lr] still held. *)
Theorem C2_stale_rate {K : Collaborators} (env : Single.world) (train_model : weights) :
  length (Single.samples env) = 20%nat ->
  Pipeline.well_shuffled (Single.samples env) (Single.order env) ->
  Single.fresh_start env ->
  let r := Single.run Scenario.first_threshold env train_model in
  fst r = Ok tt
  /\ Single.step (snd r) = 249996
  /\ (Schedule.lr_spec 1 (1 # 2) Schedule.lr_decay_steps 200000 == 1 # 2)%Q
  /\ (exists rate, In (LogTrain 200000 rate) (Single.trace (snd r)) /\ (rate == 1 # 2)%Q)
  /\ exists loss, In (Apply Opt ModelParams 200000 1 loss) (Single.trace (snd r)).
Proof.
  intros Hlen Hw Hfresh r.
  destruct (fresh_run_schedule Scenario.first_threshold env train_model eq_refl Hw)
    as [s' [Hrun [Hbook _]]].
  { rewrite Hlen. cbn. lia. }
  { exact Hfresh. }
  rewrite Hlen in Hbook.
  match type of Hbook with
  | context [Single.ticks _ ?n _] =>
      assert (Hn : n = (S (Z.to_nat 199998) + Z.to_nat 49996)%nat)
  end.
  { rewrite <- Z2Nat.inj_succ, <- Z2Nat.inj_mul, <- Z2Nat.inj_add
      by (vm_compute; discriminate).
    apply f_equal. vm_compute. reflexivity. }
  rewrite Hn, ticks_add in Hbook. clear Hn.
  destruct (tick_at_first_threshold Scenario.first_threshold (Z.to_nat 199998))
    as [Hstep [Hline Hin]].
  { apply Z2Nat.id. vm_compute. discriminate. }
  { reflexivity. }
  apply (ticks_events_grow Scenario.first_threshold (Z.to_nat 49996)) in Hin, Hline.
  rewrite <- Hbook in Hin, Hline.
  assert (Hfinal : Single.step s' = 249996).
  { change (Single.step s') with (Single.b_step (Single.book_of s')).
    rewrite Hbook, ticks_step, Hstep, Z2Nat.id by (vm_compute; discriminate).
    reflexivity. }
  subst r. rewrite Hrun. cbn [fst snd].
  split; [reflexivity|]. split; [exact Hfinal|]. split; [reflexivity|].
  split.
  - eexists. split; [apply book_line_of; exact Hline | reflexivity].
  - apply book_update_of. exact Hin.
Qed.

Lemma C2_stale_rate_witness :
  let env := Scenario.toy_world 20 (Ok None) in
  length (Single.samples env) = 20%nat
  /\ Pipeline.well_shuffled (Single.samples env) (Single.order env)
  /\ Single.fresh_start env
  /\ exists loss,
       In (Apply Opt ModelParams 200000 1 loss)
          (Single.trace (snd (@Single.run toy Scenario.first_threshold env tt))).
Proof.
  intros env.
  assert (Hw : Pipeline.well_shuffled (Single.samples env) (Single.order env))
    by (intros e; apply Permutation_refl).
  split; [reflexivity|]. split; [exact Hw|]. split; [exact I|].
  exact (proj2 (proj2 (proj2 (proj2 (@C2_stale_rate toy env tt eq_refl Hw I))))).
Defined.

(* ------------------------------------------------------------------ *)
(** * Properties kept by every statement *)
(* ------------------------------------------------------------------ *)
Section Keeps.
Context {S : Type} (P : S -> Prop).

Lemma keeps_ret {A} (a : A) : keeps P (ret a).
Proof. intros s H. exact H. Qed.

Lemma keeps_raise {A} e : keeps P (@raise S A e).
Proof. intros s H. exact H. Qed.

Lemma keeps_get : keeps P get.
Proof. intros s H. exact H. Qed.

Lemma keeps_lift {A} (r : outcome A) : keeps P (lift r).
Proof. intros s H. exact H. Qed.

Lemma keeps_modify f : (forall s, P s -> P (f s)) -> keeps P (modify f).
Proof. intros Hf s H. apply Hf, H. Qed.

Lemma keeps_bind {A B} (c : M S A) (k : A -> M S B) :
  keeps P c -> (forall a, keeps P (k a)) -> keeps P (bind c k).
Proof.
  intros Hc Hk s H. unfold bind. specialize (Hc s H).
  destruct (c s) as [[a|e] s1]; cbn [snd] in *; [apply Hk; exact Hc | exact Hc].
Qed.

Lemma keeps_try_except {A} (c h : M S A) :
  keeps P c -> keeps P h -> keeps P (try_except c h).
Proof.
  intros Hc Hh s H. unfold try_except. specialize (Hc s H).
  destruct (c s) as [[a|e] s1]; cbn [snd] in *; [exact Hc | apply Hh; exact Hc].
Qed.

Lemma keeps_for_each {A} (l : list A) (body : A -> M S unit) :
  (forall x, keeps P (body x)) -> keeps P (for_each l body).
Proof.
  intros Hb. induction l as [|x l IH]; cbn [for_each].
  - apply keeps_ret.
  - apply keeps_bind; [apply Hb | intros _; exact IH].
Qed.
End Keeps.

Ltac keeps_core emit_tac :=
  repeat first
    [ apply keeps_ret | apply keeps_raise | apply keeps_get | apply keeps_lift
    | apply keeps_bind; [| intro]
    | apply keeps_try_except
    | apply keeps_for_each; intro
    | emit_tac
    | match goal with
      | |- keeps _ (if ?b then _ else _) => destruct b
      | |- keeps _ (match ?x with _ => _ end) => destruct x
      end ].

Section SingleKeeps.
Context {K : Collaborators}.
Import Single.
Variable p : event -> bool.

Lemma keeps_emit e : p e = false -> keeps (never p) (emit e).
Proof. intros He s H. unfold never in *. cbn. constructor; assumption. Qed.

Lemma keeps_untraced f :
  (forall s, trace (f s) = trace s) -> keeps (never p) (modify f).
Proof. intros Hf. apply keeps_modify. intros s H. unfold never. rewrite Hf. exact H. Qed.
End SingleKeeps.

Ltac single_keeps :=
  keeps_core ltac:(first [ apply keeps_untraced; intro; reflexivity
                         | apply keeps_emit; reflexivity ]).

Section SingleNever.
Context {K : Collaborators}.
Import Single.

(** The discriminator's optimizer is never the one that applies an
    update, whatever the configuration. *)
Lemma single_train_never_opt_d cfg env :
  keeps (never by_opt_d) (single_train cfg env).
Proof.
  unfold single_train, startup, training, load_all, load_ckpt, load_backbone,
    load_weights, load_discriminator, restore, iteration, next_batch, optimize_step,
    save, when.
  single_keeps.
Qed.

End SingleNever.

(* ------------------------------------------------------------------ *)
(** * Start-up without a usable checkpoint *)
(* ------------------------------------------------------------------ *)

Lemma iteration_step {K : Collaborators} cfg env epoch_idx s :
  Single.step (snd (Single.iteration cfg env epoch_idx s)) = Single.step s + 1.
Proof.
  unfold Single.iteration.
  rewrite (bind_ok _ _ s (Single.set_step (Single.step s + 1) s) tt) by reflexivity.
  set (v := Single.step s + 1).
  assert (H : keeps (fun s => Single.step s = v)
                    (bind (Single.next_batch cfg env) (fun b =>
                     bind get (fun s0 =>
                     bind (lift (Schedule.decay (Single.lr_init cfg) (Single.lr_decay_factor cfg)
                                                Schedule.lr_decay_steps (Single.step s0)
                                                (Single.lr s0))) (fun new_lr =>
                     bind (modify (Single.set_lr new_lr)) (fun _ =>
                     bind (Single.optimize_step cfg b) (fun predict_x =>
                     bind get (fun s1 =>
                     bind (Single.when (Single.due (Single.step s1) (Single.log_interval cfg))
                                       (Single.emit (LogTrain (Single.step s1) (Single.lr s1))))
                          (fun _ =>
                     bind (Single.when (Single.due (Single.step s1) (Single.vis_interval cfg))
                             (bind (Single.emit (Log "Visualizing prediction maps and target maps"))
                                   (fun _ => Single.emit (Visualize (Single.step s1)))))
                          (fun _ =>
                     Single.when (Single.due (Single.step s1) (Single.save_interval cfg))
                                 (Single.save cfg))))))))))).
  { unfold Single.next_batch, Single.optimize_step, Single.save, Single.when, Single.emit.
    keeps_core ltac:(apply keeps_modify; intros ? ?; assumption). }
  apply H. reflexivity.
Qed.

(** C6 (as amended): when no checkpoint is read back at start-up, because
    there is none or because reading it raises, [single_train] does not
    abort there.  The step counter and the saved-step variable hold their
    initial value 1, both rates are [lr_init], both optimizers are freshly
    created, and the first iteration runs as step 2.  When reading raises,
    the fallback message is logged. *)
Theorem C6_restore_fallback {K : Collaborators} (cfg : Single.config) (env : Single.world)
        (train_model : weights) :
  0 < Single.batch_size cfg ->
  Z.of_nat (length (Single.samples env)) / Single.batch_size cfg <> 0 ->
  Single.fresh_start env ->
  exists epochs s',
    Single.startup cfg env (Single.initial cfg train_model) = (Ok epochs, s')
    /\ Single.step s' = 1 /\ Single.save_step s' = 1
    /\ Single.lr s' = Single.lr_init cfg /\ Single.save_lr s' = Single.lr_init cfg
    /\ Single.opt s' = fresh_slots /\ Single.opt_d s' = fresh_slots
    /\ (forall e, Single.latest_checkpoint env = Raise e ->
                  In (Log "ckpt_path doesn't exist, step and optimizer are initialized")
                     (Single.trace s'))
    /\ (forall epoch_idx, Single.step (snd (Single.iteration cfg env epoch_idx s')) = 2).
Proof.
  intros Hb He Hfresh.
  destruct (startup_ok cfg env train_model Hb He)
    as (s0 & s1 & s2 & s' & E0 & H1 & L2 & Hrun & F1 & F2 & F3 & F4 & F5 & F6 & _ & F8).
  destruct L2 as (_ & _ & G3 & G4 & G5 & G6 & _ & msgs & G8).
  assert (T0 : Single.save_step s0 = 1 /\ Single.save_lr s0 = Single.lr_init cfg
               /\ Single.opt s0 = fresh_slots /\ Single.opt_d s0 = fresh_slots).
  { subst s0. unfold Single.when. destruct (Single.domainadapt_flag cfg); repeat split. }
  destruct T0 as (T1 & T2 & T3 & T4).
  assert (T : Single.save_step s1 = 1 /\ Single.save_lr s1 = Single.lr_init cfg
              /\ Single.opt s1 = fresh_slots /\ Single.opt_d s1 = fresh_slots
              /\ (forall e, Single.latest_checkpoint env = Raise e ->
                    In (Log "ckpt_path doesn't exist, step and optimizer are initialized")
                       (Single.trace s1))).
  { unfold Single.fresh_start in Hfresh.
    destruct (Single.latest_checkpoint env) as [[c|]|e] eqn:E; [contradiction| |].
    - rewrite (load_ckpt_none cfg env s0 E) in H1. injection H1 as <-.
      repeat split; try assumption. intros e He'. discriminate.
    - rewrite (load_ckpt_raise cfg env s0 e E) in H1. injection H1 as <-.
      repeat split; try assumption. intros _ _. left. reflexivity. }
  destruct T as (U1 & U2 & U3 & U4 & U5).
  exists (Z.of_nat (length (Single.samples env)) / Single.batch_size cfg,
          Single.n_step cfg / (Z.of_nat (length (Single.samples env)) / Single.batch_size cfg)).
  exists s'. split; [exact Hrun|].
  assert (Hs : Single.step s' = 1) by congruence.
  split; [exact Hs|]. split; [congruence|].
  split; [rewrite F2, G3, G4, U1, U2; reflexivity|].
  split; [congruence|]. split; [congruence|]. split; [congruence|].
  split.
  - intros e He'. rewrite F8, G8. apply in_or_app. right. exact (U5 e He').
  - intros epoch_idx. rewrite iteration_step, Hs. reflexivity.
Qed.

Lemma C6_restore_fallback_witness :
  let cfg := Scenario.budget_100 in
  let env := Scenario.toy_world 20 (Raise DataLossError) in
  0 < Single.batch_size cfg
  /\ Z.of_nat (length (Single.samples env)) / Single.batch_size cfg <> 0
  /\ Single.fresh_start env
  /\ exists epochs s',
       @Single.startup toy cfg env (@Single.initial toy cfg tt) = (Ok epochs, s')
       /\ Single.step s' = 1.
Proof.
  intros cfg env.
  assert (Ha : 0 < Single.batch_size cfg) by reflexivity.
  assert (Hb : Z.of_nat (length (Single.samples env)) / Single.batch_size cfg <> 0)
    by (vm_compute; discriminate).
  split; [exact Ha|]. split; [exact Hb|]. split; [exact I|].
  destruct (@C6_restore_fallback toy cfg env tt Ha Hb I) as (epochs & s' & H & Hs & _).
  exists epochs, s'. split; assumption.
Defined.

(** C6, counterexample: the checkpoint is unreadable.  Start-up returns
    normally and logs the fallback, and the step counter it leaves is 1,
    not 0. *)
Lemma C6_counterexample :
  let r := @Single.startup toy Scenario.budget_100
                           (Scenario.toy_world 20 (Raise DataLossError))
                           (@Single.initial toy Scenario.budget_100 tt) in
  fst r = Ok (5, 20)
  /\ In (Log "ckpt_path doesn't exist, step and optimizer are initialized")
        (Single.trace (snd r))
  /\ Single.step (snd r) = 1
  /\ Single.step (snd r) <> 0.
Proof.
  intros r.
  assert (E : r = (Ok (5, 20),
                   @Single.State toy 1 (1 # 25000) 1 (1 # 25000) tt tt tt tt 0
                     [Log "model_path doesn't exist, model parameters are initialized";
                      Log "loading saved training model weights...";
                      Log "pretrained backbone doesn't exist, model backbone are initialized";
                      Log "loading pretrained backbone...";
                      Log "ckpt_path doesn't exist, step and optimizer are initialized";
                      Log "loading ckpt..."]))
    by (vm_compute; reflexivity).
  rewrite E. cbn [fst snd Single.trace Single.step].
  split; [reflexivity|]. split; [simpl; tauto|]. split; [reflexivity | discriminate].
Qed.

(* ------------------------------------------------------------------ *)
(** * The loss that a training step optimizes *)
(* ------------------------------------------------------------------ *)


Lemma one_step_variable {K : Collaborators} pcfg image gt_label mask is_first_batch s :
  Parallel.step_name s = Parallel.StepVariable ->
  let total := (pd_loss (forward (Parallel.model_w s) image) gt_label mask
                + regulize_loss (Parallel.model_w s) (Parallel.weight_decay_factor pcfg))%Q in
  exists s',
    Parallel.one_step pcfg image gt_label mask is_first_batch s
    = (Ok (total, regulize_loss (Parallel.model_w s) (Parallel.weight_decay_factor pcfg)), s')
    /\ Parallel.trace s'
       = (if is_first_batch then [Broadcast OptimizerVars; Broadcast ModelParams] else [])
         ++ Apply Opt ModelParams (Parallel.step_var s + 1) (Parallel.lr_var s) total
         :: Parallel.trace s.
Proof.
  intros Hname total.
  unfold Parallel.one_step, Parallel.when, Parallel.emit, bind, get, modify, lift, ret.
  rewrite Hname.
  cbn [Parallel.set_step_var Parallel.set_opt Parallel.set_model_w
       Parallel.step_var Parallel.lr_var Parallel.step_name Parallel.lr_name
       Parallel.lr_decay_steps Parallel.budget Parallel.model_w Parallel.opt
       Parallel.taken Parallel.trace gradient released persistent negb fst snd].
  fold total. destruct (apply_gradients _ _ _ _) as [o w].
  destruct is_first_batch; eexists; (split; [reflexivity|]); reflexivity.
Qed.

(** C10, at any step with domain adaptation enabled: the generator-side
    loss, computed with labels [1 - labeled], is added to the loss that
    updates the model, and the discriminator loss is computed with labels
    [labeled]; then the second [tape.gradient] call on the non-persistent
    tape raises, so the discriminator is not updated.  The statement that
    would update it applies the gradients through [opt], not [opt_d]: in no
    run does [opt_d] apply an update. *)
Theorem C10_adaptation_on {K : Collaborators} (cfg : Single.config) (env : Single.world)
        (train_model : weights) (b : batch tensor) (s : Single.state) :
  Single.domainadapt_flag cfg = true ->
  let feature := backbone_feature (forward (Single.model_w s) (image b)) in
  let task := cal_loss (forward (Single.model_w s) (image b)) (target_x b) (mask b) in
  let g_adapt := dis_cal_loss (Single.dis_w s) feature (map (fun l => 1 - l)%Q (labeled b)) in
  let d_adapt := dis_cal_loss (Single.dis_w s) feature (labeled b) in
  let r := Single.optimize_step cfg b s in
  fst r = Raise RuntimeError
  /\ Single.trace (snd r)
     = [Metric "dis/adapt_loss" d_adapt;
        Apply Opt ModelParams (Single.step s) (Single.save_lr s) (task + g_adapt)%Q;
        Metric "model/adapt_loss" g_adapt] ++ Single.trace s
  /\ Single.dis_w (snd r) = Single.dis_w s
  /\ Single.opt_d (snd r) = Single.opt_d s
  /\ Single.never by_opt_d (snd (Single.run cfg env train_model)).
Proof.
  intros Hflag feature task g_adapt d_adapt r.
  assert (Hrun : Single.never by_opt_d (snd (Single.run cfg env train_model))).
  { apply (single_train_never_opt_d cfg env). constructor. }
  subst r.
  unfold Single.optimize_step, Single.when, Single.emit, bind, get, modify, lift, ret.
  st_simpl. rewrite Hflag. st_simpl.
  destruct (apply_gradients _ _ _ _) as [o w]. st_simpl.
  repeat split; try reflexivity. exact Hrun.
Qed.

Lemma C10_adaptation_on_witness :
  let cfg := Single.Config 100 4 1 (1 # 2) 0 10 50 50 true in
  let s := @Single.initial toy cfg tt in
  Single.domainadapt_flag cfg = true
  /\ fst (@Single.optimize_step toy cfg (Batch tt tt tt [1%Q; 0%Q]) s) = Raise RuntimeError.
Proof.
  intros cfg s. split; [reflexivity|].
  exact (proj1 (@C10_adaptation_on toy cfg (Scenario.toy_world 20 (Ok None)) tt
                                   (Batch tt tt tt [1%Q; 0%Q]) s eq_refl)).
Defined.

(* ------------------------------------------------------------------ *)
(** * parallel_train: start-up and the first pass of the loop *)
(* ------------------------------------------------------------------ *)

Ltac par_simpl :=
  cbn [Parallel.set_step_var Parallel.set_lr_var Parallel.set_step_name Parallel.set_lr_name
       Parallel.set_lr_decay_steps Parallel.set_budget Parallel.set_model_w Parallel.set_opt
       Parallel.set_taken
       Parallel.step_var Parallel.lr_var Parallel.step_name Parallel.lr_name
       Parallel.lr_decay_steps Parallel.budget Parallel.model_w Parallel.opt
       Parallel.taken Parallel.trace gradient released persistent negb fst snd].

Section ParallelKeeps.
Context {K : Collaborators}.
Import Parallel.
Variable p : event -> bool.

Lemma par_keeps_emit e : p e = false -> keeps (never p) (emit e).
Proof. intros He s H. unfold never in *. cbn. constructor; assumption. Qed.

Lemma par_keeps_untraced f :
  (forall s, trace (f s) = trace s) -> keeps (never p) (modify f).
Proof. intros Hf. apply keeps_modify. intros s H. unfold never. rewrite Hf. exact H. Qed.
End ParallelKeeps.

Ltac parallel_keeps :=
  keeps_core ltac:(first [ apply par_keeps_untraced; intro; reflexivity
                         | apply par_keeps_emit; reflexivity ]).

Section ParallelFacts.
Context {K : Collaborators}.
Import Parallel.
Variable cfg : config.
Variable env : world.

(** Start-up only writes log lines. *)
Lemma startup_quiet p :
  (forall m, p (Log m) = false) -> keeps (never p) (startup cfg env).
Proof.
  intros Hp.
  unfold startup, load_all, restore, rescale, rescale_body.
  keeps_core ltac:(first [ apply par_keeps_untraced; intro; reflexivity
                         | apply par_keeps_emit; apply Hp ]).
Qed.

Lemma update_nth_middle (l l' : list Z) a v :
  update_nth (length l) v (l ++ a :: l') = l ++ v :: l'.
Proof. induction l as [|x l IH]; cbn; [reflexivity | rewrite IH; reflexivity]. Qed.

Lemma rescale_loop (todo done : list Z) s :
  lr_decay_steps s = map (fun t => t / workers env + 1) done ++ todo ->
  todo <> [] ->
  exists s',
    for_each (seq (length done) (length todo)) (rescale_body env) s = (Ok tt, s')
    /\ lr_decay_steps s' = map (fun t => t / workers env + 1) (done ++ todo)
    /\ step_name s' = StepInt (last todo 0)
    /\ taken s' = taken s /\ trace s' = trace s.
Proof.
  revert done s. induction todo as [|t todo IH]; intros done s Hl Hne; [contradiction|].
  cbn [length seq for_each].
  set (s1 := set_lr_decay_steps
               (map (fun t => t / workers env + 1) (done ++ [t]) ++ todo)
               (set_step_name (StepInt t) s)).
  assert (H1 : rescale_body env (length done) s = (Ok tt, s1)).
  { unfold rescale_body, bind, get, modify. par_simpl.
    rewrite Hl. rewrite <- (length_map (fun t => t / workers env + 1) done).
    rewrite nth_middle, update_nth_middle. unfold s1.
    rewrite map_app, <- app_assoc. reflexivity. }
  rewrite (bind_ok _ _ _ _ _ H1).
  destruct todo as [|t' todo].
  - exists s1. split; [reflexivity|]. unfold s1. par_simpl.
    rewrite app_nil_r. repeat split.
  - destruct (IH (done ++ [t]) s1) as (s2 & H2 & L2 & N2 & T2 & R2).
    + reflexivity.
    + discriminate.
    + exists s2. rewrite length_app, Nat.add_1_r in H2. split; [exact H2|].
      rewrite <- app_assoc in L2. split; [exact L2|]. split; [exact N2|].
      split; [rewrite T2 | rewrite R2]; reflexivity.
Qed.

(** Lines 409-410 leave the name [step] bound to the last threshold of
    the list they walk. *)
Lemma rescale_binding s :
  lr_decay_steps s = Schedule.lr_decay_steps ->
  exists s', rescale env s = (Ok tt, s')
    /\ step_name s' = StepInt 900000
    /\ lr_decay_steps s' = map (fun t => t / workers env + 1) Schedule.lr_decay_steps
    /\ taken s' = taken s.
Proof.
  intros Hl.
  destruct (rescale_loop Schedule.lr_decay_steps [] (set_budget (budget s / workers env + 1) s))
    as (s' & H & L & N & T & _); [exact Hl | discriminate |].
  exists s'. split; [|repeat split; assumption].
  unfold rescale.
  rewrite (bind_ok _ _ s (set_budget (budget s / workers env + 1) s) tt) by reflexivity.
  rewrite (bind_ok _ _ _ (set_budget (budget s / workers env + 1) s)
                   (set_budget (budget s / workers env + 1) s)) by reflexivity.
  par_simpl. rewrite Hl. exact H.
Qed.

Lemma load_all_frame s :
  exists s', load_all env s = (Ok tt, s')
    /\ lr_decay_steps s' = lr_decay_steps s /\ taken s' = taken s.
Proof.
  destruct s as [sv lv sn ln steps bd mw o tk tr].
  unfold load_all, restore, try_except, emit, bind, get, modify, lift, ret. par_simpl.
  destruct (latest_checkpoint env) as [[c|]|e1]; par_simpl;
    destruct (pretrained_backbone env) as [f|e2]; par_simpl;
    destruct (newest_model env) as [m|e3]; par_simpl;
    eexists; (split; [reflexivity|]); split; reflexivity.
Qed.

Lemma startup_binding train_model :
  0 < batch_size cfg ->
  exists s', startup cfg env (initial cfg train_model) = (Ok tt, s')
    /\ step_name s' = StepInt 900000 /\ taken s' = 0%nat.
Proof.
  intros Hb. unfold startup.
  rewrite (bind_ok _ _ _ (initial cfg train_model) tt).
  2:{ destruct (Z.leb_spec (batch_size cfg) 0); [lia | reflexivity]. }
  destruct (load_all_frame (initial cfg train_model)) as (s1 & H1 & L1 & T1).
  rewrite (bind_ok _ _ _ _ _ H1).
  destruct (rescale_binding s1) as (s2 & H2 & N2 & _ & T2); [rewrite L1; reflexivity|].
  exists s2. split; [exact H2|]. split; [exact N2|]. rewrite T2, T1. reflexivity.
Qed.

(** The tuple the dataset yields has four components; line 439 unpacks
    three. *)
Lemma iteration_raises b s :
  iteration cfg env (element b) s = (Raise ValueError, s).
Proof. reflexivity. Qed.

Lemma train_loop_first fuel s :
  train_loop cfg env (S fuel) s
  = match Pipeline.worker_batch (Pos.to_nat (cluster_size env)) (rank env) (order env)
                                (Z.to_nat (batch_size cfg)) (taken s) with
    | None => (Ok Exhausted, s)
    | Some _ => (Raise ValueError, set_taken (S (taken s)) s)
    end.
Proof.
  cbn [train_loop]. unfold bind at 1, get at 1.
  destruct (Pipeline.worker_batch _ _ _ _ _) as [ids|]; [|reflexivity].
  rewrite (bind_ok _ _ s (set_taken (S (taken s)) s) tt) by reflexivity.
  rewrite (bind_raise _ _ _ (set_taken (S (taken s)) s) ValueError); [reflexivity|].
  apply iteration_raises.
Qed.

Lemma train_loop_frame fuel s :
  trace (snd (train_loop cfg env fuel s)) = trace s
  /\ step_name (snd (train_loop cfg env fuel s)) = step_name s.
Proof.
  destruct fuel as [|fuel]; [split; reflexivity|].
  rewrite train_loop_first.
  destruct (Pipeline.worker_batch _ _ _ _ _); split; reflexivity.
Qed.

(** With [step] bound to an integer, [step.assign_add(1)] raises. *)
Lemma one_step_int image gt_label mask is_first_batch s z :
  step_name s = StepInt z ->
  one_step cfg image gt_label mask is_first_batch s = (Raise AttributeError, s).
Proof.
  intros Hn. unfold one_step. unfold bind at 1, get at 1.
  rewrite (bind_raise _ _ s s AttributeError); [reflexivity|].
  rewrite Hn. reflexivity.
Qed.

Lemma run_never p train_model fuel :
  (forall m, p (Log m) = false) -> never p (snd (run cfg env train_model fuel)).
Proof.
  intros Hp. unfold run, parallel_train, bind.
  pose proof (startup_quiet p Hp (initial cfg train_model)) as Hs.
  destruct (startup cfg env (initial cfg train_model)) as [[[]|e] s1]; cbn [snd] in *.
  - unfold never. rewrite (proj1 (train_loop_frame fuel s1)). apply Hs. constructor.
  - apply Hs. constructor.
Qed.
End ParallelFacts.

Lemma parallel_run_binding {K : Collaborators} cfg env train_model fuel :
  0 < Parallel.batch_size cfg ->
  exists s1,
    Parallel.startup cfg env (Parallel.initial cfg train_model) = (Ok tt, s1)
    /\ Parallel.taken s1 = 0%nat
    /\ Parallel.run cfg env train_model fuel = Parallel.train_loop cfg env fuel s1
    /\ Parallel.step_name (snd (Parallel.run cfg env train_model fuel))
       = Parallel.StepInt 900000.
Proof.
  intros Hb.
  destruct (startup_binding cfg env train_model Hb) as (s1 & H1 & N1 & T1).
  exists s1. split; [exact H1|]. split; [exact T1|].
  assert (Hrun : Parallel.run cfg env train_model fuel = Parallel.train_loop cfg env fuel s1).
  { unfold Parallel.run, Parallel.parallel_train. rewrite (bind_ok _ _ _ _ _ H1). reflexivity. }
  split; [exact Hrun|].
  rewrite Hrun, (proj2 (train_loop_frame cfg env fuel s1)). exact N1.
Qed.

(** C4, on every run of [parallel_train]: no broadcast is ever performed,
    on the first step or on any other.  The flag passed to [one_step] is
    [step == 0], and when it is evaluated the name [step] is bound to the
    integer 900000. *)
Theorem C4_no_broadcast {K : Collaborators} (cfg : Parallel.config) (env : Parallel.world)
        (train_model : weights) (fuel : nat) :
  let r := Parallel.run cfg env train_model fuel in
  Parallel.never is_broadcast (snd r)
  /\ (0 < Parallel.batch_size cfg ->
      Parallel.step_name (snd r) = Parallel.StepInt 900000
      /\ (Parallel.step_value (snd r) =? 0) = false).
Proof.
  intros r. split.
  - apply run_never. reflexivity.
  - intros Hb.
    destruct (parallel_run_binding cfg env train_model fuel Hb) as (s1 & _ & _ & _ & N).
    split; [exact N|]. unfold Parallel.step_value. subst r. rewrite N. reflexivity.
Qed.

Lemma C4_no_broadcast_witness :
  let r := @Parallel.run toy Scenario.parallel_budget
                         (Scenario.toy_worker (seq 0 16) 1 0) tt 3 in
  0 < Parallel.batch_size Scenario.parallel_budget
  /\ Parallel.never is_broadcast (snd r)
  /\ (Parallel.step_value (snd r) =? 0) = false.
Proof.
  intros r.
  assert (Hb : 0 < Parallel.batch_size Scenario.parallel_budget) by reflexivity.
  split; [exact Hb|].
  destruct (@C4_no_broadcast toy Scenario.parallel_budget
                             (Scenario.toy_worker (seq 0 16) 1 0) tt 3) as [H1 H2].
  split; [exact H1 | exact (proj2 (H2 Hb))].
Defined.

(** C5 (as amended): no run of [parallel_train] applies a single update.
    When the worker's shard of the dataset is not empty, the first pass of
    the loop raises [ValueError] at its header, which unpacks a 4-tuple
    into three names; and at that point the name [step] is bound to the
    integer 900000, on which [one_step] raises [AttributeError]. *)
Theorem C5_first_iteration_raises {K : Collaborators} (cfg : Parallel.config)
        (env : Parallel.world) (train_model : weights) (fuel : nat) :
  let r := Parallel.run cfg env train_model fuel in
  Parallel.never is_update (snd r)
  /\ (0 < Parallel.batch_size cfg -> (1 <= fuel)%nat ->
      Pipeline.well_shuffled (Parallel.samples env) (Parallel.order env) ->
      Pipeline.shard (Pos.to_nat (Parallel.cluster_size env)) (Parallel.rank env)
                     (Parallel.samples env) <> [] ->
      fst r = Raise ValueError
      /\ Parallel.taken (snd r) = 1%nat
      /\ Parallel.step_name (snd r) = Parallel.StepInt 900000
      /\ forall image gt_label mask is_first_batch,
           fst (Parallel.one_step cfg image gt_label mask is_first_batch (snd r))
           = Raise AttributeError).
Proof.
  intros r. split; [apply run_never; reflexivity|].
  intros Hb Hfuel Hw Hne.
  destruct (parallel_run_binding cfg env train_model fuel Hb) as (s1 & _ & T1 & Hrun & N).
  destruct fuel as [|fuel]; [lia|].
  destruct (worker_batch_some (Parallel.samples env) (Pos.to_nat (Parallel.cluster_size env))
              (Parallel.rank env) (Parallel.order env) (Z.to_nat (Parallel.batch_size cfg))
              (Parallel.taken s1) Hw Hne) as [ids Hids].
  subst r. rewrite Hrun in *. rewrite train_loop_first, Hids in *. cbn [fst snd] in *.
  split; [reflexivity|]. split; [cbn; rewrite T1; reflexivity|]. split; [exact N|].
  intros image gt_label mask fb.
  rewrite (one_step_int cfg image gt_label mask fb _ 900000 N). reflexivity.
Qed.

Lemma C5_first_iteration_raises_witness :
  let cfg := Scenario.parallel_budget in
  let env := Scenario.toy_worker (seq 0 16) 2 1 in
  0 < Parallel.batch_size cfg /\ (1 <= 3)%nat
  /\ Pipeline.well_shuffled (Parallel.samples env) (Parallel.order env)
  /\ Pipeline.shard (Pos.to_nat (Parallel.cluster_size env)) (Parallel.rank env)
                    (Parallel.samples env) <> []
  /\ fst (@Parallel.run toy cfg env tt 3) = Raise ValueError.
Proof.
  intros cfg env.
  assert (Ha : 0 < Parallel.batch_size cfg) by reflexivity.
  assert (Hb : (1 <= 3)%nat) by lia.
  assert (Hc : Pipeline.well_shuffled (Parallel.samples env) (Parallel.order env))
    by (intros e; apply Permutation_refl).
  assert (Hd : Pipeline.shard (Pos.to_nat (Parallel.cluster_size env)) (Parallel.rank env)
                              (Parallel.samples env) <> [])
    by (vm_compute; discriminate).
  split; [exact Ha|]. split; [exact Hb|]. split; [exact Hc|]. split; [exact Hd|].
  exact (proj1 (proj2 (@C5_first_iteration_raises toy cfg env tt 3) Ha Hb Hc Hd)).
Defined.

(** C5, counterexample: on an empty dataset the loop has no first pass;
    [parallel_train] returns without raising. *)
Lemma C5_counterexample :
  fst (@Parallel.run toy Scenario.parallel_budget (Scenario.toy_worker [] 1 0) tt 3)
  = Ok Parallel.Exhausted.
Proof.
  destruct (@parallel_run_binding toy Scenario.parallel_budget (Scenario.toy_worker [] 1 0)
                                  tt 3 eq_refl) as (s1 & _ & T1 & Hrun & _).
  rewrite Hrun, train_loop_first, T1. reflexivity.
Qed.

(* ------------------------------------------------------------------ *)
(** * Sharding *)
(* ------------------------------------------------------------------ *)
Section Sharding.
Import Pipeline.

Lemma concat_insert (x : nat) (g : nat -> list nat) (r0 : nat) (rs : list nat) :
  NoDup rs -> In r0 rs ->
  Permutation
    (concat (map (fun r => if (r0 =? r)%nat then x :: g r else g r) rs))
    (x :: concat (map g rs)).
Proof.
  induction 1 as [|r rs Hnotin Hnd IH]; intros Hin; [destruct Hin|].
  cbn [map concat]. destruct (Nat.eqb_spec r0 r) as [->|Hne].
  - cbn [app]. apply perm_skip. apply Permutation_app_head.
    assert (E : map (fun r1 => if (r =? r1)%nat then x :: g r1 else g r1) rs = map g rs).
    { apply map_ext_in. intros a Ha. destruct (Nat.eqb_spec r a) as [->|_];
        [contradiction | reflexivity]. }
    rewrite E. apply Permutation_refl.
  - destruct Hin as [Hin|Hin]; [congruence|].
    apply Permutation_trans with (g r ++ x :: concat (map g rs)).
    + apply Permutation_app_head. apply IH. exact Hin.
    + apply Permutation_sym, Permutation_middle.
Qed.

Lemma shard_from_partition (num_shards : nat) (l : list nat) (pos : nat) :
  num_shards <> 0%nat ->
  Permutation (concat (map (fun r => shard_from pos num_shards r l) (seq 0 num_shards))) l.
Proof.
  intros Hn. revert pos. induction l as [|x l IH]; intros pos.
  - cbn [shard_from].
    induction (seq 0 num_shards) as [|r rs IHr]; cbn; [apply perm_nil | exact IHr].
  - cbn [shard_from].
    eapply Permutation_trans.
    + apply (concat_insert x (fun r => shard_from (S pos) num_shards r l)
                           (pos mod num_shards)%nat).
      * apply seq_NoDup.
      * apply in_seq. split; [lia|]. cbn. apply Nat.mod_upper_bound. exact Hn.
    + apply perm_skip. apply IH.
Qed.

(** Cut out of one common order, the shards of all ranks together are
    that order rearranged: they are disjoint and cover it. *)
Lemma shards_of_common_order (num_shards : nat) (l : list nat) :
  num_shards <> 0%nat ->
  Permutation (concat (map (fun r => shard num_shards r l) (seq 0 num_shards))) l.
Proof. intros Hn. apply shard_from_partition. exact Hn. Qed.
End Sharding.

(** C8, on two workers and the two-sample dataset [0; 1]: worker 0's
    shuffle yields [0; 1] and worker 1's yields [1; 0], both of them
    orders of the dataset.  Line 362 cuts each worker's shard out of its
    own order: both shards are [0], and sample 1 is in neither. *)
Theorem C8_shards_overlap :
  let samples := [0; 1]%nat in
  let order0 : Pipeline.shuffle_order := fun _ => [0; 1]%nat in
  let order1 : Pipeline.shuffle_order := fun _ => [1; 0]%nat in
  Pipeline.well_shuffled samples order0
  /\ Pipeline.well_shuffled samples order1
  /\ Pipeline.worker_pass 2 0 order0 0 = [0%nat]
  /\ Pipeline.worker_pass 2 1 order1 0 = [0%nat]
  /\ ~ In 1%nat (Pipeline.worker_pass 2 0 order0 0 ++ Pipeline.worker_pass 2 1 order1 0).
Proof.
  intros samples order0 order1.
  split; [intros e; apply Permutation_refl|].
  split; [intros e; apply perm_swap|].
  split; [reflexivity|]. split; [reflexivity|].
  cbn. intros [H|[H|[]]]; discriminate.
Qed.

(* ------------------------------------------------------------------ *)
(** * The default validity mask *)
(* ------------------------------------------------------------------ *)
Section MaskDefault.
Import DataAug.
Context {E : Externals}.

Lemma broadcast_dim_same d : broadcast_dim d d = Ok d.
Proof. unfold broadcast_dim. rewrite Nat.eqb_refl. reflexivity. Qed.

Lemma broadcast_dim_one d : broadcast_dim d 1 = Ok d.
Proof.
  unfold broadcast_dim. destruct (d =? 1)%nat eqn:E1; [reflexivity|]. reflexivity.
Qed.

Lemma operand_index_inside d i : (i < d)%nat -> operand_index d i = i.
Proof.
  intros H. unfold operand_index. destruct (Nat.eqb_spec d 1); [lia | reflexivity].
Qed.

Lemma default_mask_ones image :
  (1 <= dim2 image)%nat ->
  exists m, default_mask image = Ok m
            /\ rows m = dim0 image /\ cols m = dim1 image /\ all_ones m.
Proof.
  intros Hc. unfold default_mask, channel0, ones_like. cbn [dim0 dim1 dim2 at3].
  destruct (Nat.eqb_spec (dim2 image) 0); [lia|].
  eexists. split; [reflexivity|]. split; [reflexivity|]. split; [reflexivity|].
  intros i j _ _. reflexivity.
Qed.

(** Multiplying by a mask of ones of the image's height and width gives
    the image back. *)
Lemma multiply_ones image m :
  rows m = dim0 image -> cols m = dim1 image -> all_ones m ->
  exists r, multiply image (newaxis m) = Ok r /\ same3 r image.
Proof.
  intros Hr Hc Hones. unfold multiply, newaxis. cbn [dim0 dim1 dim2 at3].
  rewrite Hr, Hc, !broadcast_dim_same, broadcast_dim_one.
  eexists. split; [reflexivity|].
  unfold same3. cbn [dim0 dim1 dim2 at3]. repeat split.
  intros i j k Hi Hj Hk. rewrite !operand_index_inside by assumption.
  assert (H1 : at2 m i j == 1) by (apply Hones; rewrite ?Hr, ?Hc; assumption).
  rewrite H1. apply Qmult_1_r.
Qed.

Lemma same3_transpose a b : same3 a b -> same3 (transpose_201 a) (transpose_201 b).
Proof.
  intros (H0 & H1 & H2 & H). unfold same3, transpose_201. cbn [dim0 dim1 dim2 at3].
  repeat split; try assumption. intros c i j Hc Hi Hj. apply H; assumption.
Qed.
End MaskDefault.

(* ------------------------------------------------------------------ *)
(** * More on the learning-rate schedule *)
(* ------------------------------------------------------------------ *)

Lemma catch_up_from factor steps step lr :
  (Schedule.catch_up factor steps step lr
   == lr * pow factor (Schedule.thresholds_lt steps step))%Q.
Proof.
  unfold Schedule.catch_up, Schedule.thresholds_lt. revert lr.
  induction steps as [|t steps IH]; intros lr; cbn [fold_left filter].
  - cbn. rewrite Qmult_1_r. reflexivity.
  - rewrite IH. rewrite Z.gtb_ltb. destruct (t <? step); cbn [length pow].
    + rewrite Qmult_assoc. reflexivity.
    + reflexivity.
Qed.

(** X1: the catch-up loop run after restoring multiplies the restored rate
    by the factor once for every threshold strictly below the restored
    step, whatever the list of thresholds; a restored step at or below the
    first threshold leaves the rate as restored. *)
Theorem X1_catch_up_closed_form (factor : Q) (steps : list Z) (step : Z) (lr : Q) :
  (Schedule.catch_up factor steps step lr
   == lr * pow factor (Schedule.thresholds_lt steps step))%Q
  /\ (step <= 200000 ->
      Schedule.catch_up factor Schedule.lr_decay_steps step lr = lr).
Proof.
  split; [apply catch_up_from|].
  intros H. unfold Schedule.catch_up, Schedule.lr_decay_steps. cbn [fold_left].
  repeat match goal with
         | |- context [?a >? ?b] => destruct (Z.gtb_spec a b) as [E|_]; [lia|]
         end.
  reflexivity.
Qed.

Lemma X1_catch_up_closed_form_witness :
  100000 <= 200000
  /\ Schedule.catch_up (1 # 2) Schedule.lr_decay_steps 100000 (1 # 3) = 1 # 3.
Proof.
  assert (H : 100000 <= 200000) by lia.
  split; [exact H|].
  exact (proj2 (X1_catch_up_closed_form (1 # 2) Schedule.lr_decay_steps 100000 (1 # 3)) H).
Defined.

Lemma advance_n_total lr_init factor l n s0 lr0 :
  exists lr, Schedule.advance_n lr_init factor l n (s0, lr0) = Ok (s0 + Z.of_nat n, lr).
Proof.
  induction n as [|n [lr Hn]].
  - exists lr0. cbn. rewrite Z.add_0_r. reflexivity.
  - cbn [Schedule.advance_n]. rewrite Hn. unfold Schedule.advance. cbn [fst snd].
    destruct (decay_total lr_init factor l (s0 + Z.of_nat n + 1) lr) as [lr' Hd].
    rewrite Hd. exists lr'. f_equal. f_equal. lia.
Qed.

(** X2: whatever step and rate a run starts from, once its step counter has
    passed a threshold the rate is the schedule's again: the update at a
    threshold recomputes the rate from [lr_init] and does not look at the
    current one. *)
Theorem X2_schedule_recovers (lr_init factor : Q) (s0 : Z) (lr0 : Q) (n : nat) (t : Z) :
  In t Schedule.lr_decay_steps ->
  s0 < t <= s0 + Z.of_nat n ->
  exists lr,
    Schedule.advance_n lr_init factor Schedule.lr_decay_steps n (s0, lr0)
    = Ok (s0 + Z.of_nat n, lr)
    /\ (lr == Schedule.lr_spec lr_init factor Schedule.lr_decay_steps (s0 + Z.of_nat n))%Q.
Proof.
  intros Ht. induction n as [|n IH]; intros Hrange; [lia|].
  destruct (advance_n_total lr_init factor Schedule.lr_decay_steps n s0 lr0) as [lrn Hn].
  cbn [Schedule.advance_n]. rewrite Hn. unfold Schedule.advance. cbn [fst snd].
  replace (s0 + Z.of_nat (S n)) with (s0 + Z.of_nat n + 1) by lia.
  unfold Schedule.decay.
  destruct (contains (s0 + Z.of_nat n + 1) Schedule.lr_decay_steps) eqn:E.
  - apply contains_In in E.
    destruct (index_sorted _ _ lr_decay_steps_sorted E) as [i [Hi Hc]].
    rewrite Hi. eexists. split; [reflexivity|].
    unfold Schedule.lr_spec. rewrite Hc. replace (i + 1)%nat with (S i) by lia. reflexivity.
  - assert (Hne : t <> s0 + Z.of_nat n + 1).
    { intros ->. apply contains_In in Ht. congruence. }
    destruct IH as [lr [Hrun Hlr]]; [lia|].
    rewrite Hrun in Hn. injection Hn as <-.
    exists lr. split; [reflexivity|].
    unfold Schedule.lr_spec in *. rewrite thresholds_le_skip by assumption. exact Hlr.
Qed.

Lemma X2_schedule_recovers_witness :
  In 300000 Schedule.lr_decay_steps
  /\ 299998 < 300000 <= 299998 + Z.of_nat 3
  /\ exists lr,
       Schedule.advance_n 1 (1 # 2) Schedule.lr_decay_steps 3 (299998, 1 # 8)
       = Ok (299998 + Z.of_nat 3, lr)
       /\ (lr == Schedule.lr_spec 1 (1 # 2) Schedule.lr_decay_steps (299998 + Z.of_nat 3))%Q.
Proof.
  assert (Ha : In 300000 Schedule.lr_decay_steps) by (cbn; tauto).
  assert (Hb : 299998 < 300000 <= 299998 + Z.of_nat 3) by (cbn; lia).
  split; [exact Ha|]. split; [exact Hb|].
  exact (X2_schedule_recovers 1 (1 # 2) 299998 (1 # 8) 3 300000 Ha Hb).
Defined.

(* ------------------------------------------------------------------ *)
(** * Length, cadence and checkpoints of a single-mode run *)
(* ------------------------------------------------------------------ *)
Section SingleRunLength.
Context {K : Collaborators}.
Import Single.

Lemma updates_of_book s :
  length (updates s) = length (filter is_update (b_events (book_of s))).
Proof.
  unfold updates, history, book_of. cbn [b_events].
  induction (trace s) as [|e t IH]; [reflexivity|].
  cbn [rev flat_map]. rewrite !filter_app, !length_app, IH, Nat.add_comm. f_equal.
  destruct e; reflexivity.
Qed.

Lemma tick_updates cfg b :
  length (filter is_update (b_events (tick cfg b)))
  = S (length (filter is_update (b_events b))).
Proof.
  unfold tick. destruct (due _ (save_interval cfg)), (due _ (log_interval cfg)); reflexivity.
Qed.

Lemma ticks_updates cfg n b :
  length (filter is_update (b_events (ticks cfg n b)))
  = (n + length (filter is_update (b_events b)))%nat.
Proof.
  induction n as [|n IH]; [reflexivity|].
  rewrite ticks_S, tick_updates, IH. reflexivity.
Qed.

Lemma tick_saves cfg b :
  book_saves (tick cfg b)
  = book_saves b ++ (if due (b_step b + 1) (save_interval cfg) then [b_step b + 1] else []).
Proof.
  unfold tick, book_saves.
  destruct (due _ (save_interval cfg)), (due _ (log_interval cfg));
    cbn [b_events rev]; rewrite ?flat_map_app; cbn [flat_map app];
    rewrite ?app_nil_r, <- ?app_assoc; reflexivity.
Qed.

Lemma ticks_saves cfg n b :
  book_saves (ticks cfg n b)
  = book_saves b
    ++ filter (fun k => due k (save_interval cfg)) (range (b_step b + 1) (b_step b + 1 + Z.of_nat n)).
Proof.
  unfold range. replace (b_step b + 1 + Z.of_nat n - (b_step b + 1)) with (Z.of_nat n) by lia.
  rewrite Nat2Z.id.
  induction n as [|n IH]; [cbn; rewrite app_nil_r; reflexivity|].
  rewrite ticks_S, tick_saves, IH, ticks_step, seq_S, map_app, filter_app, <- app_assoc.
  cbn [map filter Nat.add]. replace (b_step b + 1 + Z.of_nat n) with (b_step b + Z.of_nat n + 1) by lia.
  destruct (due _ _); reflexivity.
Qed.

Lemma start_book_fresh cfg env :
  fresh_start env ->
  start_book cfg (latest_checkpoint env) = Book 1 (lr_init cfg) 1 (lr_init cfg) 0 [].
Proof.
  unfold fresh_start, start_book.
  destruct (latest_checkpoint env) as [[c|]|e]; [contradiction| |]; reflexivity.
Qed.

Lemma tick_on_schedule cfg b : on_schedule cfg b -> on_schedule cfg (tick cfg b).
Proof.
  intros [Hlr Hev].
  destruct (decay_spec (lr_init cfg) (lr_decay_factor cfg) Schedule.lr_decay_steps
                       (b_step b) (b_lr b) lr_decay_steps_sorted Hlr) as [lr' [Hd Hlr']].
  unfold on_schedule, tick. rewrite Hd.
  destruct (due (b_step b + 1) (save_interval cfg)) eqn:Es,
           (due (b_step b + 1) (log_interval cfg));
    cbn [b_lr b_step b_events]; (split; [exact Hlr'|]); intros n r Hin; cbn [In] in Hin;
    repeat match goal with
           | H : _ \/ _ |- _ => destruct H as [H|H]
           | H : _ = CkptSave _ _ |- _ => first [discriminate H | injection H as <- <-]
           end;
    try (split; assumption); apply Hev; assumption.
Qed.

Lemma ticks_on_schedule cfg n b : on_schedule cfg b -> on_schedule cfg (ticks cfg n b).
Proof.
  intros H. induction n as [|n IH]; [exact H|]. rewrite ticks_S. apply tick_on_schedule, IH.
Qed.

Lemma book_save_of s n r :
  In (CkptSave n r) (trace s) -> In (CkptSave n r) (b_events (book_of s)).
Proof.
  unfold book_of. cbn [b_events]. intros H. apply in_flat_map.
  exists (CkptSave n r). split; [exact H | left; reflexivity].
Qed.
End SingleRunLength.

Lemma run_steps {K : Collaborators} (cfg : Single.config) (env : Single.world)
      (train_model : weights) :
  Single.domainadapt_flag cfg = false ->
  Pipeline.well_shuffled (Single.samples env) (Single.order env) ->
  0 < Single.batch_size cfg <= Z.of_nat (length (Single.samples env)) ->
  let epoch_size := Z.of_nat (length (Single.samples env)) / Single.batch_size cfg in
  let n := Single.iterations (Single.n_step cfg) epoch_size (Single.start_step env) in
  exists s',
    Single.run cfg env train_model = (Ok tt, s')
    /\ Single.book_of s' = Single.ticks cfg n (Single.start_book cfg (Single.latest_checkpoint env))
    /\ Single.step s' = Single.start_step env + Z.of_nat n.
Proof.
  intros Hflag Hw Hb epoch_size n.
  destruct (run_book cfg env train_model Hflag Hw Hb) as [s' [Hrun Hbook]].
  assert (Hstart : Single.b_step (Single.start_book cfg (Single.latest_checkpoint env))
                   = Single.start_step env).
  { unfold Single.start_book, Single.start_step.
    destruct (Single.latest_checkpoint env) as [[c|]|e]; reflexivity. }
  rewrite Hstart in Hbook. fold epoch_size in Hbook.
  change (Z.to_nat _ * Z.to_nat _)%nat with n in Hbook.
  exists s'. split; [exact Hrun|]. split; [exact Hbook|].
  change (Single.step s') with (Single.b_step (Single.book_of s')).
  rewrite Hbook, ticks_step, Hstart. reflexivity.
Qed.

Lemma start_book_events {K : Collaborators} cfg latest :
  Single.b_events (Single.start_book cfg latest) = []
  /\ Single.b_pulled (Single.start_book cfg latest) = 0%nat.
Proof. unfold Single.start_book. destruct latest as [[c|]|e]; split; reflexivity. Qed.

(** X3: with domain adaptation off, a single-mode run over a dataset that
    holds at least one batch returns normally, whatever was restored.  From
    the step [start] that start-up left it at, it makes
    [(n_step // epoch_size - (start // epoch_size + 1)) * epoch_size]
    iterations (none when that is negative); each one pulls one batch and
    applies one update, and the step counter ends at [start] plus that
    number. *)
Theorem X3_run_length {K : Collaborators} (cfg : Single.config) (env : Single.world)
        (train_model : weights) :
  Single.domainadapt_flag cfg = false ->
  Pipeline.well_shuffled (Single.samples env) (Single.order env) ->
  0 < Single.batch_size cfg <= Z.of_nat (length (Single.samples env)) ->
  let epoch_size := Z.of_nat (length (Single.samples env)) / Single.batch_size cfg in
  let n := Single.iterations (Single.n_step cfg) epoch_size (Single.start_step env) in
  exists s',
    Single.run cfg env train_model = (Ok tt, s')
    /\ Single.step s' = Single.start_step env + Z.of_nat n
    /\ Single.pulled s' = n
    /\ length (Single.updates s') = n.
Proof.
  intros Hflag Hw Hb epoch_size n.
  destruct (run_steps cfg env train_model Hflag Hw Hb) as [s' [Hrun [Hbook Hstep]]].
  fold epoch_size in Hbook, Hstep. fold n in Hbook, Hstep.
  destruct (start_book_events cfg (Single.latest_checkpoint env)) as [Hev Hp].
  exists s'. split; [exact Hrun|]. split; [exact Hstep|]. split.
  - change (Single.pulled s') with (Single.b_pulled (Single.book_of s')).
    rewrite Hbook, ticks_pulled, Hp. reflexivity.
  - rewrite updates_of_book, Hbook, ticks_updates, Hev. cbn. lia.
Qed.

Lemma X3_run_length_witness :
  let cfg := Scenario.budget_100 in
  let env := Scenario.toy_world 20 (Ok (Some (@Single.Snapshot toy 37 (1 # 25000) tt tt))) in
  Single.domainadapt_flag cfg = false
  /\ Pipeline.well_shuffled (Single.samples env) (Single.order env)
  /\ 0 < Single.batch_size cfg <= Z.of_nat (length (Single.samples env))
  /\ exists s',
       @Single.run toy cfg env tt = (Ok tt, s')
       /\ Single.step s' = 37 + Z.of_nat 60
       /\ Single.pulled s' = 60%nat
       /\ length (Single.updates s') = 60%nat.
Proof.
  intros cfg env.
  assert (Hw : Pipeline.well_shuffled (Single.samples env) (Single.order env))
    by (intros e; apply Permutation_refl).
  assert (Hb : 0 < Single.batch_size cfg <= Z.of_nat (length (Single.samples env)))
    by (cbn; lia).
  split; [reflexivity|]. split; [exact Hw|]. split; [exact Hb|].
  exact (@X3_run_length toy cfg env tt eq_refl Hw Hb).
Defined.

(** X4: a run that starts without a restored checkpoint does not use up
    its step budget: its step counter ends at
    [n_step - epoch_size + 1] at most (or stays at 1), and when
    [n_step < 2 * epoch_size] the run returns without a single update. *)
Theorem X4_budget_not_reached {K : Collaborators} (cfg : Single.config) (env : Single.world)
        (train_model : weights) :
  Single.domainadapt_flag cfg = false ->
  Pipeline.well_shuffled (Single.samples env) (Single.order env) ->
  0 < Single.batch_size cfg <= Z.of_nat (length (Single.samples env)) ->
  Single.fresh_start env ->
  let epoch_size := Z.of_nat (length (Single.samples env)) / Single.batch_size cfg in
  let r := Single.run cfg env train_model in
  fst r = Ok tt
  /\ 1 <= Single.step (snd r) <= Z.max 1 (Single.n_step cfg - epoch_size + 1)
  /\ (Single.n_step cfg < 2 * epoch_size ->
      Single.step (snd r) = 1 /\ Single.updates (snd r) = []).
Proof.
  intros Hflag Hw Hb Hfresh epoch_size r.
  destruct (run_steps cfg env train_model Hflag Hw Hb) as [s' [Hrun [Hbook Hstep]]].
  fold epoch_size in Hbook, Hstep.
  assert (Hs : Single.start_step env = 1).
  { unfold Single.start_step, Single.fresh_start in *.
    destruct (Single.latest_checkpoint env) as [[c|]|e]; [contradiction| |]; reflexivity. }
  rewrite Hs in Hbook, Hstep.
  assert (He : 0 < epoch_size).
  { unfold epoch_size. apply Z.div_str_pos. lia. }
  assert (Hmul : epoch_size * (Single.n_step cfg / epoch_size) <= Single.n_step cfg)
    by (apply Z.mul_div_le; exact He).
  assert (Hdiv : 0 <= 1 / epoch_size) by (apply Z.div_pos; lia).
  set (T := Single.n_step cfg / epoch_size) in *.
  set (q := 1 / epoch_size) in *.
  assert (Hn : Z.of_nat (Single.iterations (Single.n_step cfg) epoch_size 1)
               = Z.max 0 (T - (q + 1)) * epoch_size).
  { unfold Single.iterations. fold T q. rewrite Nat2Z.inj_mul, !ZifyInst.of_nat_to_nat_eq.
    rewrite (Z.max_r 0 epoch_size) by lia. reflexivity. }
  subst r. rewrite Hrun. cbn [fst snd]. split; [reflexivity|].
  rewrite Hstep, Hn. split.
  - destruct (Z.max_spec 0 (T - (q + 1))) as [[Hpos ->]|[_ ->]]; [|lia].
    assert (H1 : 0 <= q * epoch_size) by (apply Z.mul_nonneg_nonneg; lia).
    assert (H2 : 0 <= (T - (q + 1)) * epoch_size) by (apply Z.mul_nonneg_nonneg; lia).
    assert (H3 : (T - (q + 1)) * epoch_size = epoch_size * T - q * epoch_size - epoch_size) by ring.
    lia.
  - intros Hsmall.
    assert (HT : T < 2).
    { unfold T. apply Z.div_lt_upper_bound; lia. }
    assert (Hz : Z.max 0 (T - (q + 1)) = 0) by lia.
    split; [rewrite Hz; lia|].
    assert (Hlen : length (Single.updates s') = 0%nat).
    { rewrite updates_of_book, Hbook, ticks_updates.
      rewrite (proj1 (start_book_events cfg (Single.latest_checkpoint env))).
      assert (Hi : Single.iterations (Single.n_step cfg) epoch_size 1 = 0%nat)
        by (apply Nat2Z.inj; rewrite Hn, Hz; reflexivity).
      rewrite Hi. reflexivity. }
    destruct (Single.updates s'); [reflexivity | discriminate].
Qed.

Lemma X4_budget_not_reached_witness :
  let cfg := Scenario.budget_100 in
  let env := Scenario.toy_world 20 (Ok None) in
  let r := @Single.run toy cfg env tt in
  Single.domainadapt_flag cfg = false
  /\ Pipeline.well_shuffled (Single.samples env) (Single.order env)
  /\ 0 < Single.batch_size cfg <= Z.of_nat (length (Single.samples env))
  /\ Single.fresh_start env
  /\ fst r = Ok tt
  /\ 1 <= Single.step (snd r) <= 96.
Proof.
  intros cfg env r.
  assert (Hw : Pipeline.well_shuffled (Single.samples env) (Single.order env))
    by (intros e; apply Permutation_refl).
  assert (Hb : 0 < Single.batch_size cfg <= Z.of_nat (length (Single.samples env)))
    by (cbn; lia).
  split; [reflexivity|]. split; [exact Hw|]. split; [exact Hb|]. split; [exact I|].
  destruct (@X4_budget_not_reached toy cfg env tt eq_refl Hw Hb I) as [H1 [H2 _]].
  split; [exact H1 | exact H2].
Defined.

(** X5: with domain adaptation off, the checkpoints that a run saves are
    exactly the steps it goes through, from the one after its start to its
    last, at which [step % save_interval == 0], in that order; in
    particular a zero [save_interval] saves at every step. *)
Theorem X5_checkpoint_cadence {K : Collaborators} (cfg : Single.config) (env : Single.world)
        (train_model : weights) :
  Single.domainadapt_flag cfg = false ->
  Pipeline.well_shuffled (Single.samples env) (Single.order env) ->
  0 < Single.batch_size cfg <= Z.of_nat (length (Single.samples env)) ->
  let s' := snd (Single.run cfg env train_model) in
  Single.checkpoint_saves s'
  = filter (fun k => Single.due k (Single.save_interval cfg))
           (range (Single.start_step env + 1) (Single.step s' + 1))
  /\ (Single.save_interval cfg = 0 -> 0 <= Single.start_step env ->
      Single.checkpoint_saves s' = range (Single.start_step env + 1) (Single.step s' + 1)).
Proof.
  intros Hflag Hw Hb s'.
  destruct (run_steps cfg env train_model Hflag Hw Hb) as [s1 [Hrun [Hbook Hstep]]].
  assert (Hstart : Single.b_step (Single.start_book cfg (Single.latest_checkpoint env))
                   = Single.start_step env).
  { unfold Single.start_book, Single.start_step.
    destruct (Single.latest_checkpoint env) as [[c|]|e]; reflexivity. }
  assert (Hall : Single.checkpoint_saves s'
                 = filter (fun k => Single.due k (Single.save_interval cfg))
                          (range (Single.start_step env + 1) (Single.step s' + 1))).
  { subst s'. rewrite Hrun. cbn [snd].
    rewrite book_saves_of, Hbook, ticks_saves, Hstart, Hstep.
    unfold Single.book_saves.
    rewrite (proj1 (start_book_events cfg (Single.latest_checkpoint env))).
    cbn [rev flat_map app]. f_equal. f_equal. lia. }
  split; [exact Hall|].
  intros Hzero Hpos. rewrite Hall, Hzero.
  apply forallb_filter_id. apply forallb_forall. intros k Hk.
  unfold range in Hk. apply in_map_iff in Hk. destruct Hk as [i [<- _]].
  unfold Single.due, np_mod. cbn.
  destruct (Z.eqb_spec (Single.start_step env + 1 + Z.of_nat i) 0); [lia | reflexivity].
Qed.

Lemma X5_checkpoint_cadence_witness :
  let cfg := Scenario.budget_100 in
  let env := Scenario.toy_world 20 (Ok (Some (@Single.Snapshot toy 37 (1 # 25000) tt tt))) in
  let s' := snd (@Single.run toy cfg env tt) in
  Single.domainadapt_flag cfg = false
  /\ Pipeline.well_shuffled (Single.samples env) (Single.order env)
  /\ 0 < Single.batch_size cfg <= Z.of_nat (length (Single.samples env))
  /\ Single.checkpoint_saves s'
     = filter (fun k => Single.due k (Single.save_interval cfg))
              (range (Single.start_step env + 1) (Single.step s' + 1)).
Proof.
  intros cfg env s'.
  assert (Hw : Pipeline.well_shuffled (Single.samples env) (Single.order env))
    by (intros e; apply Permutation_refl).
  assert (Hb : 0 < Single.batch_size cfg <= Z.of_nat (length (Single.samples env)))
    by (cbn; lia).
  split; [reflexivity|]. split; [exact Hw|]. split; [exact Hb|].
  exact (proj1 (@X5_checkpoint_cadence toy cfg env tt eq_refl Hw Hb)).
Defined.

(** X6: in a run that starts without a restored checkpoint, every
    checkpoint that is saved holds a step at which a save is due together
    with the rate that the schedule gives for that very step, and the step
    and rate at the end of the run agree with the schedule too. *)
Theorem X6_checkpoints_on_schedule {K : Collaborators} (cfg : Single.config)
        (env : Single.world) (train_model : weights) :
  Single.domainadapt_flag cfg = false ->
  Pipeline.well_shuffled (Single.samples env) (Single.order env) ->
  0 < Single.batch_size cfg <= Z.of_nat (length (Single.samples env)) ->
  Single.fresh_start env ->
  let s' := snd (Single.run cfg env train_model) in
  let spec := Schedule.lr_spec (Single.lr_init cfg) (Single.lr_decay_factor cfg)
                               Schedule.lr_decay_steps in
  (Single.lr s' == spec (Single.step s'))%Q
  /\ forall n r, In (CkptSave n r) (Single.trace s') ->
       (r == spec n)%Q /\ Single.due n (Single.save_interval cfg) = true.
Proof.
  intros Hflag Hw Hb Hfresh s' spec.
  destruct (run_steps cfg env train_model Hflag Hw Hb) as [s1 [Hrun [Hbook _]]].
  rewrite (start_book_fresh cfg env Hfresh) in Hbook.
  assert (H0 : Single.on_schedule cfg (Single.Book 1 (Single.lr_init cfg) 1 (Single.lr_init cfg) 0 [])).
  { split; [apply lr_spec_fresh | intros n r []]. }
  apply (ticks_on_schedule cfg
           (Single.iterations (Single.n_step cfg)
              (Z.of_nat (length (Single.samples env)) / Single.batch_size cfg)
              (Single.start_step env))) in H0.
  rewrite <- Hbook in H0. destruct H0 as [Hlr Hev].
  subst s'. rewrite Hrun. cbn [snd]. split; [exact Hlr|].
  intros n r Hin. apply Hev, book_save_of, Hin.
Qed.

Lemma X6_checkpoints_on_schedule_witness :
  let cfg := Scenario.budget_100 in
  let env := Scenario.toy_world 20 (Ok None) in
  let s' := snd (@Single.run toy cfg env tt) in
  Single.domainadapt_flag cfg = false
  /\ Pipeline.well_shuffled (Single.samples env) (Single.order env)
  /\ 0 < Single.batch_size cfg <= Z.of_nat (length (Single.samples env))
  /\ Single.fresh_start env
  /\ (Single.lr s' == Schedule.lr_spec (Single.lr_init cfg) (Single.lr_decay_factor cfg)
                                       Schedule.lr_decay_steps (Single.step s'))%Q.
Proof.
  intros cfg env s'.
  assert (Hw : Pipeline.well_shuffled (Single.samples env) (Single.order env))
    by (intros e; apply Permutation_refl).
  assert (Hb : 0 < Single.batch_size cfg <= Z.of_nat (length (Single.samples env)))
    by (cbn; lia).
  split; [reflexivity|]. split; [exact Hw|]. split; [exact Hb|]. split; [exact I|].
  exact (proj1 (@X6_checkpoints_on_schedule toy cfg env tt eq_refl Hw Hb I)).
Defined.

(* ------------------------------------------------------------------ *)
(** * Start-up of single_train: errors, loads and restored values *)
(* ------------------------------------------------------------------ *)
Section SingleStartup.
Context {K : Collaborators}.
Import Single.

Lemma load_ckpt_weights cfg env s :
  exists s', load_ckpt cfg env s = (Ok tt, s')
    /\ model_w s' = model_w s /\ dis_w s' = dis_w s
    /\ opt s' = match latest_checkpoint env with
                | Ok (Some c) => snap_opt c
                | _ => opt s
                end
    /\ opt_d s' = match latest_checkpoint env with
                  | Ok (Some c) => if domainadapt_flag cfg then snap_opt_d c else opt_d s
                  | _ => opt_d s
                  end.
Proof.
  unfold load_ckpt, restore, try_except, when, emit, bind, modify, lift, ret. st_simpl.
  destruct (latest_checkpoint env) as [[c|]|e]; [destruct (domainadapt_flag cfg)| |];
    st_simpl; eexists; (split; [reflexivity|]); st_simpl; repeat split.
Qed.

Lemma load_backbone_weights env s :
  exists s', load_backbone env s = (Ok tt, s')
    /\ model_w s' = match pretrained_backbone env with
                    | Ok f => f (model_w s)
                    | Raise _ => model_w s
                    end
    /\ dis_w s' = dis_w s /\ opt s' = opt s /\ opt_d s' = opt_d s.
Proof.
  unfold load_backbone, try_except, emit, bind, get, modify, lift. st_simpl.
  destruct (pretrained_backbone env) as [f|e]; st_simpl;
    eexists; (split; [reflexivity|]); st_simpl; repeat split.
Qed.

Lemma load_weights_weights env s :
  exists s', load_weights env s = (Ok tt, s')
    /\ model_w s' = match newest_model env with
                    | Ok w => w
                    | Raise _ => model_w s
                    end
    /\ dis_w s' = dis_w s /\ opt s' = opt s /\ opt_d s' = opt_d s.
Proof.
  unfold load_weights, try_except, emit, bind, get, modify, lift. st_simpl.
  destruct (newest_model env) as [f|e]; st_simpl;
    eexists; (split; [reflexivity|]); st_simpl; repeat split.
Qed.

Lemma load_discriminator_weights env s :
  exists s', load_discriminator env s = (Ok tt, s')
    /\ model_w s' = model_w s
    /\ dis_w s' = match newest_discriminator env with
                  | Ok d => d
                  | Raise _ => dis_w s
                  end
    /\ opt s' = opt s /\ opt_d s' = opt_d s.
Proof.
  unfold load_discriminator, try_except, emit, bind, get, modify, lift. st_simpl.
  destruct (newest_discriminator env) as [f|e]; st_simpl;
    eexists; (split; [reflexivity|]); st_simpl; repeat split.
Qed.

(** The weights and optimizers that the four guarded loads leave. *)
Lemma load_all_weights cfg env s :
  exists s', load_all cfg env s = (Ok tt, s')
    /\ model_w s' = match newest_model env with
                    | Ok w => w
                    | Raise _ => match pretrained_backbone env with
                                 | Ok f => f (model_w s)
                                 | Raise _ => model_w s
                                 end
                    end
    /\ dis_w s' = (if domainadapt_flag cfg
                   then match newest_discriminator env with
                        | Ok d => d
                        | Raise _ => dis_w s
                        end
                   else dis_w s)
    /\ opt s' = match latest_checkpoint env with
                | Ok (Some c) => snap_opt c
                | _ => opt s
                end
    /\ opt_d s' = match latest_checkpoint env with
                  | Ok (Some c) => if domainadapt_flag cfg then snap_opt_d c else opt_d s
                  | _ => opt_d s
                  end.
Proof.
  destruct (load_ckpt_weights cfg env s) as (s1 & H1 & A1 & A2 & A3 & A4).
  destruct (load_backbone_weights env s1) as (s2 & H2 & B1 & B2 & B3 & B4).
  destruct (load_weights_weights env s2) as (s3 & H3 & C1 & C2 & C3 & C4).
  unfold load_all.
  rewrite (bind_ok _ _ _ _ _ H1), (bind_ok _ _ _ _ _ H2), (bind_ok _ _ _ _ _ H3).
  unfold when. destruct (domainadapt_flag cfg).
  - destruct (load_discriminator_weights env s3) as (s4 & H4 & D1 & D2 & D3 & D4).
    exists s4. split; [exact H4|].
    rewrite D1, D2, D3, D4, C1, C2, C3, C4, B1, B2, B3, B4, A1, A2, A3, A4. repeat split.
  - exists s3. split; [reflexivity|].
    rewrite C1, C2, C3, C4, B1, B2, B3, B4, A1, A2, A3, A4. repeat split.
Qed.

Lemma startup_weights cfg env train_model :
  0 < batch_size cfg ->
  Z.of_nat (length (samples env)) / batch_size cfg <> 0 ->
  exists s2 s',
    load_all cfg env (snd (when (domainadapt_flag cfg) (emit (Log "domain adaptaion enabled!"))
                                (initial cfg train_model))) = (Ok tt, s2)
    /\ startup cfg env (initial cfg train_model)
       = (Ok (Z.of_nat (length (samples env)) / batch_size cfg,
              n_step cfg / (Z.of_nat (length (samples env)) / batch_size cfg)), s')
    /\ model_w s' = model_w s2 /\ dis_w s' = dis_w s2
    /\ opt s' = opt s2 /\ opt_d s' = opt_d s2.
Proof.
  intros Hb He.
  set (s0 := snd (when (domainadapt_flag cfg) (emit (Log "domain adaptaion enabled!"))
                       (initial cfg train_model))).
  destruct (load_all_weights cfg env s0) as (s2 & H2 & _).
  exists s2. eexists. split; [exact H2|]. split.
  - unfold startup.
    rewrite (bind_ok _ _ _ (initial cfg train_model)
                     (Z.of_nat (length (samples env)) / batch_size cfg)).
    2:{ unfold lift, floordiv. destruct (Z.eqb_spec (batch_size cfg) 0); [lia | reflexivity]. }
    rewrite (bind_ok _ _ _ (initial cfg train_model) tt).
    2:{ destruct (Z.leb_spec (batch_size cfg) 0); [lia | reflexivity]. }
    rewrite (bind_ok _ _ _ (initial cfg train_model)
                     (n_step cfg / (Z.of_nat (length (samples env)) / batch_size cfg))).
    2:{ unfold lift, floordiv.
        destruct (Z.eqb_spec (Z.of_nat (length (samples env)) / batch_size cfg) 0);
          [contradiction | reflexivity]. }
    rewrite (bind_ok _ _ _ s0 tt).
    2:{ unfold s0, when. destruct (domainadapt_flag cfg); reflexivity. }
    rewrite (bind_ok _ _ _ s2 tt) by exact H2.
    unfold bind, modify, ret. reflexivity.
  - st_simpl. repeat split.
Qed.

Lemma initial_when cfg train_model :
  let s0 := snd (when (domainadapt_flag cfg) (emit (Log "domain adaptaion enabled!"))
                      (initial cfg train_model)) in
  model_w s0 = train_model /\ dis_w s0 = new_discriminator
  /\ opt s0 = fresh_slots /\ opt_d s0 = fresh_slots.
Proof. unfold when. destruct (domainadapt_flag cfg); repeat split. Qed.
End SingleStartup.

(** X7: [single_train] rejects a configuration whose batch size is not
    positive or exceeds the dataset before it restores, loads or logs
    anything: a negative batch size makes [Dataset.batch] raise, a zero one
    makes the division that computes [epoch_size] raise, and a batch size
    above the dataset size gives [epoch_size = 0] and makes the division
    that computes [total_epoch] raise. *)
Theorem X7_startup_rejects {K : Collaborators} (cfg : Single.config) (env : Single.world)
        (train_model : weights) :
  Single.batch_size cfg <= 0
  \/ Z.of_nat (length (Single.samples env)) < Single.batch_size cfg ->
  Single.run cfg env train_model
  = (Raise (if Single.batch_size cfg <? 0 then InvalidArgumentError else ZeroDivisionError),
     Single.initial cfg train_model).
Proof.
  intros H. unfold Single.run, Single.single_train, Single.startup.
  destruct (Z.ltb_spec (Single.batch_size cfg) 0) as [Hneg|Hnn].
  - apply bind_raise.
    rewrite (bind_ok _ _ _ (Single.initial cfg train_model)
                     (Z.of_nat (length (Single.samples env)) / Single.batch_size cfg)).
    2:{ unfold lift, floordiv.
        destruct (Z.eqb_spec (Single.batch_size cfg) 0); [lia | reflexivity]. }
    apply bind_raise.
    destruct (Z.leb_spec (Single.batch_size cfg) 0); [reflexivity | lia].
  - destruct (Z.eqb_spec (Single.batch_size cfg) 0) as [Hz|Hnz].
    + apply bind_raise. apply bind_raise. unfold lift, floordiv. rewrite Hz. reflexivity.
    + apply bind_raise.
      rewrite (bind_ok _ _ _ (Single.initial cfg train_model)
                       (Z.of_nat (length (Single.samples env)) / Single.batch_size cfg)).
      2:{ unfold lift, floordiv.
          destruct (Z.eqb_spec (Single.batch_size cfg) 0); [lia | reflexivity]. }
      rewrite (bind_ok _ _ _ (Single.initial cfg train_model) tt).
      2:{ destruct (Z.leb_spec (Single.batch_size cfg) 0); [lia | reflexivity]. }
      apply bind_raise. unfold lift, floordiv.
      rewrite Z.div_small by lia. reflexivity.
Qed.

Lemma X7_startup_rejects_witness :
  let cfg := Scenario.budget_100 in
  let env := Scenario.toy_world 3 (Ok None) in
  (Single.batch_size cfg <= 0
   \/ Z.of_nat (length (Single.samples env)) < Single.batch_size cfg)
  /\ @Single.run toy cfg env tt = (Raise ZeroDivisionError, @Single.initial toy cfg tt).
Proof.
  intros cfg env.
  assert (H : Single.batch_size cfg <= 0
              \/ Z.of_nat (length (Single.samples env)) < Single.batch_size cfg)
    by (right; cbn; lia).
  split; [exact H|].
  exact (@X7_startup_rejects toy cfg env tt H).
Defined.

(** X8: the weights that training starts from.  The file of the newest
    model, when it loads, replaces whatever the pretrained backbone put in
    the model; otherwise the model is the one passed in with the pretrained
    backbone assigned, or untouched when that is missing too.  The
    discriminator is loaded only with domain adaptation on, and a load that
    raises leaves the newly created one.  None of the loads changes what
    the checkpoint restored into the counters and rates. *)
Theorem X8_load_precedence {K : Collaborators} (cfg : Single.config) (env : Single.world)
        (train_model : weights) :
  0 < Single.batch_size cfg <= Z.of_nat (length (Single.samples env)) ->
  let r := Single.startup cfg env (Single.initial cfg train_model) in
  (exists p, fst r = Ok p)
  /\ Single.model_w (snd r)
     = match Single.newest_model env with
       | Ok w => w
       | Raise _ => match Single.pretrained_backbone env with
                    | Ok f => f train_model
                    | Raise _ => train_model
                    end
       end
  /\ Single.dis_w (snd r)
     = (if Single.domainadapt_flag cfg
        then match Single.newest_discriminator env with
             | Ok d => d
             | Raise _ => new_discriminator
             end
        else new_discriminator)
  /\ Single.book_of (snd r) = Single.start_book cfg (Single.latest_checkpoint env).
Proof.
  intros Hb r.
  assert (He : Z.of_nat (length (Single.samples env)) / Single.batch_size cfg <> 0).
  { intros E. apply Z.div_small_iff in E; lia. }
  destruct (startup_weights cfg env train_model (proj1 Hb) He)
    as (s2 & s' & H2 & Hrun & M1 & M2 & _ & _).
  destruct (load_all_weights cfg env
              (snd (Single.when (Single.domainadapt_flag cfg)
                                (Single.emit (Log "domain adaptaion enabled!"))
                                (Single.initial cfg train_model))))
    as (s2' & H2' & L1 & L2 & _ & _).
  rewrite H2 in H2'. injection H2' as <-.
  destruct (initial_when cfg train_model) as (I1 & I2 & _ & _).
  rewrite I1 in L1. rewrite I2 in L2.
  destruct (startup_book cfg env train_model (proj1 Hb) He) as (s'' & Hrun' & Hbook).
  rewrite Hrun in Hrun'. injection Hrun' as <-.
  subst r. rewrite Hrun. cbn [fst snd].
  split; [eauto|]. rewrite M1, M2, L1, L2. repeat split. exact Hbook.
Qed.

Lemma X8_load_precedence_witness :
  let cfg := Scenario.budget_100 in
  let env := Scenario.toy_world 20 (Ok None) in
  0 < Single.batch_size cfg <= Z.of_nat (length (Single.samples env))
  /\ Single.model_w (snd (@Single.startup toy cfg env (@Single.initial toy cfg tt))) = tt.
Proof.
  intros cfg env.
  assert (Hb : 0 < Single.batch_size cfg <= Z.of_nat (length (Single.samples env)))
    by (cbn; lia).
  split; [exact Hb|].
  exact (proj1 (proj2 (@X8_load_precedence toy cfg env tt Hb))).
Defined.

(** X9: resuming.  When a checkpoint is read back, training starts at the
    restored step with the restored optimizer; the saved-step and
    saved-rate variables hold the restored values, and the current rate is
    the restored rate multiplied by the decay factor once for each
    threshold strictly below the restored step.  The discriminator's
    optimizer is restored only with domain adaptation on.  No batch has
    been pulled and nothing has been applied or saved yet. *)
Theorem X9_resume {K : Collaborators} (cfg : Single.config) (env : Single.world)
        (train_model : weights) (c : Single.snapshot) :
  0 < Single.batch_size cfg <= Z.of_nat (length (Single.samples env)) ->
  Single.latest_checkpoint env = Ok (Some c) ->
  let s' := snd (Single.startup cfg env (Single.initial cfg train_model)) in
  Single.step s' = Single.snap_step c
  /\ Single.save_step s' = Single.snap_step c
  /\ Single.save_lr s' = Single.snap_lr c
  /\ (Single.lr s' == Single.snap_lr c
                      * pow (Single.lr_decay_factor cfg)
                            (Schedule.thresholds_lt Schedule.lr_decay_steps (Single.snap_step c)))%Q
  /\ Single.opt s' = Single.snap_opt c
  /\ Single.opt_d s' = (if Single.domainadapt_flag cfg then Single.snap_opt_d c else fresh_slots)
  /\ Single.pulled s' = 0%nat
  /\ Single.updates s' = [] /\ Single.checkpoint_saves s' = [].
Proof.
  intros Hb Hc s'.
  assert (He : Z.of_nat (length (Single.samples env)) / Single.batch_size cfg <> 0).
  { intros E. apply Z.div_small_iff in E; lia. }
  destruct (startup_weights cfg env train_model (proj1 Hb) He)
    as (s2 & s1 & H2 & Hrun & _ & _ & O1 & O2).
  destruct (load_all_weights cfg env
              (snd (Single.when (Single.domainadapt_flag cfg)
                                (Single.emit (Log "domain adaptaion enabled!"))
                                (Single.initial cfg train_model))))
    as (s2' & H2' & _ & _ & L3 & L4).
  rewrite H2 in H2'. injection H2' as <-.
  destruct (initial_when cfg train_model) as (_ & _ & _ & I4).
  rewrite Hc in L3, L4. rewrite I4 in L4.
  destruct (startup_book cfg env train_model (proj1 Hb) He) as (s'' & Hrun' & Hbook).
  rewrite Hrun in Hrun'. injection Hrun' as <-.
  subst s'. rewrite Hrun. cbn [snd].
  rewrite Hc in Hbook. unfold Single.start_book in Hbook.
  assert (Hupd : length (Single.updates s1) = 0%nat).
  { rewrite updates_of_book, Hbook. reflexivity. }
  assert (Hsav : Single.checkpoint_saves s1 = []).
  { rewrite book_saves_of, Hbook. reflexivity. }
  assert (B1 : Single.step s1 = Single.snap_step c) by exact (f_equal Single.b_step Hbook).
  assert (B2 : Single.lr s1
               = Schedule.catch_up (Single.lr_decay_factor cfg) Schedule.lr_decay_steps
                                   (Single.snap_step c) (Single.snap_lr c))
    by exact (f_equal Single.b_lr Hbook).
  assert (B3 : Single.save_step s1 = Single.snap_step c)
    by exact (f_equal Single.b_save_step Hbook).
  assert (B4 : Single.save_lr s1 = Single.snap_lr c) by exact (f_equal Single.b_save_lr Hbook).
  assert (B5 : Single.pulled s1 = 0%nat) by exact (f_equal Single.b_pulled Hbook).
  rewrite B1, B2, B3, B4, B5, O1, O2, L3, L4.
  repeat split; try assumption.
  - apply catch_up_from.
  - destruct (Single.updates s1); [reflexivity | discriminate].
Qed.

Lemma X9_resume_witness :
  let cfg := Scenario.budget_100 in
  let c := @Single.Snapshot toy 250000 (1 # 8) tt tt in
  let env := Scenario.toy_world 20 (Ok (Some c)) in
  let s' := snd (@Single.startup toy cfg env (@Single.initial toy cfg tt)) in
  0 < Single.batch_size cfg <= Z.of_nat (length (Single.samples env))
  /\ Single.latest_checkpoint env = Ok (Some c)
  /\ Single.step s' = 250000
  /\ Single.save_step s' = 250000
  /\ Single.save_lr s' = 1 # 8.
Proof.
  intros cfg c env s'.
  assert (Hb : 0 < Single.batch_size cfg <= Z.of_nat (length (Single.samples env)))
    by (cbn; lia).
  split; [exact Hb|]. split; [reflexivity|].
  destruct (@X9_resume toy cfg env tt c Hb eq_refl) as (H1 & H2 & H3 & _).
  split; [exact H1|]. split; [exact H2 | exact H3].
Defined.

(* ------------------------------------------------------------------ *)
(** * A run with domain adaptation on *)
(* ------------------------------------------------------------------ *)
Section AdaptationRun.
Context {K : Collaborators}.
Import Single.

Lemma range_first lo hi : lo < hi -> exists l, range lo hi = lo :: l.
Proof.
  intros H. unfold range. destruct (Z.to_nat (hi - lo)) as [|n] eqn:E; [lia|].
  cbn [seq map]. rewrite Z.add_0_r. eauto.
Qed.

Lemma iteration_on cfg env e s ids :
  domainadapt_flag cfg = true ->
  Pipeline.single_batch (samples env) (order env) (Z.to_nat (batch_size cfg)) (pulled s)
    = Some ids ->
  exists s' l1 l2 l3,
    iteration cfg env e s = (Raise RuntimeError, s')
    /\ step s' = step s + 1 /\ pulled s' = S (pulled s) /\ dis_w s' = dis_w s
    /\ trace s' = [Metric "dis/adapt_loss" l1;
                   Apply Opt ModelParams (step s + 1) (save_lr s) l2;
                   Metric "model/adapt_loss" l3] ++ trace s.
Proof.
  intros Hflag Hb.
  destruct (decay_total (lr_init cfg) (lr_decay_factor cfg) Schedule.lr_decay_steps
                        (step s + 1) (lr s)) as [lr' Hd].
  unfold iteration, next_batch, optimize_step, save, when, emit, bind, get, modify, lift, ret.
  st_simpl. rewrite Hb. st_simpl. rewrite Hd, Hflag. st_simpl.
  destruct (apply_gradients _ _ _ _) as [o w] eqn:Ha. st_simpl.
  do 4 eexists. split; [reflexivity|]. st_simpl. repeat split.
Qed.

Lemma no_updates_yet s :
  flat_map bookkeeping (trace s) = [] ->
  filter is_update (rev (trace s)) = []
  /\ flat_map (fun e => match e with CkptSave n _ => [n] | _ => [] end) (rev (trace s)) = [].
Proof.
  induction (trace s) as [|e t IH]; [split; reflexivity|].
  cbn [flat_map]. intros H. apply app_eq_nil in H. destruct H as [He Ht].
  destruct (IH Ht) as [I1 I2]. cbn [rev]. rewrite filter_app, flat_map_app, I1, I2.
  destruct e; try discriminate He; split; reflexivity.
Qed.
End AdaptationRun.

(** X10: a run with domain adaptation on, over a dataset that holds at
    least one batch and with a budget that leaves at least one iteration
    to make, does not train: it ends in the [RuntimeError] of its first
    iteration.  By then the step counter has advanced by one, one batch has
    been pulled, the model has received one update, with the rate of the
    saved-rate variable, and nothing else has: the discriminator is as
    start-up left it and no checkpoint has been saved. *)
Theorem X10_adaptation_run_aborts {K : Collaborators} (cfg : Single.config)
        (env : Single.world) (train_model : weights) :
  Single.domainadapt_flag cfg = true ->
  Pipeline.well_shuffled (Single.samples env) (Single.order env) ->
  0 < Single.batch_size cfg <= Z.of_nat (length (Single.samples env)) ->
  let epoch_size := Z.of_nat (length (Single.samples env)) / Single.batch_size cfg in
  (0 < Single.iterations (Single.n_step cfg) epoch_size (Single.start_step env))%nat ->
  let r := Single.run cfg env train_model in
  let b0 := Single.start_book cfg (Single.latest_checkpoint env) in
  fst r = Raise RuntimeError
  /\ Single.step (snd r) = Single.start_step env + 1
  /\ Single.pulled (snd r) = 1%nat
  /\ (exists loss,
        Single.updates (snd r)
        = [Apply Opt ModelParams (Single.start_step env + 1) (Single.b_save_lr b0) loss])
  /\ Single.checkpoint_saves (snd r) = []
  /\ Single.dis_w (snd r)
     = Single.dis_w (snd (Single.startup cfg env (Single.initial cfg train_model))).
Proof.
  intros Hflag Hw Hb epoch_size Hiter r b0.
  assert (He : epoch_size <> 0).
  { unfold epoch_size. intros E. apply Z.div_small_iff in E; lia. }
  assert (Hne : Single.samples env <> []).
  { intros E. rewrite E in Hb. simpl in Hb. lia. }
  destruct (startup_book cfg env train_model (proj1 Hb) He) as (s0 & Hstart & Hbook).
  fold epoch_size in Hstart. fold b0 in Hbook.
  assert (Hs : Single.b_step b0 = Single.start_step env).
  { unfold b0, Single.start_book, Single.start_step.
    destruct (Single.latest_checkpoint env) as [[c|]|e]; reflexivity. }
  destruct (start_book_events cfg (Single.latest_checkpoint env)) as [Hev Hp]. fold b0 in Hev, Hp.
  assert (B1 : Single.step s0 = Single.start_step env)
    by (rewrite <- Hs, <- Hbook; reflexivity).
  assert (B2 : Single.pulled s0 = 0%nat) by (rewrite <- Hp, <- Hbook; reflexivity).
  assert (B3 : Single.save_lr s0 = Single.b_save_lr b0) by (rewrite <- Hbook; reflexivity).
  assert (B4 : flat_map Single.bookkeeping (Single.trace s0) = [])
    by (rewrite <- Hev, <- Hbook; reflexivity).
  unfold Single.iterations in Hiter.
  destruct (range_first (Single.step s0 / epoch_size + 1) (Single.n_step cfg / epoch_size))
    as [epochs Hepochs]; [rewrite B1; nia|].
  destruct (range_first 0 epoch_size) as [inner Hinner]; [nia|].
  set (s1 := snd (Single.emit (LogStart (Single.n_step cfg / epoch_size) (Single.n_step cfg)
                                        (Single.step s0 / epoch_size + 1) (Single.step s0)) s0)).
  set (s2 := snd (Single.emit (LogEpoch (Single.step s0 / epoch_size + 1)
                                        (Single.n_step cfg / epoch_size)) s1)).
  destruct (single_batch_some (Single.samples env) (Single.order env)
                              (Z.to_nat (Single.batch_size cfg)) (Single.pulled s2) Hw Hne)
    as [ids Hids].
  destruct (iteration_on cfg env (Single.step s0 / epoch_size + 1) s2 ids Hflag Hids)
    as (s3 & l1 & l2 & l3 & Hit & I1 & I2 & I3 & I4).
  assert (Hrun : Single.run cfg env train_model = (Raise RuntimeError, s3)).
  { unfold Single.run, Single.single_train. rewrite (bind_ok _ _ _ _ _ Hstart).
    cbn [fst snd]. unfold Single.training.
    rewrite (bind_ok _ _ s0 s0 s0) by reflexivity.
    rewrite (bind_ok _ _ s0 s1 tt) by reflexivity.
    rewrite Hepochs. cbn [for_each]. apply bind_raise.
    rewrite (bind_ok _ _ s1 s2 tt) by reflexivity.
    rewrite Hinner. cbn [for_each]. apply bind_raise. exact Hit. }
  subst r. rewrite Hrun, Hstart. cbn [fst snd].
  split; [reflexivity|].
  split; [rewrite I1; subst s2 s1; cbn; rewrite B1; reflexivity|].
  split; [rewrite I2; subst s2 s1; cbn; rewrite B2; reflexivity|].
  destruct (no_updates_yet s0 B4) as [N1 N2].
  split; [|split].
  - exists l2. unfold Single.updates, Single.history. rewrite I4.
    subst s2 s1. cbn [Single.emit modify snd Single.trace Single.step Single.save_lr app rev].
    rewrite !filter_app, N1. cbn. rewrite B1, B3. reflexivity.
  - unfold Single.checkpoint_saves, Single.history. rewrite I4.
    subst s2 s1. cbn [Single.emit modify snd Single.trace app rev].
    rewrite !flat_map_app, N2. reflexivity.
  - rewrite I3. reflexivity.
Qed.

Lemma X10_adaptation_run_aborts_witness :
  let cfg := Single.Config 100 4 1 (1 # 2) 0 10 50 50 true in
  let env := Scenario.toy_world 20 (Ok None) in
  let r := @Single.run toy cfg env tt in
  Single.domainadapt_flag cfg = true
  /\ Pipeline.well_shuffled (Single.samples env) (Single.order env)
  /\ 0 < Single.batch_size cfg <= Z.of_nat (length (Single.samples env))
  /\ (0 < Single.iterations (Single.n_step cfg)
                            (Z.of_nat (length (Single.samples env)) / Single.batch_size cfg)
                            (Single.start_step env))%nat
  /\ fst r = Raise RuntimeError
  /\ Single.step (snd r) = 2
  /\ Single.pulled (snd r) = 1%nat.
Proof.
  intros cfg env r.
  assert (Hw : Pipeline.well_shuffled (Single.samples env) (Single.order env))
    by (intros e; apply Permutation_refl).
  assert (Hb : 0 < Single.batch_size cfg <= Z.of_nat (length (Single.samples env)))
    by (cbn; lia).
  assert (Hi : (0 < Single.iterations (Single.n_step cfg)
                       (Z.of_nat (length (Single.samples env)) / Single.batch_size cfg)
                       (Single.start_step env))%nat)
    by (vm_compute; lia).
  split; [reflexivity|]. split; [exact Hw|]. split; [exact Hb|]. split; [exact Hi|].
  destruct (@X10_adaptation_run_aborts toy cfg env tt eq_refl Hw Hb Hi) as (H1 & H2 & H3 & _).
  split; [exact H1|]. split; [exact H2 | exact H3].
Defined.

(* ------------------------------------------------------------------ *)
(** * More on the batch pipeline *)
(* ------------------------------------------------------------------ *)
Section PipelineMore.
Import Pipeline.

Lemma all_some_inv {A} (l : list (option A)) (r : list A) :
  all_some l = Some r -> l = map Some r.
Proof.
  revert r. induction l as [|[x|] l IH]; intros r H; cbn in H.
  - injection H as <-. reflexivity.
  - destruct (all_some l) eqn:E; [|discriminate]. injection H as <-.
    cbn. f_equal. apply IH. reflexivity.
  - discriminate.
Qed.

Lemma stream_elem_in n pass k x :
  stream_elem n pass k = Some x -> In x (pass (k / n)%nat).
Proof.
  unfold stream_elem. destruct (n =? 0)%nat; [discriminate|]. apply nth_error_In.
Qed.

Lemma take_batch_sound n batch_size pass i ids :
  take_batch n batch_size pass i = Some ids ->
  length ids = batch_size /\ Forall (fun x => exists e, In x (pass e)) ids.
Proof.
  unfold take_batch. intros H. apply all_some_inv in H. split.
  - rewrite <- (length_map Some ids), <- H, length_map, length_seq. reflexivity.
  - apply Forall_forall. intros x Hx.
    apply (in_map Some) in Hx. rewrite <- H in Hx. apply in_map_iff in Hx.
    destruct Hx as [k [Hk _]]. exists (k / n)%nat. exact (stream_elem_in _ _ _ _ Hk).
Qed.

Lemma skipn_nth {A} (l : list A) (a : nat) (x : A) :
  nth_error l a = Some x -> skipn a l = x :: skipn (S a) l.
Proof.
  revert a. induction l as [|y l IH]; intros [|a] H; cbn in *; try discriminate.
  - injection H as ->. reflexivity.
  - apply IH. exact H.
Qed.

(** A stretch of the repeated stream that lies inside pass [e] is the
    corresponding stretch of that pass. *)
Lemma stream_slice n pass e len a :
  length (pass e) = n -> (a + len <= n)%nat ->
  all_some (map (stream_elem n pass) (seq (e * n + a) len))
  = Some (firstn len (skipn a (pass e))).
Proof.
  intros Hlen. revert a. induction len as [|len IH]; intros a Ha; [reflexivity|].
  cbn [seq map all_some].
  assert (Hn : n <> 0%nat) by lia.
  assert (Hd : ((e * n + a) / n = e)%nat).
  { symmetry. apply (Nat.div_unique _ _ _ a); lia. }
  assert (Hm : ((e * n + a) mod n = a)%nat).
  { symmetry. apply (Nat.mod_unique _ _ e a); lia. }
  unfold stream_elem at 1. destruct (Nat.eqb_spec n 0); [contradiction|].
  rewrite Hd, Hm.
  destruct (nth_error (pass e) a) as [x|] eqn:Ex.
  2:{ apply nth_error_None in Ex. lia. }
  replace (S (e * n + a)) with (e * n + S a)%nat by lia.
  rewrite IH by lia. rewrite (skipn_nth _ _ _ Ex). reflexivity.
Qed.

Lemma chunks_concat (l : list nat) (batch_size k : nat) :
  length l = (k * batch_size)%nat ->
  concat (map (fun j => firstn batch_size (skipn (j * batch_size) l)) (seq 0 k)) = l.
Proof.
  revert l. induction k as [|k IH]; intros l Hl.
  - destruct l; [reflexivity | discriminate].
  - cbn [seq map concat]. rewrite <- seq_shift, map_map. cbn [Nat.mul Nat.add skipn].
    transitivity (firstn batch_size l ++ skipn batch_size l); [|apply firstn_skipn].
    f_equal.
    etransitivity; [|apply (IH (skipn batch_size l)); rewrite length_skipn, Hl; cbn; lia].
    apply f_equal, map_ext. intros j.
    rewrite skipn_skipn. f_equal. f_equal. lia.
Qed.

Lemma map_seq_shift {A} (f g : nat -> A) (a k : nat) :
  (forall j, (j < k)%nat -> f (a + j)%nat = g j) -> map f (seq a k) = map g (seq 0 k).
Proof.
  induction k as [|k IH]; intros H; [reflexivity|].
  rewrite !seq_S, !map_app, IH by (intros j Hj; apply H; lia).
  cbn [map Nat.add]. rewrite H by lia. reflexivity.
Qed.

Lemma shard_one pos (l : list nat) : shard_from pos 1 0 l = l.
Proof.
  revert pos. induction l as [|x l IH]; intros pos; [reflexivity|].
  cbn [shard_from]. rewrite Nat.mod_1_r. cbn. rewrite IH. reflexivity.
Qed.

Lemma div_step (W r pos : nat) :
  (r < W)%nat ->
  ((pos + W - r) / W = (pos + W - 1 - r) / W + (if (pos mod W =? r)%nat then 1 else 0))%nat.
Proof.
  intros Hr.
  assert (HW : W <> 0%nat) by lia.
  pose proof (Nat.div_mod_eq pos W) as Hp.
  pose proof (Nat.mod_upper_bound pos W HW) as Hm.
  set (q := (pos / W)%nat) in *. set (m := (pos mod W)%nat) in *.
  remember (W * q)%nat as Wq eqn:EWq.
  destruct (Nat.eqb_spec m r) as [E|E].
  - rewrite <- (Nat.div_unique (pos + W - r) W (S q) 0); [|lia|rewrite Nat.mul_succ_r; lia].
    rewrite <- (Nat.div_unique (pos + W - 1 - r) W q (W - 1)); [lia|lia|lia].
  - destruct (Nat.lt_ge_cases m r) as [Hlt|Hge].
    + rewrite <- (Nat.div_unique (pos + W - r) W q (m + W - r)); [|lia|lia].
      rewrite <- (Nat.div_unique (pos + W - 1 - r) W q (m + W - 1 - r)); [lia|lia|lia].
    + rewrite <- (Nat.div_unique (pos + W - r) W (S q) (m - r)); [|lia|rewrite Nat.mul_succ_r; lia].
      rewrite <- (Nat.div_unique (pos + W - 1 - r) W (S q) (m - r - 1));
        [lia|lia|rewrite Nat.mul_succ_r; lia].
Qed.

Lemma shard_from_count (W r pos : nat) (l : list nat) :
  (r < W)%nat ->
  (length (shard_from pos W r l) + (pos + W - 1 - r) / W
   = (pos + length l + W - 1 - r) / W)%nat.
Proof.
  intros Hr. revert pos. induction l as [|x l IH]; intros pos.
  - cbn. rewrite Nat.add_0_r. reflexivity.
  - cbn [shard_from length]. specialize (IH (S pos)).
    replace (S pos + W - 1 - r)%nat with (pos + W - r)%nat in IH by lia.
    replace (S pos + length l + W - 1 - r)%nat with (pos + S (length l) + W - 1 - r)%nat
      in IH by lia.
    rewrite (div_step W r pos Hr) in IH.
    destruct (pos mod W =? r)%nat; cbn [length]; lia.
Qed.

Lemma shard_length (W r : nat) (l : list nat) :
  (r < W)%nat -> length (shard W r l) = ((length l + W - 1 - r) / W)%nat.
Proof.
  intros Hr. pose proof (shard_from_count W r 0 l Hr) as H.
  cbn [Nat.add] in H. rewrite (Nat.div_small (W - 1 - r) W) in H by lia.
  unfold shard. lia.
Qed.
End PipelineMore.

(** X11: the batches of the single-mode pipeline.  Over a dataset that is
    not empty every batch exists, whatever its number, holds exactly
    [batch_size] samples, and every one of them is a sample of the
    dataset; over an empty dataset there is no batch at all. *)
Theorem X11_batches_are_full (samples : list nat) (order : Pipeline.shuffle_order)
        (batch_size i : nat) :
  Pipeline.well_shuffled samples order ->
  (samples <> [] ->
   exists ids, Pipeline.single_batch samples order batch_size i = Some ids
               /\ length ids = batch_size
               /\ Forall (fun x => In x samples) ids)
  /\ (samples = [] -> batch_size <> 0%nat ->
      Pipeline.single_batch samples order batch_size i = None).
Proof.
  intros Hw. split.
  - intros Hne.
    destruct (single_batch_some samples order batch_size i Hw Hne) as [ids Hids].
    exists ids. split; [exact Hids|].
    destruct (take_batch_sound _ _ _ _ _ Hids) as [Hlen Hall]. split; [exact Hlen|].
    eapply Forall_impl; [|exact Hall].
    intros x [e He]. exact (Permutation_in x (Hw e) He).
  - intros -> Hb. apply take_batch_empty. exact Hb.
Qed.

Lemma X11_batches_are_full_witness :
  Pipeline.well_shuffled [0; 1; 2]%nat (fun _ => [2; 0; 1]%nat)
  /\ Pipeline.single_batch [0; 1; 2]%nat (fun _ => [2; 0; 1]%nat) 2 1 = Some [1; 2]%nat.
Proof.
  assert (Hw : Pipeline.well_shuffled [0; 1; 2]%nat (fun _ => [2; 0; 1]%nat)).
  { intros e. apply Permutation_sym.
    apply Permutation_trans with [0; 2; 1]%nat; [apply perm_skip, perm_swap | apply perm_swap]. }
  split; [exact Hw|].
  destruct (proj1 (X11_batches_are_full [0; 1; 2]%nat (fun _ => [2; 0; 1]%nat) 2 1 Hw))
    as [ids [Hids _]]; [discriminate|].
  rewrite Hids. vm_compute in Hids. symmetry. exact Hids.
Defined.

(** X12: when the batch size divides the size of the dataset, the batches
    of one epoch are consecutive stretches of that epoch's shuffled order:
    together they are that order, so an epoch goes through every sample
    once and no batch mixes two passes. *)
Theorem X12_epoch_covers_dataset (samples : list nat) (order : Pipeline.shuffle_order)
        (batch_size k e : nat) :
  Pipeline.well_shuffled samples order ->
  length samples = (k * batch_size)%nat ->
  exists batches,
    map (Pipeline.single_batch samples order batch_size) (seq (e * k) k) = map Some batches
    /\ concat batches = order e
    /\ Permutation (concat batches) samples.
Proof.
  intros Hw Hlen.
  assert (Hpass : length (order e) = length samples) by (apply Permutation_length, Hw).
  exists (map (fun j => firstn batch_size (skipn (j * batch_size) (order e))) (seq 0 k)).
  split; [|split].
  - rewrite map_map. apply map_seq_shift. intros j Hj.
    unfold Pipeline.single_batch, Pipeline.take_batch.
    replace ((e * k + j) * batch_size)%nat with (e * length samples + j * batch_size)%nat
      by (rewrite Hlen, Nat.mul_add_distr_r, Nat.mul_assoc; reflexivity).
    apply stream_slice; [exact Hpass|].
    rewrite Hlen. replace (j * batch_size + batch_size)%nat with (S j * batch_size)%nat by (cbn; lia).
    apply Nat.mul_le_mono_r. lia.
  - apply chunks_concat. rewrite Hpass. exact Hlen.
  - rewrite chunks_concat by (rewrite Hpass; exact Hlen). apply Hw.
Qed.

Lemma X12_epoch_covers_dataset_witness :
  let order : Pipeline.shuffle_order := fun e => if Nat.even e then [0; 1; 2; 3]%nat else [3; 2; 1; 0]%nat in
  Pipeline.well_shuffled [0; 1; 2; 3]%nat order
  /\ length [0; 1; 2; 3]%nat = (2 * 2)%nat
  /\ exists batches,
       map (Pipeline.single_batch [0; 1; 2; 3]%nat order 2) (seq (1 * 2) 2) = map Some batches
       /\ concat batches = order 1%nat
       /\ Permutation (concat batches) [0; 1; 2; 3]%nat.
Proof.
  intros order.
  assert (Hw : Pipeline.well_shuffled [0; 1; 2; 3]%nat order).
  { intros e. unfold order. destruct (Nat.even e); [apply Permutation_refl|].
    apply Permutation_sym. exact (Permutation_rev [0; 1; 2; 3]%nat). }
  split; [exact Hw|]. split; [reflexivity|].
  exact (X12_epoch_covers_dataset [0; 1; 2; 3]%nat order 2 2 1 Hw eq_refl).
Defined.

(** X13: sharding one common order.  Cut out of the same order, the shards
    of the ranks [0 .. cluster_size - 1] are that order rearranged: every
    sample is in exactly one shard.  Shard [rank] holds
    [ceil((n - rank) / cluster_size)] of the [n] samples, so two shards
    differ by one sample at most, and a shard is empty exactly when there
    are no more than [rank] samples. *)
Theorem X13_shards_partition (cluster_size rank : nat) (l : list nat) :
  (rank < cluster_size)%nat ->
  Permutation (concat (map (fun r => Pipeline.shard cluster_size r l) (seq 0 cluster_size))) l
  /\ length (Pipeline.shard cluster_size rank l)
     = ((length l + cluster_size - 1 - rank) / cluster_size)%nat
  /\ (length l / cluster_size <= length (Pipeline.shard cluster_size rank l)
      <= (length l + cluster_size - 1) / cluster_size)%nat
  /\ (Pipeline.shard cluster_size rank l = [] <-> (length l <= rank)%nat).
Proof.
  intros Hr.
  assert (HW : cluster_size <> 0%nat) by lia.
  pose proof (shard_length cluster_size rank l Hr) as Hlen.
  split; [apply shards_of_common_order; exact HW|].
  split; [exact Hlen|]. split.
  - rewrite Hlen. split; apply Nat.Div0.div_le_mono; lia.
  - split.
    + intros E. rewrite E in Hlen. cbn [length] in Hlen. symmetry in Hlen.
      apply Nat.div_small_iff in Hlen; lia.
    + intros Hle. apply length_zero_iff_nil. rewrite Hlen. apply Nat.div_small. lia.
Qed.

Lemma X13_shards_partition_witness :
  (1 < 3)%nat
  /\ Permutation (concat (map (fun r => Pipeline.shard 3 r [5; 9; 2; 7; 8; 1; 4]%nat) (seq 0 3)))
                 [5; 9; 2; 7; 8; 1; 4]%nat
  /\ length (Pipeline.shard 3 1 [5; 9; 2; 7; 8; 1; 4]%nat) = 2%nat.
Proof.
  assert (H : (1 < 3)%nat) by lia.
  split; [exact H|].
  destruct (X13_shards_partition 3 1 [5; 9; 2; 7; 8; 1; 4]%nat H) as (H1 & H2 & _).
  split; [exact H1 | exact H2].
Defined.

(** X14: with a single worker the shard is the whole shuffled order, so
    the multi-worker pipeline yields the very batches of the single-mode
    pipeline. *)
Theorem X14_single_worker_pipeline (samples : list nat) (order : Pipeline.shuffle_order)
        (batch_size i : nat) :
  Pipeline.well_shuffled samples order ->
  (forall e, Pipeline.worker_pass 1 0 order e = order e)
  /\ Pipeline.worker_batch 1 0 order batch_size i
     = Pipeline.single_batch samples order batch_size i.
Proof.
  intros Hw.
  assert (Hp : forall e, Pipeline.worker_pass 1 0 order e = order e).
  { intros e. unfold Pipeline.worker_pass, Pipeline.shard. apply shard_one. }
  split; [exact Hp|].
  unfold Pipeline.worker_batch, Pipeline.single_batch, Pipeline.take_batch.
  rewrite Hp, (Permutation_length (Hw 0%nat)).
  f_equal. apply map_ext. intros k. unfold Pipeline.stream_elem.
  rewrite Hp. reflexivity.
Qed.

Lemma X14_single_worker_pipeline_witness :
  Pipeline.well_shuffled [0; 1; 2]%nat (fun _ => [0; 1; 2]%nat)
  /\ Pipeline.worker_batch 1 0 (fun _ => [0; 1; 2]%nat) 2 1
     = Pipeline.single_batch [0; 1; 2]%nat (fun _ => [0; 1; 2]%nat) 2 1.
Proof.
  assert (Hw : Pipeline.well_shuffled [0; 1; 2]%nat (fun _ => [0; 1; 2]%nat))
    by (intros e; apply Permutation_refl).
  split; [exact Hw|].
  exact (proj2 (X14_single_worker_pipeline [0; 1; 2]%nat (fun _ => [0; 1; 2]%nat) 2 1 Hw)).
Defined.

(* ------------------------------------------------------------------ *)
(** * parallel_train: what start-up leaves and what the loop never writes *)
(* ------------------------------------------------------------------ *)
Section ParallelMore.
Context {K : Collaborators}.
Import Parallel.
Variable cfg : config.
Variable env : world.

(** The variables that the three guarded loads of lines 378-394 write. *)
Lemma load_all_effect s :
  exists s', load_all env s = (Ok tt, s')
    /\ step_var s' = match latest_checkpoint env with
                     | Ok (Some c) => snap_step c
                     | _ => step_var s
                     end
    /\ lr_var s' = match latest_checkpoint env with
                   | Ok (Some c) => snap_lr c
                   | _ => lr_var s
                   end
    /\ opt s' = match latest_checkpoint env with
                | Ok (Some c) => snap_opt c
                | _ => opt s
                end
    /\ model_w s' = match newest_model env with
                    | Ok w => w
                    | Raise _ => match pretrained_backbone env with
                                 | Ok f => f (model_w s)
                                 | Raise _ => model_w s
                                 end
                    end
    /\ lr_decay_steps s' = lr_decay_steps s /\ budget s' = budget s
    /\ step_name s' = step_name s /\ lr_name s' = lr_name s /\ taken s' = taken s.
Proof.
  destruct s as [sv lv sn ln steps bd mw o tk tr].
  unfold load_all, restore, try_except, emit, bind, get, modify, lift, ret. par_simpl.
  destruct (latest_checkpoint env) as [[c|]|e1]; par_simpl;
    destruct (pretrained_backbone env) as [f|e2]; par_simpl;
    destruct (newest_model env) as [m|e3]; par_simpl;
    eexists; (split; [reflexivity|]); repeat split.
Qed.

(** Whatever a statement of the loop body does, it does not write a cell
    that [f] reads when no setter it uses does. *)
Lemma rescale_loop_keeps {A} (f : state -> A) (v : A) l :
  (forall x s, f (set_step_name x s) = f s) ->
  (forall x s, f (set_lr_decay_steps x s) = f s) ->
  keeps (fun s => f s = v) (for_each l (rescale_body env)).
Proof.
  intros H1 H2. unfold rescale_body.
  keeps_core ltac:(apply keeps_modify; intros s0 H0; rewrite ?H1, ?H2; exact H0).
Qed.

Lemma rescale_effect s :
  lr_decay_steps s = Schedule.lr_decay_steps ->
  exists s', rescale env s = (Ok tt, s')
    /\ lr_decay_steps s' = map (fun t => t / workers env + 1) Schedule.lr_decay_steps
    /\ budget s' = budget s / workers env + 1
    /\ step_var s' = step_var s /\ lr_var s' = lr_var s /\ opt s' = opt s
    /\ model_w s' = model_w s /\ lr_name s' = lr_name s /\ taken s' = taken s.
Proof.
  intros Hl.
  destruct (rescale_binding env s Hl) as (s' & H & _ & L & T).
  exists s'. split; [exact H|]. split; [exact L|].
  assert (E : s' = snd (for_each (seq 0 (length (lr_decay_steps s))) (rescale_body env)
                                 (set_budget (budget s / workers env + 1) s))).
  { unfold rescale in H.
    rewrite (bind_ok _ _ s (set_budget (budget s / workers env + 1) s) tt) in H by reflexivity.
    rewrite (bind_ok _ _ _ (set_budget (budget s / workers env + 1) s)
                     (set_budget (budget s / workers env + 1) s)) in H by reflexivity.
    par_simpl. cbn [lr_decay_steps set_budget] in H. rewrite H. reflexivity. }
  rewrite E.
  repeat split;
    match goal with
    | |- ?f (snd (for_each ?l _ ?s0)) = _ =>
        apply (rescale_loop_keeps f (f s0) l); intros; reflexivity
    end.
Qed.

Lemma iteration_keeps {A} (f : state -> A) (v : A) t :
  (forall x s, f (set_lr_name x s) = f s) ->
  (forall x s, f (set_step_var x s) = f s) ->
  (forall x s, f (set_opt x s) = f s) ->
  (forall x s, f (set_model_w x s) = f s) ->
  (forall e s, f (snd (emit e s)) = f s) ->
  keeps (fun s => f s = v) (iteration cfg env t).
Proof.
  intros H1 H2 H3 H4 H5.
  unfold iteration, one_step, step_numpy, lr_numpy, when.
  keeps_core ltac:(first
    [ apply keeps_modify; intros s0 H0; rewrite ?H1, ?H2, ?H3, ?H4; exact H0
    | match goal with
      | |- keeps _ (emit ?e) => intros s0 H0; rewrite H5; exact H0
      | |- keeps _ (let '(_, _) := ?p in _) => destruct p
      end ]).
Qed.
End ParallelMore.

(** X15: start-up of [parallel_train].  With a positive batch size it
    returns normally whatever the three loads do, and leaves: the step and
    rate variables and the optimizer as restored from the checkpoint, or
    as created when none is read back; the model from the newest weights
    file, else with the pretrained backbone, else as passed in; the budget
    [total_step // cluster_size + 1] and every threshold [t] replaced by
    [t // cluster_size + 1]; no batch taken.  With a batch size that is not
    positive it raises before restoring anything. *)
Theorem X15_parallel_startup {K : Collaborators} (cfg : Parallel.config)
        (env : Parallel.world) (train_model : weights) :
  let r := Parallel.startup cfg env (Parallel.initial cfg train_model) in
  (0 < Parallel.batch_size cfg ->
   fst r = Ok tt
   /\ Parallel.lr_decay_steps (snd r)
      = map (fun t => t / Parallel.workers env + 1) Schedule.lr_decay_steps
   /\ Parallel.budget (snd r) = Parallel.total_step cfg / Parallel.workers env + 1
   /\ Parallel.step_var (snd r) = match Parallel.latest_checkpoint env with
                                  | Ok (Some c) => Parallel.snap_step c
                                  | _ => 1
                                  end
   /\ Parallel.lr_var (snd r) = match Parallel.latest_checkpoint env with
                                | Ok (Some c) => Parallel.snap_lr c
                                | _ => Parallel.lr_init cfg
                                end
   /\ Parallel.opt (snd r) = match Parallel.latest_checkpoint env with
                             | Ok (Some c) => Parallel.snap_opt c
                             | _ => fresh_slots
                             end
   /\ Parallel.model_w (snd r)
      = match Parallel.newest_model env with
        | Ok w => w
        | Raise _ => match Parallel.pretrained_backbone env with
                     | Ok f => f train_model
                     | Raise _ => train_model
                     end
        end
   /\ Parallel.lr_name (snd r) = Parallel.LrVariable
   /\ Parallel.taken (snd r) = 0%nat)
  /\ (Parallel.batch_size cfg <= 0 ->
      r = (Raise InvalidArgumentError, Parallel.initial cfg train_model)).
Proof.
  intros r. split.
  - intros Hb.
    destruct (load_all_effect env (Parallel.initial cfg train_model))
      as (s1 & H1 & A1 & A2 & A3 & A4 & A5 & A6 & A7 & A8 & A9).
    destruct (rescale_effect env s1) as (s2 & H2 & B1 & B2 & B3 & B4 & B5 & B6 & B7 & B8);
      [rewrite A5; reflexivity|].
    assert (Hrun : r = (Ok tt, s2)).
    { subst r. unfold Parallel.startup.
      rewrite (bind_ok _ _ _ (Parallel.initial cfg train_model) tt).
      2:{ destruct (Z.leb_spec (Parallel.batch_size cfg) 0); [lia | reflexivity]. }
      rewrite (bind_ok _ _ _ _ _ H1). exact H2. }
    rewrite Hrun. cbn [fst snd].
    rewrite B1, B2, B3, B4, B5, B6, B7, B8, A1, A2, A3, A4, A6, A8, A9.
    repeat split.
  - intros Hb. subst r. unfold Parallel.startup. apply bind_raise.
    destruct (Z.leb_spec (Parallel.batch_size cfg) 0); [reflexivity | lia].
Qed.

(** X16: in the loop of [parallel_train] nothing writes the learning-rate
    variable that the optimizer reads, the rescaled thresholds or the
    budget: whatever tuple the dataset yields, one pass of the loop body
    leaves them as they were, whether it returns or raises.  The decay of
    lines 441-443 only rebinds the local name [lr]. *)
Theorem X16_parallel_rate_is_never_written {K : Collaborators} (cfg : Parallel.config)
        (env : Parallel.world) (t : list tensor) (s : Parallel.state) :
  let s' := snd (Parallel.iteration cfg env t s) in
  Parallel.lr_var s' = Parallel.lr_var s
  /\ Parallel.lr_decay_steps s' = Parallel.lr_decay_steps s
  /\ Parallel.budget s' = Parallel.budget s
  /\ Parallel.step_name s' = Parallel.step_name s
  /\ Parallel.taken s' = Parallel.taken s.
Proof.
  intros s'. subst s'.
  repeat split;
    match goal with
    | |- ?f (snd (Parallel.iteration _ _ _ ?s0)) = _ =>
        apply (iteration_keeps cfg env f (f s0) t); intros; reflexivity
    end.
Qed.

(** X17: a worker whose shard is empty, because there are no more samples
    than its rank, does not train: [parallel_train] returns normally after
    start-up, with no batch taken and nothing but log lines in its
    trace. *)
Theorem X17_empty_shard_returns {K : Collaborators} (cfg : Parallel.config)
        (env : Parallel.world) (train_model : weights) (fuel : nat) :
  0 < Parallel.batch_size cfg ->
  Pipeline.well_shuffled (Parallel.samples env) (Parallel.order env) ->
  (length (Parallel.samples env) <= Parallel.rank env < Pos.to_nat (Parallel.cluster_size env))%nat ->
  let r := Parallel.run cfg env train_model (S fuel) in
  fst r = Ok Parallel.Exhausted
  /\ Parallel.taken (snd r) = 0%nat
  /\ Parallel.never (fun e => match e with Log _ => false | _ => true end) (snd r).
Proof.
  intros Hb Hw Hrank r.
  split; [|split].
  2,3: subst r.
  3: apply run_never; reflexivity.
  all: destruct (parallel_run_binding cfg env train_model (S fuel) Hb) as (s1 & _ & T1 & Hrun & _).
  all: assert (Hnone : Pipeline.worker_batch (Pos.to_nat (Parallel.cluster_size env))
                         (Parallel.rank env) (Parallel.order env)
                         (Z.to_nat (Parallel.batch_size cfg)) (Parallel.taken s1) = None).
  1,3: unfold Pipeline.worker_batch, Pipeline.worker_pass;
       rewrite shard_length by lia;
       rewrite (Permutation_length (Hw 0%nat));
       rewrite Nat.div_small by lia;
       apply take_batch_empty; lia.
  - subst r. rewrite Hrun, train_loop_first, Hnone. reflexivity.
  - rewrite Hrun, train_loop_first, Hnone. cbn [snd]. exact T1.
Qed.

Lemma X17_empty_shard_returns_witness :
  let cfg := Scenario.parallel_budget in
  let env := Scenario.toy_worker [7; 8]%nat 4 2 in
  0 < Parallel.batch_size cfg
  /\ Pipeline.well_shuffled (Parallel.samples env) (Parallel.order env)
  /\ (length (Parallel.samples env) <= Parallel.rank env
      < Pos.to_nat (Parallel.cluster_size env))%nat
  /\ fst (@Parallel.run toy cfg env tt 3) = Ok Parallel.Exhausted.
Proof.
  intros cfg env.
  assert (Ha : 0 < Parallel.batch_size cfg) by reflexivity.
  assert (Hw : Pipeline.well_shuffled (Parallel.samples env) (Parallel.order env))
    by (intros e; apply Permutation_refl).
  assert (Hr : (length (Parallel.samples env) <= Parallel.rank env
                < Pos.to_nat (Parallel.cluster_size env))%nat) by (cbn; lia).
  split; [exact Ha|]. split; [exact Hw|]. split; [exact Hr|].
  exact (proj1 (@X17_empty_shard_returns toy cfg env tt 2 Ha Hw Hr)).
Defined.

(* ------------------------------------------------------------------ *)
(** * _data_aug_fn: masking, layout and errors *)
(* ------------------------------------------------------------------ *)
Section AugmentMore.
Import DataAug.
Context {E : Externals}.

Lemma multiply_mask image1 mask1 :
  rows mask1 = dim0 image1 -> cols mask1 = dim1 image1 ->
  exists r, multiply image1 (newaxis mask1) = Ok r
    /\ dim0 r = dim0 image1 /\ dim1 r = dim1 image1 /\ dim2 r = dim2 image1
    /\ forall i j k, (i < dim0 image1)%nat -> (j < dim1 image1)%nat -> (k < dim2 image1)%nat ->
         at3 r i j k = (at3 image1 i j k * at2 mask1 i j)%Q.
Proof.
  intros Hr Hc. unfold multiply, newaxis. cbn [dim0 dim1 dim2 at3].
  rewrite Hr, Hc, !broadcast_dim_same, broadcast_dim_one.
  eexists. split; [reflexivity|]. cbn [dim0 dim1 dim2 at3]. repeat split.
  intros i j k Hi Hj Hk. rewrite !operand_index_inside by assumption. reflexivity.
Qed.

Lemma broadcast_dim_mismatch a b :
  a <> b -> a <> 1%nat -> b <> 1%nat -> broadcast_dim a b = Raise ValueError.
Proof.
  intros H1 H2 H3. unfold broadcast_dim.
  destruct (Nat.eqb_spec a b); [contradiction|].
  destruct (Nat.eqb_spec a 1); [contradiction|].
  destruct (Nat.eqb_spec b 1); [contradiction|]. reflexivity.
Qed.
End AugmentMore.

(** X18: what [_data_aug_fn] returns.  With an augmentor that returns a
    mask of the height and width of its image, every value of the returned
    image is the augmented pixel multiplied by the augmented mask at its
    position: pixels where the mask is 0 come out as 0, in every channel.
    Under [channels_first] the image comes out as (channel, row, column)
    and the mask as (1, row, column); otherwise as (row, column, channel)
    and (row, column, 1).  The label is the [labeled] entry of the ground
    truth, and the target is what the preprocessor made of the augmented
    annotations and mask. *)
Theorem X18_invalid_pixels_zeroed {E : DataAug.Externals}
        (image : DataAug.ndarray3) (gt : DataAug.ground_truth)
        (augmentor : DataAug.augmentor_t) (preprocessor : DataAug.preprocessor_t)
        (data_format : string)
        (mask0 mask1 : DataAug.ndarray2) (image1 out_image out_mask : DataAug.ndarray3)
        (annos1 : DataAug.annos) (t : DataAug.pickled) (l : Q) :
  DataAug.valid_mask image (DataAug.gt_mask gt) = Ok mask0 ->
  augmentor image (DataAug.kpt gt) mask0 = Ok (image1, annos1, mask1) ->
  DataAug.rows mask1 = DataAug.dim0 image1 ->
  DataAug.cols mask1 = DataAug.dim1 image1 ->
  DataAug._data_aug_fn image gt augmentor preprocessor data_format
  = Ok (out_image, out_mask, t, l) ->
  let first := String.eqb data_format "channels_first" in
  l = DataAug.gt_labeled gt
  /\ (exists target, preprocessor annos1 (DataAug.newaxis mask1) = Ok target
                     /\ t = DataAug.dumps target)
  /\ DataAug.shape3 out_image
     = (if first
        then (DataAug.dim2 image1, DataAug.dim0 image1, DataAug.dim1 image1)
        else (DataAug.dim0 image1, DataAug.dim1 image1, DataAug.dim2 image1))
  /\ DataAug.shape3 out_mask
     = (if first
        then (1%nat, DataAug.dim0 image1, DataAug.dim1 image1)
        else (DataAug.dim0 image1, DataAug.dim1 image1, 1%nat))
  /\ forall i j k,
       (i < DataAug.dim0 image1)%nat -> (j < DataAug.dim1 image1)%nat ->
       (k < DataAug.dim2 image1)%nat ->
       let px := if first then DataAug.at3 out_image k i j else DataAug.at3 out_image i j k in
       let mx := if first then DataAug.at3 out_mask 0%nat i j else DataAug.at3 out_mask i j 0%nat in
       px = (DataAug.at3 image1 i j k * DataAug.at2 mask1 i j)%Q
       /\ mx = DataAug.at2 mask1 i j
       /\ (DataAug.at2 mask1 i j == 0 -> px == 0)%Q.
Proof.
  intros Hmask Haug Hr Hc Hout first.
  destruct (multiply_mask image1 mask1 Hr Hc) as (r & Hmul & D0 & D1 & D2 & Hpx).
  unfold DataAug._data_aug_fn in Hout. rewrite Hmask, Haug, Hmul in Hout.
  destruct (preprocessor annos1 (DataAug.newaxis mask1)) as [target|e] eqn:Hpre;
    [|discriminate].
  fold first in Hout.
  assert (Hzero : forall i j k, (i < DataAug.dim0 image1)%nat -> (j < DataAug.dim1 image1)%nat ->
                    (k < DataAug.dim2 image1)%nat ->
                    (DataAug.at2 mask1 i j == 0 -> DataAug.at3 r i j k == 0)%Q).
  { intros i j k Hi Hj Hk Hz. rewrite (Hpx i j k Hi Hj Hk), Hz. apply Qmult_0_r. }
  destruct first; injection Hout as <- <- <- <-;
    (split; [reflexivity|]); (split; [eauto|]);
    unfold DataAug.shape3, DataAug.transpose_201, DataAug.newaxis;
    cbn [DataAug.dim0 DataAug.dim1 DataAug.dim2 DataAug.at3];
    rewrite ?D0, ?D1, ?D2, ?Hr, ?Hc;
    (split; [reflexivity|]); (split; [reflexivity|]);
    intros i j k Hi Hj Hk; cbn zeta;
    (split; [apply Hpx; assumption|]); (split; [reflexivity|]);
    apply Hzero; assumption.
Qed.

Lemma X18_invalid_pixels_zeroed_witness :
  let half : DataAug.ndarray2 :=
    DataAug.Array2 2 2 (fun i j => if (i =? 0)%nat then 1 else 0)%Q in
  let gt := @DataAug.GroundTruth Scenario.toy_externals ([1; 2] : list Z) 1 (Some half) in
  let out := DataAug.multiply Scenario.small_image (DataAug.newaxis half) in
  exists r,
    out = Ok r
    /\ @DataAug.valid_mask Scenario.toy_externals Scenario.small_image (DataAug.gt_mask gt)
       = Ok half
    /\ Scenario.identity_augmentor Scenario.small_image (DataAug.kpt gt) half
       = Ok (Scenario.small_image, [1; 2], half)
    /\ DataAug.rows half = DataAug.dim0 Scenario.small_image
    /\ DataAug.cols half = DataAug.dim1 Scenario.small_image
    /\ DataAug._data_aug_fn Scenario.small_image gt Scenario.identity_augmentor
                            Scenario.echo_preprocessor "channels_last"
       = Ok (r, DataAug.newaxis half, [1; 2], 1%Q)
    /\ DataAug.shape3 r = (2%nat, 2%nat, 3%nat)
    /\ (DataAug.at3 r 1 1 2 == 0)%Q.
Proof.
  intros half gt out. subst out.
  eexists. split; [reflexivity|].
  assert (H1 : @DataAug.valid_mask Scenario.toy_externals Scenario.small_image
                                   (DataAug.gt_mask gt) = Ok half) by reflexivity.
  assert (H2 : Scenario.identity_augmentor Scenario.small_image (DataAug.kpt gt) half
               = Ok (Scenario.small_image, [1; 2], half)) by reflexivity.
  assert (H3 : DataAug.rows half = DataAug.dim0 Scenario.small_image) by reflexivity.
  assert (H4 : DataAug.cols half = DataAug.dim1 Scenario.small_image) by reflexivity.
  split; [exact H1|]. split; [exact H2|]. split; [exact H3|]. split; [exact H4|].
  match goal with
  | |- ?fn = Ok (?r, ?m, ?t, ?l) /\ _ =>
      assert (H5 : fn = Ok (r, m, t, l)) by reflexivity;
      pose proof (@X18_invalid_pixels_zeroed Scenario.toy_externals Scenario.small_image gt
                    Scenario.identity_augmentor Scenario.echo_preprocessor "channels_last"
                    half half Scenario.small_image r m [1; 2] t l H1 H2 H3 H4 H5) as HX
  end.
  cbn zeta in HX. destruct HX as (_ & _ & Hs & _ & Hpx).
  split; [exact H5|]. split; [exact Hs|].
  refine (proj2 (proj2 (Hpx 1%nat 1%nat 2%nat _ _ _)) _); cbn; try lia. reflexivity.
Defined.

(** X19: where [_data_aug_fn] fails.  It has no handler of its own: an
    exception of [decode_mask] or of the augmentor is the exception of the
    call, whatever the later stages would do.  A mask that is absent on an
    image without channels makes the default mask raise [IndexError], and
    an augmented mask whose height (or width) differs from the image's,
    neither being 1, makes the multiplication raise [ValueError] before
    the preprocessor is reached. *)
Theorem X19_augment_errors {E : DataAug.Externals}
        (image : DataAug.ndarray3) (gt : DataAug.ground_truth)
        (augmentor : DataAug.augmentor_t) (preprocessor : DataAug.preprocessor_t)
        (data_format : string) :
  let r := DataAug._data_aug_fn image gt augmentor preprocessor data_format in
  (forall e, DataAug.decode_mask (DataAug.gt_mask gt) = Raise e -> r = Raise e)
  /\ (DataAug.decode_mask (DataAug.gt_mask gt) = Ok None -> DataAug.dim2 image = 0%nat ->
      r = Raise IndexError)
  /\ (forall mask0 e,
        DataAug.valid_mask image (DataAug.gt_mask gt) = Ok mask0 ->
        augmentor image (DataAug.kpt gt) mask0 = Raise e -> r = Raise e)
  /\ (forall mask0 image1 annos1 mask1,
        DataAug.valid_mask image (DataAug.gt_mask gt) = Ok mask0 ->
        augmentor image (DataAug.kpt gt) mask0 = Ok (image1, annos1, mask1) ->
        (DataAug.dim0 image1 <> DataAug.rows mask1
         /\ DataAug.dim0 image1 <> 1%nat /\ DataAug.rows mask1 <> 1%nat)
        \/ (DataAug.dim1 image1 <> DataAug.cols mask1
            /\ DataAug.dim1 image1 <> 1%nat /\ DataAug.cols mask1 <> 1%nat) ->
        r = Raise ValueError)
  /\ (forall mask0 image1 annos1 mask1 image2 e,
        DataAug.valid_mask image (DataAug.gt_mask gt) = Ok mask0 ->
        augmentor image (DataAug.kpt gt) mask0 = Ok (image1, annos1, mask1) ->
        DataAug.multiply image1 (DataAug.newaxis mask1) = Ok image2 ->
        preprocessor annos1 (DataAug.newaxis mask1) = Raise e -> r = Raise e).
Proof.
  intros r. subst r. unfold DataAug._data_aug_fn.
  split; [|split; [|split; [|split]]].
  - intros e He. unfold DataAug.valid_mask. rewrite He. reflexivity.
  - intros He Hd. unfold DataAug.valid_mask, DataAug.default_mask, DataAug.channel0,
      DataAug.ones_like. rewrite He. cbn [DataAug.dim2]. rewrite Hd. reflexivity.
  - intros mask0 e Hm Ha. rewrite Hm, Ha. reflexivity.
  - intros mask0 image1 annos1 mask1 Hm Ha Hbad. rewrite Hm, Ha.
    unfold DataAug.multiply, DataAug.newaxis.
    cbn [DataAug.dim0 DataAug.dim1 DataAug.dim2 DataAug.at3].
    destruct Hbad as [(H1 & H2 & H3)|(H1 & H2 & H3)].
    + rewrite (broadcast_dim_mismatch _ _ H1 H2 H3). reflexivity.
    + rewrite (broadcast_dim_mismatch (DataAug.dim1 image1) _ H1 H2 H3).
      destruct (DataAug.broadcast_dim (DataAug.dim0 image1) (DataAug.rows mask1)); reflexivity.
  - intros mask0 image1 annos1 mask1 image2 e Hm Ha Hmul Hp. rewrite Hm, Ha, Hmul, Hp.
    reflexivity.
Qed.

(* ------------------------------------------------------------------ *)
(** * _map_fn and get_paramed_map_fn *)
(* ------------------------------------------------------------------ *)
Section MapFn.
Import DataAug.
Context {E : Externals} {F : ImageFiles}.

Lemma Qle_bool_false x y : Qle_bool x y = false -> (y < x)%Q.
Proof.
  intros H. apply Qnot_le_lt. intros Hle. apply Qle_bool_iff in Hle. congruence.
Qed.

Lemma clip_bounds x : (0 <= minimum (maximum x 0) 1)%Q /\ (minimum (maximum x 0) 1 <= 1)%Q.
Proof.
  unfold minimum, maximum.
  destruct (Qle_bool x 0) eqn:E0.
  - cbn. split; discriminate.
  - apply Qle_bool_false in E0. destruct (Qle_bool x 1) eqn:E1.
    + apply Qle_bool_iff in E1. split; [apply Qlt_le_weak; exact E0 | exact E1].
    + split; [discriminate | apply Qle_refl].
Qed.

Lemma clip_inside x : (0 <= x)%Q -> (x <= 1)%Q -> (minimum (maximum x 0) 1 == x)%Q.
Proof.
  intros H0 H1. unfold minimum, maximum.
  destruct (Qle_bool x 0) eqn:E0.
  - apply Qle_bool_iff in E0. cbn. apply Qle_antisym; assumption.
  - destruct (Qle_bool x 1) eqn:E1; [reflexivity|].
    apply Qle_bool_false in E1. apply Qle_antisym; [apply Qlt_le_weak; exact E1 | exact H1].
Qed.

Lemma clip_within a : within 0 1 (clip_by_value a 0 1).
Proof. intros i j k _ _ _. cbn [clip_by_value at3]. apply clip_bounds. Qed.

Lemma convert_within image0 : within 0 255 image0 -> within 0 1 (convert_image_dtype image0).
Proof.
  intros H i j k Hi Hj Hk. cbn [convert_image_dtype at3 dim0 dim1 dim2] in *.
  destruct (H i j k Hi Hj Hk) as [H0 H1]. split.
  - apply Qle_shift_div_l; [reflexivity|]. rewrite Qmult_0_l. exact H0.
  - apply Qle_shift_div_r; [reflexivity|]. rewrite Qmult_1_l. exact H1.
Qed.

(** What lines 75-77 make of the image that [data_aug_fn] returned. *)
Lemma jitter_neutral image2 rnd :
  (brightness_delta rnd == 0)%Q -> (contrast_factor rnd == 1)%Q -> within 0 1 image2 ->
  same3 (clip_by_value
           (adjust_contrast (adjust_brightness image2 (brightness_delta rnd))
                            (contrast_factor rnd)) 0 1)
        image2.
Proof.
  intros Hd Hc Hin. unfold same3. cbn [clip_by_value adjust_contrast adjust_brightness
                                       dim0 dim1 dim2 at3].
  repeat split. intros i j k Hi Hj Hk.
  set (M := channel_mean _ k).
  assert (Hy : ((at3 image2 i j k + brightness_delta rnd - M) * contrast_factor rnd + M
                == at3 image2 i j k)%Q).
  { rewrite Hd, Hc. ring. }
  destruct (Hin i j k Hi Hj Hk) as [H0 H1].
  rewrite clip_inside; [exact Hy | rewrite Hy; exact H0 | rewrite Hy; exact H1].
Qed.
End MapFn.

(** X20: what [_map_fn] returns.  Whatever brightness delta and contrast
    factor are drawn, every value of the returned image lies in [0, 1];
    the image has the shape of the one [data_aug_fn] returned, and the
    mask, the target and the label are the ones [data_aug_fn] returned,
    untouched.  [data_aug_fn] is called on the decoded file scaled by
    1/255, which lies in [0, 1] for a decoder that yields bytes.  With a
    zero delta and a factor of 1 an image within [0, 1] comes out as
    [data_aug_fn] returned it. *)
Theorem X20_map_fn_output {E : DataAug.Externals} {F : DataAug.ImageFiles}
        (img_list : DataAug.path) (gt : DataAug.ground_truth)
        (data_aug_fn : DataAug.ndarray3 -> DataAug.ground_truth -> outcome DataAug.sample_t)
        (rnd : DataAug.jitter)
        (img m : DataAug.ndarray3) (t : DataAug.pickled) (l : Q) :
  DataAug._map_fn img_list gt data_aug_fn rnd = Ok (img, m, t, l) ->
  DataAug.within 0 1 img
  /\ exists c image0 image2,
       DataAug.read_file img_list = Ok c
       /\ DataAug.decode_jpeg c = Ok image0
       /\ data_aug_fn (DataAug.convert_image_dtype image0) gt = Ok (image2, m, t, l)
       /\ DataAug.shape3 img = DataAug.shape3 image2
       /\ (DataAug.within 0 255 image0 ->
           DataAug.within 0 1 (DataAug.convert_image_dtype image0))
       /\ ((DataAug.brightness_delta rnd == 0)%Q -> (DataAug.contrast_factor rnd == 1)%Q ->
           DataAug.within 0 1 image2 -> DataAug.same3 img image2).
Proof.
  unfold DataAug._map_fn, DataAug.py_function. intros H.
  destruct (DataAug.read_file img_list) as [c|e] eqn:Hread; [|discriminate].
  destruct (DataAug.decode_jpeg c) as [image0|e] eqn:Hdec; [|discriminate].
  destruct (data_aug_fn (DataAug.convert_image_dtype image0) gt)
    as [[[[image2 m'] t'] l']|e] eqn:Haug; [|discriminate].
  injection H as <- <- <- <-.
  split; [apply clip_within|].
  exists c, image0, image2.
  split; [reflexivity|]. split; [exact Hdec|]. split; [exact Haug|].
  split; [reflexivity|]. split; [apply convert_within|].
  apply jitter_neutral.
Qed.

Lemma X20_map_fn_output_witness :
  let fn := fun image gt =>
    @DataAug._data_aug_fn Scenario.toy_externals image gt Scenario.identity_augmentor
                          Scenario.echo_preprocessor "channels_last" in
  exists img m,
    @DataAug._map_fn Scenario.toy_externals Scenario.toy_files 0%nat Scenario.unmasked fn
                     (DataAug.Jitter (1 # 10) (3 # 2))
    = Ok (img, m, [1; 2], 1%Q)
    /\ DataAug.within 0 1 img.
Proof.
  intros fn. eexists. eexists.
  match goal with
  | |- ?lhs = Ok (?img, ?m, ?t, ?l) /\ _ =>
      assert (H : lhs = Ok (img, m, t, l)) by reflexivity;
      split; [exact H|];
      exact (proj1 (@X20_map_fn_output Scenario.toy_externals Scenario.toy_files 0%nat
                      Scenario.unmasked fn (DataAug.Jitter (1 # 10) (3 # 2)) img m t l H))
  end.
Defined.

(** X21: where [_map_fn] fails.  A file that cannot be read or decoded
    ends the call with that error, before [data_aug_fn] is called; an
    exception of [data_aug_fn] ends it with the error that
    [tf.py_function] reports for it.  Nothing is caught, and in none of
    these cases does the random jitter matter. *)
Theorem X21_map_fn_errors {E : DataAug.Externals} {F : DataAug.ImageFiles}
        (img_list : DataAug.path) (gt : DataAug.ground_truth)
        (data_aug_fn : DataAug.ndarray3 -> DataAug.ground_truth -> outcome DataAug.sample_t)
        (rnd : DataAug.jitter) :
  let r := DataAug._map_fn img_list gt data_aug_fn rnd in
  (forall e, DataAug.read_file img_list = Raise e -> r = Raise e)
  /\ (forall c e, DataAug.read_file img_list = Ok c -> DataAug.decode_jpeg c = Raise e ->
                  r = Raise e)
  /\ (forall c image0 e,
        DataAug.read_file img_list = Ok c -> DataAug.decode_jpeg c = Ok image0 ->
        data_aug_fn (DataAug.convert_image_dtype image0) gt = Raise e ->
        r = Raise (DataAug.py_function_error e))
  /\ ((exists out, r = Ok out)
      <-> exists c image0 out,
            DataAug.read_file img_list = Ok c /\ DataAug.decode_jpeg c = Ok image0
            /\ data_aug_fn (DataAug.convert_image_dtype image0) gt = Ok out).
Proof.
  intros r. subst r. unfold DataAug._map_fn, DataAug.py_function.
  split; [|split; [|split; [|split]]].
  - intros e H. rewrite H. reflexivity.
  - intros c e H1 H2. rewrite H1, H2. reflexivity.
  - intros c image0 e H1 H2 H3. rewrite H1, H2, H3. reflexivity.
  - intros [out H].
    destruct (DataAug.read_file img_list) as [c|e]; [|discriminate].
    destruct (DataAug.decode_jpeg c) as [image0|e] eqn:Hd; [|discriminate].
    destruct (data_aug_fn (DataAug.convert_image_dtype image0) gt) as [o|e] eqn:Ho;
      [|discriminate].
    exists c, image0, o. split; [reflexivity|]. split; [exact Hd | exact Ho].
  - intros (c & image0 & [[[image2 m] t] l] & H1 & H2 & H3). rewrite H1, H2, H3. eauto.
Qed.

(** X22: the map function that [get_paramed_map_fn] builds, end to end,
    under [channels_first].  On a file that decodes, with a validity mask
    and an augmentor that returns a mask of the height and width of its
    image and a preprocessor that returns, the call returns: the image in
    (channel, row, column) layout with every value in [0, 1], the
    augmented mask in (1, row, column) layout, the pickled target and the
    label of the ground truth. *)
Theorem X22_paramed_map_fn {E : DataAug.Externals} {F : DataAug.ImageFiles}
        (augmentor : DataAug.augmentor_t) (preprocessor : DataAug.preprocessor_t)
        (img_list : DataAug.path) (gt : DataAug.ground_truth) (rnd : DataAug.jitter)
        (c : DataAug.contents) (image0 image1 : DataAug.ndarray3)
        (mask0 mask1 : DataAug.ndarray2) (annos1 : DataAug.annos) (target : DataAug.target) :
  DataAug.read_file img_list = Ok c ->
  DataAug.decode_jpeg c = Ok image0 ->
  DataAug.valid_mask (DataAug.convert_image_dtype image0) (DataAug.gt_mask gt) = Ok mask0 ->
  augmentor (DataAug.convert_image_dtype image0) (DataAug.kpt gt) mask0
  = Ok (image1, annos1, mask1) ->
  DataAug.rows mask1 = DataAug.dim0 image1 ->
  DataAug.cols mask1 = DataAug.dim1 image1 ->
  preprocessor annos1 (DataAug.newaxis mask1) = Ok target ->
  exists img m,
    DataAug.get_paramed_map_fn augmentor preprocessor "channels_first" img_list gt rnd
    = Ok (img, m, DataAug.dumps target, DataAug.gt_labeled gt)
    /\ DataAug.shape3 img = (DataAug.dim2 image1, DataAug.dim0 image1, DataAug.dim1 image1)
    /\ DataAug.shape3 m = (1%nat, DataAug.dim0 image1, DataAug.dim1 image1)
    /\ DataAug.within 0 1 img
    /\ forall i j, DataAug.at3 m 0%nat i j = DataAug.at2 mask1 i j.
Proof.
  intros Hread Hdec Hmask Haug Hr Hc Hpre.
  destruct (multiply_mask image1 mask1 Hr Hc) as (r & Hmul & D0 & D1 & D2 & _).
  unfold DataAug.get_paramed_map_fn, DataAug._map_fn, DataAug.py_function,
    DataAug._data_aug_fn.
  rewrite Hread, Hdec, Hmask, Haug, Hmul, Hpre. cbn [String.eqb Ascii.eqb Bool.eqb andb].
  eexists. eexists. split; [reflexivity|].
  split; [|split; [|split]].
  - unfold DataAug.shape3. cbn [DataAug.clip_by_value DataAug.adjust_contrast
      DataAug.adjust_brightness DataAug.transpose_201 DataAug.dim0 DataAug.dim1 DataAug.dim2].
    rewrite D0, D1, D2. reflexivity.
  - unfold DataAug.shape3, DataAug.transpose_201, DataAug.newaxis.
    cbn [DataAug.dim0 DataAug.dim1 DataAug.dim2]. rewrite Hr, Hc. reflexivity.
  - apply clip_within.
  - intros i j. reflexivity.
Qed.

Lemma X22_paramed_map_fn_witness :
  let image := DataAug.convert_image_dtype Scenario.small_jpeg in
  @DataAug.read_file Scenario.toy_files 0%nat = Ok (Some Scenario.small_jpeg)
  /\ @DataAug.decode_jpeg Scenario.toy_files (Some Scenario.small_jpeg) = Ok Scenario.small_jpeg
  /\ exists mask0,
       @DataAug.valid_mask Scenario.toy_externals image (DataAug.gt_mask Scenario.unmasked)
       = Ok mask0
       /\ Scenario.identity_augmentor image (DataAug.kpt Scenario.unmasked) mask0
          = Ok (image, [1; 2], mask0)
       /\ DataAug.rows mask0 = DataAug.dim0 image
       /\ DataAug.cols mask0 = DataAug.dim1 image
       /\ Scenario.echo_preprocessor [1; 2] (DataAug.newaxis mask0) = Ok [1; 2]
       /\ exists img m,
            @DataAug.get_paramed_map_fn Scenario.toy_externals Scenario.toy_files
              Scenario.identity_augmentor Scenario.echo_preprocessor "channels_first"
              0%nat Scenario.unmasked (DataAug.Jitter (- (1 # 10)) (1 # 2))
            = Ok (img, m, [1; 2], 1%Q)
            /\ DataAug.shape3 img = (3%nat, 2%nat, 2%nat)
            /\ DataAug.shape3 m = (1%nat, 2%nat, 2%nat)
            /\ DataAug.within 0 1 img.
Proof.
  intros image.
  assert (H1 : @DataAug.read_file Scenario.toy_files 0%nat = Ok (Some Scenario.small_jpeg))
    by reflexivity.
  assert (H2 : @DataAug.decode_jpeg Scenario.toy_files (Some Scenario.small_jpeg)
               = Ok Scenario.small_jpeg) by reflexivity.
  split; [exact H1|]. split; [exact H2|].
  eexists.
  match goal with
  | |- ?v = Ok ?m0 /\ _ =>
      assert (H3 : v = Ok m0) by reflexivity;
      assert (H4 : Scenario.identity_augmentor image (DataAug.kpt Scenario.unmasked) m0
                   = Ok (image, [1; 2], m0)) by reflexivity;
      assert (H5 : DataAug.rows m0 = DataAug.dim0 image) by reflexivity;
      assert (H6 : DataAug.cols m0 = DataAug.dim1 image) by reflexivity;
      assert (H7 : Scenario.echo_preprocessor [1; 2] (DataAug.newaxis m0) = Ok [1; 2])
        by reflexivity;
      destruct (@X22_paramed_map_fn Scenario.toy_externals Scenario.toy_files
                  Scenario.identity_augmentor Scenario.echo_preprocessor 0%nat
                  Scenario.unmasked (DataAug.Jitter (- (1 # 10)) (1 # 2))
                  (Some Scenario.small_jpeg) Scenario.small_jpeg image m0 m0 [1; 2] [1; 2]
                  H1 H2 H3 H4 H5 H6 H7) as (img & m & Hout & S1 & S2 & W & _)
  end.
  split; [exact H3|]. split; [exact H4|]. split; [exact H5|]. split; [exact H6|].
  split; [exact H7|].
  exists img, m. split; [exact Hout|]. split; [exact S1|]. split; [exact S2 | exact W].
Defined.

(* ------------------------------------------------------------------ *)
(** * What a run leaves behind for the next one *)
(* ------------------------------------------------------------------ *)
Section SavedVariables.
Context {K : Collaborators}.
Import Single.

Lemma tick_saved_step cfg b :
  b_save_step (tick cfg b)
  = (if due (b_step b + 1) (save_interval cfg) then b_step b + 1 else b_save_step b).
Proof. unfold tick. destruct (due _ (save_interval cfg)); reflexivity. Qed.

Lemma tick_saved_is_last cfg s0 l0 b :
  saved_is_last s0 l0 b -> saved_is_last s0 l0 (tick cfg b).
Proof.
  intros (H1 & H2 & H3 & H4). unfold saved_is_last.
  rewrite tick_saves, tick_saved_step, tick_step. unfold tick.
  destruct (due (b_step b + 1) (save_interval cfg)), (due (b_step b + 1) (log_interval cfg));
    cbn [b_save_lr b_events]; rewrite ?app_nil_r, ?last_last.
  all: split; [first [reflexivity | exact H1]|].
  all: split; [lia|].
  all: split.
  all: try (intros Habs; apply app_eq_nil in Habs; destruct Habs as [_ Habs]; discriminate).
  all: try (intros _; cbn [In]; tauto).
  all: try exact H3.
  all: intros Hne; specialize (H4 Hne); cbn [In]; tauto.
Qed.

Lemma ticks_saved_is_last cfg s0 l0 n b :
  saved_is_last s0 l0 b -> saved_is_last s0 l0 (ticks cfg n b).
Proof.
  intros H. induction n as [|n IH]; [exact H|]. rewrite ticks_S.
  apply tick_saved_is_last, IH.
Qed.

Lemma book_checkpoint_of s n r :
  In (CkptSave n r) (b_events (book_of s)) -> In (CkptSave n r) (trace s).
Proof.
  unfold book_of. cbn [b_events].
  induction (trace s) as [|e t IH]; [intros []|].
  cbn [flat_map]. intros H. apply in_app_or in H. destruct H as [H|H].
  - destruct e; simpl in H; try tauto; destruct H as [H|[]]; try discriminate.
    left. exact H.
  - right. exact (IH H).
Qed.

Lemma training_no_epoch cfg env epoch_size total_epoch s :
  total_epoch <= step s / epoch_size + 1 ->
  training cfg env epoch_size total_epoch s
  = (Ok tt, snd (emit (LogStart total_epoch (n_step cfg) (step s / epoch_size + 1) (step s)) s)).
Proof.
  intros H. unfold training.
  rewrite (bind_ok _ _ s s s) by reflexivity.
  rewrite (bind_ok _ _ s _ tt) by reflexivity.
  unfold range. replace (Z.to_nat (total_epoch - (step s / epoch_size + 1))) with 0%nat by lia.
  reflexivity.
Qed.
End SavedVariables.

(** X23: what a run leaves in the variables that the next run restores.
    With domain adaptation off, at the end of a run the saved-step and
    saved-rate variables hold what the last checkpoint of the run stored;
    when the run saved none they still hold what start-up left.  The saved
    step never exceeds the step reached: a later run that restores the
    checkpoint starts from the last save, not from where this run ended. *)
Theorem X23_saved_variables {K : Collaborators} (cfg : Single.config) (env : Single.world)
        (train_model : weights) :
  Single.domainadapt_flag cfg = false ->
  Pipeline.well_shuffled (Single.samples env) (Single.order env) ->
  0 < Single.batch_size cfg <= Z.of_nat (length (Single.samples env)) ->
  let s' := snd (Single.run cfg env train_model) in
  let b0 := Single.start_book cfg (Single.latest_checkpoint env) in
  Single.save_step s' = last (Single.checkpoint_saves s') (Single.start_step env)
  /\ Single.save_step s' <= Single.step s'
  /\ (Single.checkpoint_saves s' = [] -> Single.save_lr s' = Single.b_save_lr b0)
  /\ (Single.checkpoint_saves s' <> [] ->
      In (CkptSave (Single.save_step s') (Single.save_lr s')) (Single.trace s')).
Proof.
  intros Hflag Hw Hb s' b0.
  destruct (run_steps cfg env train_model Hflag Hw Hb) as [s1 [Hrun [Hbook _]]].
  fold b0 in Hbook.
  assert (H0 : Single.saved_is_last (Single.start_step env) (Single.b_save_lr b0) b0).
  { unfold Single.saved_is_last, b0, Single.start_book, Single.start_step, Single.book_saves.
    destruct (Single.latest_checkpoint env) as [[c|]|e]; cbn;
      (split; [reflexivity|]); (split; [lia|]); (split; [reflexivity|]);
      intros Habs; contradiction. }
  apply (ticks_saved_is_last cfg _ _
           (Single.iterations (Single.n_step cfg)
              (Z.of_nat (length (Single.samples env)) / Single.batch_size cfg)
              (Single.start_step env))) in H0.
  rewrite <- Hbook in H0. destruct H0 as (H1 & H2 & H3 & H4).
  rewrite <- book_saves_of in H1, H3, H4.
  subst s'. rewrite Hrun. cbn [snd].
  split; [exact H1|]. split; [exact H2|]. split; [exact H3|].
  intros Hne. apply book_checkpoint_of. exact (H4 Hne).
Qed.

Lemma X23_saved_variables_witness :
  let cfg := Scenario.budget_100 in
  let env := Scenario.toy_world 20 (Ok None) in
  let s' := snd (@Single.run toy cfg env tt) in
  Single.domainadapt_flag cfg = false
  /\ Pipeline.well_shuffled (Single.samples env) (Single.order env)
  /\ 0 < Single.batch_size cfg <= Z.of_nat (length (Single.samples env))
  /\ Single.save_step s' = last (Single.checkpoint_saves s') (Single.start_step env)
  /\ Single.save_step s' <= Single.step s'.
Proof.
  intros cfg env s'.
  assert (Hw : Pipeline.well_shuffled (Single.samples env) (Single.order env))
    by (intros e; apply Permutation_refl).
  assert (Hb : 0 < Single.batch_size cfg <= Z.of_nat (length (Single.samples env)))
    by (cbn; lia).
  split; [reflexivity|]. split; [exact Hw|]. split; [exact Hb|].
  destruct (@X23_saved_variables toy cfg env tt eq_refl Hw Hb) as (H1 & H2 & _).
  split; [exact H1 | exact H2].
Defined.

(** X24: a budget that leaves no iteration to make.  When
    [n_step // epoch_size] does not exceed the epoch that start-up resumes
    in, the run returns normally right after start-up, with domain
    adaptation on as well as off: the step is the one start-up left, no
    batch is pulled, nothing is applied and nothing is saved; the start
    line is the last thing logged. *)
Theorem X24_nothing_left_to_do {K : Collaborators} (cfg : Single.config) (env : Single.world)
        (train_model : weights) :
  0 < Single.batch_size cfg <= Z.of_nat (length (Single.samples env)) ->
  let epoch_size := Z.of_nat (length (Single.samples env)) / Single.batch_size cfg in
  let total_epoch := Single.n_step cfg / epoch_size in
  let cur_epoch := Single.start_step env / epoch_size + 1 in
  total_epoch <= cur_epoch ->
  let r := Single.run cfg env train_model in
  fst r = Ok tt
  /\ Single.step (snd r) = Single.start_step env
  /\ Single.pulled (snd r) = 0%nat
  /\ Single.updates (snd r) = []
  /\ Single.checkpoint_saves (snd r) = []
  /\ exists t, Single.trace (snd r)
               = LogStart total_epoch (Single.n_step cfg) cur_epoch (Single.start_step env) :: t.
Proof.
  intros Hb epoch_size total_epoch cur_epoch Hle r.
  assert (He : epoch_size <> 0).
  { unfold epoch_size. intros E. apply Z.div_small_iff in E; lia. }
  destruct (startup_book cfg env train_model (proj1 Hb) He) as (s0 & Hstart & Hbook).
  fold epoch_size in Hstart.
  assert (Hs : Single.b_step (Single.start_book cfg (Single.latest_checkpoint env))
               = Single.start_step env).
  { unfold Single.start_book, Single.start_step.
    destruct (Single.latest_checkpoint env) as [[c|]|e]; reflexivity. }
  destruct (start_book_events cfg (Single.latest_checkpoint env)) as [Hev Hp].
  assert (B1 : Single.step s0 = Single.start_step env)
    by (rewrite <- Hs, <- Hbook; reflexivity).
  assert (B2 : Single.pulled s0 = 0%nat) by (rewrite <- Hp, <- Hbook; reflexivity).
  assert (B4 : flat_map Single.bookkeeping (Single.trace s0) = [])
    by (rewrite <- Hev, <- Hbook; reflexivity).
  destruct (no_updates_yet s0 B4) as [N1 N2].
  assert (Hrun : r = (Ok tt, snd (Single.emit (LogStart total_epoch (Single.n_step cfg)
                                                 (Single.step s0 / epoch_size + 1)
                                                 (Single.step s0)) s0))).
  { subst r. unfold Single.run, Single.single_train. rewrite (bind_ok _ _ _ _ _ Hstart).
    cbn [fst snd]. apply training_no_epoch. rewrite B1. exact Hle. }
  rewrite Hrun. cbn [fst snd Single.emit modify Single.step Single.pulled].
  split; [reflexivity|]. split; [exact B1|]. split; [exact B2|].
  unfold Single.updates, Single.checkpoint_saves, Single.history.
  cbn [Single.trace rev]. rewrite filter_app, flat_map_app, N1, N2.
  split; [reflexivity|]. split; [reflexivity|].
  exists (Single.trace s0). rewrite B1. reflexivity.
Qed.

Lemma X24_nothing_left_to_do_witness :
  let cfg := Single.Config 7 4 1 (1 # 2) 0 10 50 50 true in
  let env := Scenario.toy_world 20 (Ok None) in
  let r := @Single.run toy cfg env tt in
  0 < Single.batch_size cfg <= Z.of_nat (length (Single.samples env))
  /\ Single.n_step cfg / (Z.of_nat (length (Single.samples env)) / Single.batch_size cfg)
     <= Single.start_step env / (Z.of_nat (length (Single.samples env)) / Single.batch_size cfg) + 1
  /\ fst r = Ok tt
  /\ Single.step (snd r) = 1
  /\ Single.updates (snd r) = [].
Proof.
  intros cfg env r.
  assert (Hb : 0 < Single.batch_size cfg <= Z.of_nat (length (Single.samples env)))
    by (cbn; lia).
  assert (Hle : Single.n_step cfg
                / (Z.of_nat (length (Single.samples env)) / Single.batch_size cfg)
                <= Single.start_step env
                   / (Z.of_nat (length (Single.samples env)) / Single.batch_size cfg) + 1)
    by (vm_compute; discriminate).
  split; [exact Hb|]. split; [exact Hle|].
  destruct (@X24_nothing_left_to_do toy cfg env tt Hb Hle) as (H1 & H2 & _ & H4 & _).
  split; [exact H1|]. split; [exact H2 | exact H4].
Defined.

(* ------------------------------------------------------------------ *)
(** * The rate after a restart *)
(* ------------------------------------------------------------------ *)
Section RestartRate.

Lemma pow_pos f n : (0 < f)%Q -> (0 < pow f n)%Q.
Proof.
  intros Hf. induction n as [|n IH]; cbn [pow]; [reflexivity|].
  apply Qmult_lt_0_compat; assumption.
Qed.

Lemma pow_lt_one f n : (0 < f)%Q -> (f < 1)%Q -> (1 <= n)%nat -> (pow f n < 1)%Q.
Proof.
  intros H0 H1 Hn. destruct n as [|n]; [lia|]. cbn [pow].
  apply Qle_lt_trans with (f * 1)%Q; [|rewrite Qmult_1_r; exact H1].
  apply Qmult_le_l; [exact H0|].
  apply (pow_antitone f 0 n); [apply Qlt_le_weak; exact H0 | apply Qlt_le_weak; exact H1 | lia].
Qed.

Lemma thresholds_lt_beyond s :
  200000 < s -> (1 <= Schedule.thresholds_lt Schedule.lr_decay_steps s)%nat.
Proof.
  intros H. unfold Schedule.thresholds_lt, Schedule.lr_decay_steps. cbn [filter].
  destruct (Z.ltb_spec 200000 s); [cbn [length]; lia | lia].
Qed.
End RestartRate.

(** C1, on a restart.  A run is restarted from a checkpoint that holds a
    step beyond the first threshold together with the schedule's rate for
    that step, which is what a fresh run saves.  Line 207 takes the
    restored rate and lines 209-211 multiply it by the decay factor once
    more for every threshold below the restored step: the rate that
    start-up computes for that step is the schedule's rate times
    [lr_decay_factor ^ (number of thresholds below the step)], strictly
    below [lr_init * lr_decay_factor ^ (number of thresholds <= step)]. *)
Theorem C1_restart_decays_again {K : Collaborators} (cfg : Single.config) (env : Single.world)
        (train_model : weights) (c : Single.snapshot) :
  0 < Single.batch_size cfg <= Z.of_nat (length (Single.samples env)) ->
  Single.latest_checkpoint env = Ok (Some c) ->
  (Single.snap_lr c
   == Schedule.lr_spec (Single.lr_init cfg) (Single.lr_decay_factor cfg)
                       Schedule.lr_decay_steps (Single.snap_step c))%Q ->
  200000 < Single.snap_step c ->
  (0 < Single.lr_init cfg)%Q ->
  (0 < Single.lr_decay_factor cfg)%Q ->
  (Single.lr_decay_factor cfg < 1)%Q ->
  let s' := snd (Single.startup cfg env (Single.initial cfg train_model)) in
  let spec := Schedule.lr_spec (Single.lr_init cfg) (Single.lr_decay_factor cfg)
                               Schedule.lr_decay_steps in
  Single.step s' = Single.snap_step c
  /\ (Single.lr s'
      == spec (Single.step s')
         * pow (Single.lr_decay_factor cfg)
               (Schedule.thresholds_lt Schedule.lr_decay_steps (Single.step s')))%Q
  /\ (Single.lr s' < spec (Single.step s'))%Q.
Proof.
  intros Hb Hc Hsaved Hbeyond Hi Hf0 Hf1 s' spec.
  assert (He : Z.of_nat (length (Single.samples env)) / Single.batch_size cfg <> 0).
  { intros E. apply Z.div_small_iff in E; lia. }
  destruct (startup_book cfg env train_model (proj1 Hb) He) as (s1 & Hrun & Hbook).
  rewrite Hc in Hbook. unfold Single.start_book in Hbook.
  assert (B1 : Single.step s1 = Single.snap_step c) by exact (f_equal Single.b_step Hbook).
  assert (B2 : Single.lr s1
               = Schedule.catch_up (Single.lr_decay_factor cfg) Schedule.lr_decay_steps
                                   (Single.snap_step c) (Single.snap_lr c))
    by exact (f_equal Single.b_lr Hbook).
  subst s'. rewrite Hrun. cbn [snd].
  assert (Hlr : (Single.lr s1
                 == spec (Single.step s1)
                    * pow (Single.lr_decay_factor cfg)
                          (Schedule.thresholds_lt Schedule.lr_decay_steps (Single.step s1)))%Q).
  { rewrite B2, B1, catch_up_from, Hsaved. reflexivity. }
  split; [exact B1|]. split; [exact Hlr|].
  rewrite Hlr.
  assert (Hspec : (0 < spec (Single.step s1))%Q).
  { unfold spec, Schedule.lr_spec. apply Qmult_lt_0_compat; [exact Hi | apply pow_pos; exact Hf0]. }
  rewrite <- (Qmult_1_r (spec (Single.step s1))) at 2.
  apply Qmult_lt_l; [exact Hspec|].
  apply pow_lt_one; [exact Hf0 | exact Hf1 |].
  apply thresholds_lt_beyond. rewrite B1. exact Hbeyond.
Qed.

Lemma C1_restart_decays_again_witness :
  let cfg := Scenario.first_threshold in
  let c := @Single.Snapshot toy 250000 (1 # 2) tt tt in
  let env := Scenario.toy_world 20 (Ok (Some c)) in
  let s' := snd (@Single.startup toy cfg env (@Single.initial toy cfg tt)) in
  0 < Single.batch_size cfg <= Z.of_nat (length (Single.samples env))
  /\ Single.latest_checkpoint env = Ok (Some c)
  /\ (Single.snap_lr c
      == Schedule.lr_spec (Single.lr_init cfg) (Single.lr_decay_factor cfg)
                          Schedule.lr_decay_steps (Single.snap_step c))%Q
  /\ 200000 < Single.snap_step c
  /\ (0 < Single.lr_init cfg)%Q
  /\ (0 < Single.lr_decay_factor cfg)%Q
  /\ (Single.lr_decay_factor cfg < 1)%Q
  /\ Single.step s' = 250000
  /\ (Single.lr s' == 1 # 4)%Q
  /\ (Schedule.lr_spec 1 (1 # 2) Schedule.lr_decay_steps 250000 == 1 # 2)%Q
  /\ (Single.lr s'
      < Schedule.lr_spec (Single.lr_init cfg) (Single.lr_decay_factor cfg)
                         Schedule.lr_decay_steps (Single.step s'))%Q.
Proof.
  intros cfg c env s'.
  assert (H1 : 0 < Single.batch_size cfg <= Z.of_nat (length (Single.samples env)))
    by (cbn; lia).
  assert (H2 : Single.latest_checkpoint env = Ok (Some c)) by reflexivity.
  assert (H3 : (Single.snap_lr c
                == Schedule.lr_spec (Single.lr_init cfg) (Single.lr_decay_factor cfg)
                                    Schedule.lr_decay_steps (Single.snap_step c))%Q)
    by (vm_compute; reflexivity).
  assert (H4 : 200000 < Single.snap_step c) by (cbn; lia).
  assert (H5 : (0 < Single.lr_init cfg)%Q) by reflexivity.
  assert (H6 : (0 < Single.lr_decay_factor cfg)%Q) by reflexivity.
  assert (H7 : (Single.lr_decay_factor cfg < 1)%Q) by reflexivity.
  split; [exact H1|]. split; [exact H2|]. split; [exact H3|]. split; [exact H4|].
  split; [exact H5|]. split; [exact H6|]. split; [exact H7|].
  destruct (@C1_restart_decays_again toy cfg env tt c H1 H2 H3 H4 H5 H6 H7) as (A & _ & C).
  split; [exact A|]. split; [vm_compute; reflexivity|]. split; [vm_compute; reflexivity|].
  exact C.
Defined.

(* ------------------------------------------------------------------ *)
(** * The default mask of _data_aug_fn *)
(* ------------------------------------------------------------------ *)

(** C7 (as amended): when [decode_mask] gives back something that is not
    an array (the way an absent mask reaches line 40) and the image has a
    channel, the mask that the function hands to the augmentor is the
    all-ones mask of the image's height and width.  From there the
    function raises nothing of its own: with an augmentor that returns a
    mask of the height and width of its image and a preprocessor that
    returns, it returns the augmented mask with its new axis, the pickled
    target, the label, and an image of the augmented image's shape whose
    every value is the augmented pixel times the augmented mask; where
    the augmented mask is still all ones, that image is the augmented
    image (both transposed under [channels_first]). *)
Theorem C7_mask_default {E : DataAug.Externals}
        (image : DataAug.ndarray3) (gt : DataAug.ground_truth)
        (augmentor : DataAug.augmentor_t) (preprocessor : DataAug.preprocessor_t)
        (data_format : string) :
  DataAug.decode_mask (DataAug.gt_mask gt) = Ok None ->
  (1 <= DataAug.dim2 image)%nat ->
  let first := String.eqb data_format "channels_first" in
  exists mask0,
    DataAug.valid_mask image (DataAug.gt_mask gt) = Ok mask0
    /\ DataAug.rows mask0 = DataAug.dim0 image
    /\ DataAug.cols mask0 = DataAug.dim1 image
    /\ (forall i j, DataAug.at2 mask0 i j == 1)%Q
    /\ forall image1 annos1 mask1 target_x,
         augmentor image (DataAug.kpt gt) mask0 = Ok (image1, annos1, mask1) ->
         DataAug.rows mask1 = DataAug.dim0 image1 ->
         DataAug.cols mask1 = DataAug.dim1 image1 ->
         preprocessor annos1 (DataAug.newaxis mask1) = Ok target_x ->
         exists out_image,
           DataAug._data_aug_fn image gt augmentor preprocessor data_format
           = Ok (out_image,
                 (if first then DataAug.transpose_201 (DataAug.newaxis mask1)
                  else DataAug.newaxis mask1),
                 DataAug.dumps target_x, DataAug.gt_labeled gt)
           /\ DataAug.shape3 out_image
              = (if first
                 then (DataAug.dim2 image1, DataAug.dim0 image1, DataAug.dim1 image1)
                 else (DataAug.dim0 image1, DataAug.dim1 image1, DataAug.dim2 image1))
           /\ (forall i j k,
                 (i < DataAug.dim0 image1)%nat -> (j < DataAug.dim1 image1)%nat ->
                 (k < DataAug.dim2 image1)%nat ->
                 (if first then DataAug.at3 out_image k i j else DataAug.at3 out_image i j k)
                 = (DataAug.at3 image1 i j k * DataAug.at2 mask1 i j)%Q)
           /\ (DataAug.all_ones mask1 ->
               DataAug.same3 out_image
                 (if first then DataAug.transpose_201 image1 else image1)).
Proof.
  intros Hdec Hc first.
  assert (Hm : exists m, DataAug.default_mask image = Ok m
                         /\ DataAug.rows m = DataAug.dim0 image
                         /\ DataAug.cols m = DataAug.dim1 image
                         /\ (forall i j, DataAug.at2 m i j == 1)%Q).
  { unfold DataAug.default_mask, DataAug.channel0, DataAug.ones_like.
    cbn [DataAug.dim0 DataAug.dim1 DataAug.dim2 DataAug.at3].
    destruct (Nat.eqb_spec (DataAug.dim2 image) 0); [lia|].
    eexists. split; [reflexivity|]. split; [reflexivity|]. split; [reflexivity|].
    intros i j. reflexivity. }
  destruct Hm as (m & Hm & Hr & Hcol & Hones).
  exists m. unfold DataAug.valid_mask. rewrite Hdec.
  split; [exact Hm|]. split; [exact Hr|]. split; [exact Hcol|]. split; [exact Hones|].
  intros image1 annos1 mask1 target_x Haug Hr1 Hc1 Hpre.
  destruct (multiply_mask image1 mask1 Hr1 Hc1) as (r & Hmul & D0 & D1 & D2 & Hpx).
  assert (Hsame : DataAug.all_ones mask1 -> DataAug.same3 r image1).
  { intros H1. unfold DataAug.same3. rewrite D0, D1, D2. repeat split.
    intros i j k Hi Hj Hk. rewrite (Hpx i j k Hi Hj Hk).
    assert (Hone : (DataAug.at2 mask1 i j == 1)%Q)
      by (apply H1; rewrite ?Hr1, ?Hc1; assumption).
    rewrite Hone. apply Qmult_1_r. }
  unfold DataAug._data_aug_fn, DataAug.valid_mask. rewrite Hdec, Hm, Haug, Hmul, Hpre.
  fold first. destruct first.
  - exists (DataAug.transpose_201 r). split; [reflexivity|]. split; [|split].
    + unfold DataAug.shape3, DataAug.transpose_201.
      cbn [DataAug.dim0 DataAug.dim1 DataAug.dim2]. rewrite D0, D1, D2. reflexivity.
    + exact Hpx.
    + intros H1. apply (same3_transpose r image1), Hsame, H1.
  - exists r. split; [reflexivity|]. split; [|split].
    + unfold DataAug.shape3. rewrite D0, D1, D2. reflexivity.
    + exact Hpx.
    + exact Hsame.
Qed.

Lemma C7_mask_default_witness :
  @DataAug.decode_mask Scenario.toy_externals (DataAug.gt_mask Scenario.unmasked) = Ok None
  /\ (1 <= DataAug.dim2 Scenario.small_image)%nat
  /\ exists mask0,
       @DataAug.valid_mask Scenario.toy_externals Scenario.small_image
                           (DataAug.gt_mask Scenario.unmasked) = Ok mask0
       /\ (forall i j, DataAug.at2 mask0 i j == 1)%Q
       /\ exists out_image,
            DataAug._data_aug_fn Scenario.small_image Scenario.unmasked
                                 Scenario.identity_augmentor Scenario.echo_preprocessor
                                 "channels_last"
            = Ok (out_image, DataAug.newaxis mask0, [1; 2], 1%Q)
            /\ DataAug.shape3 out_image = (2%nat, 2%nat, 3%nat)
            /\ DataAug.same3 out_image Scenario.small_image.
Proof.
  assert (Ha : @DataAug.decode_mask Scenario.toy_externals (DataAug.gt_mask Scenario.unmasked)
               = Ok None) by reflexivity.
  assert (Hb : (1 <= DataAug.dim2 Scenario.small_image)%nat) by (cbn; lia).
  split; [exact Ha|]. split; [exact Hb|].
  destruct (@C7_mask_default Scenario.toy_externals Scenario.small_image Scenario.unmasked
              Scenario.identity_augmentor Scenario.echo_preprocessor "channels_last" Ha Hb)
    as (mask0 & Hv & Hr & Hc & Hones & Hfn).
  exists mask0. split; [exact Hv|]. split; [exact Hones|].
  destruct (Hfn Scenario.small_image [1; 2] mask0 [1; 2] eq_refl Hr Hc eq_refl)
    as (out_image & Hout & Hshape & _ & Hsame).
  exists out_image. split; [exact Hout|]. split; [exact Hshape|].
  apply Hsame. intros i j _ _. apply Hones.
Defined.

(** C7, counterexample: a malformed mask is not replaced by the default.
    (a) When the decoder raises on mask metadata it cannot read, the call
    ends with that exception: line 39 is not guarded.  (b) When the decoder
    returns an array that does not fit the image, here 3 x 3 on a 2 x 2
    image, line 40 keeps it because it is an array, and with an augmentor
    that leaves both as they are the multiplication of line 46 raises. *)
Lemma C7_counterexample :
  (let gt := @DataAug.GroundTruth Scenario.strict_externals ([1; 2] : list Z) 1 (Some None) in
   @DataAug._data_aug_fn Scenario.strict_externals Scenario.small_image gt
                         Scenario.identity_augmentor Scenario.echo_preprocessor
                         "channels_last"
   = Raise ValueError)
  /\ (let gt := @DataAug.GroundTruth Scenario.toy_externals ([1; 2] : list Z) 1
                                     (Some Scenario.misshapen_mask) in
      @DataAug.valid_mask Scenario.toy_externals Scenario.small_image (DataAug.gt_mask gt)
      = Ok Scenario.misshapen_mask
      /\ @DataAug._data_aug_fn Scenario.toy_externals Scenario.small_image gt
                               Scenario.identity_augmentor Scenario.echo_preprocessor
                               "channels_last"
         = Raise ValueError).
Proof.
  split; [reflexivity|]. split; reflexivity.
Qed.

(* ------------------------------------------------------------------ *)
(** * The loss optimized with domain adaptation off *)
(* ------------------------------------------------------------------ *)
Section WeightDecay.
Context {K : Collaborators}.


End WeightDecay.


